(** * mesh2cot: Meshtastic position packets to Cursor-on-Target events

    A shallow embedding of [mesh2cot.py] and the verification of its
    specification.  Definitions come first:

    - [Module Py]: the fragment of the Python runtime the program relies
      on: dynamically typed values, exceptions, the formatting operators
      [%08x], [%d] and [%f], [gmtime] and [strftime], and the serialiser of
      [xml.etree.ElementTree] (as of Python 3.9: attributes in insertion
      order, tab, line feed and carriage return escaped in attribute
      values).
    - [Module Xml]: a reader for the XML that the serialiser writes.
    - [Module Mesh2Cot]: the program, [makeCoT] and [onReceive], over an
      explicit world (clock, sockets, datagrams sent, log).
    - [Module Samples]: concrete packets and worlds.

    The facts follow, in the same order; the theorems on the program are
    in [Module Mesh2CotFacts].

    Python [str] and [bytes] are both [string], a list of 8-bit
    characters; a Python [int] is a [Z]; a Python [float] is a
    [spec_float], the exact binary value of a double; a [dict] with string
    keys is a [gmap string _]; an exception is a value of [exn], returned
    instead of raised. *)

From Stdlib Require Import ZArith NArith String Ascii List Lia Bool.
From Stdlib Require Import SpecFloat.
From stdpp Require Import gmap strings list fin_maps.

#[local] Open Scope Z_scope.
#[local] Arguments String.append : simpl nomatch.

(* ===================================================================== *)
(** ** String helpers *)
(* ===================================================================== *)

(** [string_forall p s]: every character of [s] satisfies [p]. *)
Fixpoint string_forall (p : ascii -> bool) (s : string) : bool :=
  match s with
  | EmptyString => true
  | String c s' => p c && string_forall p s'
  end.

(** [repeat_char c n] is Python's [c * n]. *)
Fixpoint repeat_char (c : ascii) (n : nat) : string :=
  match n with
  | O => EmptyString
  | S n' => String c (repeat_char c n')
  end.

(* ===================================================================== *)
(** ** The Python runtime fragment *)
(* ===================================================================== *)

Module Py.

(** Exceptions the program can meet. *)
Inductive exn : Type :=
  | KeyError (key : string)
  | TypeError
  | AttributeError
  | ValueError
  | OverflowError
  | OSError.

(** The outcome of evaluating an expression or running a statement. *)
Inductive result (A : Type) : Type :=
  | Ok (a : A)
  | Raise (e : exn).
Arguments Ok {A} a.
Arguments Raise {A} e.

Definition rbind {A B} (r : result A) (k : A -> result B) : result B :=
  match r with
  | Ok a => k a
  | Raise e => Raise e
  end.

#[global] Instance result_ret : MRet result := @Ok.
#[global] Instance result_bind : MBind result := fun A B k r => rbind r k.

(** Values: what a decoded packet (a protobuf message turned into nested
    dictionaries) is made of. *)
#[warnings="-register-all"]
Inductive pyval : Type :=
  | PyNone
  | PyBool (b : bool)
  | PyInt (z : Z)
  | PyFloat (f : spec_float)
  | PyStr (s : string)
  | PyDict (d : gmap string pyval).

(** [bool(v)]: truth value testing. *)
Definition truthy (v : pyval) : bool :=
  match v with
  | PyNone => false
  | PyBool b => b
  | PyInt z => negb (z =? 0)
  | PyFloat f =>
      match f with
      | S754_zero _ => false
      | _ => true
      end
  | PyStr s => negb (String.eqb s "")
  | PyDict d => negb (bool_decide (d = ∅))
  end.

(** [v[k]] for a string key [k]. *)
Definition getitem (v : pyval) (k : string) : result pyval :=
  match v with
  | PyDict d =>
      match d !! k with
      | Some x => Ok x
      | None => Raise (KeyError k)
      end
  | _ => Raise TypeError
  end.

(** [is_substring a s]: Python's [a in s] on two strings. *)
Fixpoint is_substring (a s : string) : bool :=
  String.prefix a s ||
  match s with
  | EmptyString => false
  | String _ s' => is_substring a s'
  end.

(** [k in v] for a string [k]. *)
Definition contains (k : string) (v : pyval) : result bool :=
  match v with
  | PyDict d => Ok (bool_decide (is_Some (d !! k)))
  | PyStr s => Ok (is_substring k s)
  | _ => Raise TypeError
  end.

(** [d.keys() >= {k1, k2}]: both keys are in the dictionary.  Only a
    dictionary has [keys]. *)
Definition keys_superset (v : pyval) (ks : list string) : result bool :=
  match v with
  | PyDict d => Ok (forallb (fun k => bool_decide (is_Some (d !! k))) ks)
  | _ => Raise AttributeError
  end.

(* ------------------------------------------------------------------- *)
(** *** Integer formatting: [%08x] and [%d] *)

(** The character of a digit, ["0123456789abcdef"[d]]. *)
Definition digit_char (d : N) : ascii :=
  match d with
  | 0 => "0" | 1 => "1" | 2 => "2" | 3 => "3" | 4 => "4" | 5 => "5"
  | 6 => "6" | 7 => "7" | 8 => "8" | 9 => "9" | 10 => "a" | 11 => "b"
  | 12 => "c" | 13 => "d" | 14 => "e" | _ => "f"
  end%N%char.

(** The digits of [n] in base [b], most significant first, none for 0.
    [fuel] bounds the number of digits. *)
Fixpoint radix_digits (b : N) (fuel : nat) (n : N) : string :=
  match fuel with
  | O => ""
  | S f =>
      if (n =? 0)%N then ""
      else radix_digits b f (n / b) +:+ String (digit_char (n mod b)) ""
  end.

(** [format(n, 'x')] and [str(n)] for [n >= 0]: at least one digit. *)
Definition radix_of_N (b : N) (n : N) : string :=
  if (n =? 0)%N then "0" else radix_digits b (S (N.to_nat (N.log2 n))) n.

Definition hex_of_N : N -> string := radix_of_N 16.
Definition dec_of_N : N -> string := radix_of_N 10.

(** The value of a digit character, in either case (0 for any other
    character). *)
Definition digit_value (c : ascii) : N :=
  let n := N_of_ascii c in
  if ((48 <=? n) && (n <=? 57))%N then n - 48
  else if ((97 <=? n) && (n <=? 102))%N then n - 87
  else if ((65 <=? n) && (n <=? 70))%N then n - 55
  else 0%N.

(** [int(s, b)] on a string of digits: the number the digits denote,
    continuing from [acc]. *)
Fixpoint radix_value (b : N) (acc : N) (s : string) : N :=
  match s with
  | EmptyString => acc
  | String c s' => radix_value b (acc * b + digit_value c) s'
  end.

(** The characters [0-9a-f]. *)
Definition is_lower_hex (c : ascii) : bool :=
  let n := N_of_ascii c in
  ((48 <=? n) && (n <=? 57) || (97 <=? n) && (n <=? 102))%N.

(** Left zero padding to a minimum width. *)
Definition zfill (w : nat) (s : string) : string :=
  repeat_char "0" (w - String.length s) +:+ s.

(** ['%08x' % z] on an [int]: the sign counts in the width. *)
Definition fmt_08x_int (z : Z) : string :=
  if z <? 0 then "-" +:+ zfill 7 (hex_of_N (Z.abs_N z))
  else zfill 8 (hex_of_N (Z.to_N z)).

(** ['%08x' % v]: an integer (or a [bool], a subclass of [int]) is
    required. *)
Definition fmt_08x (v : pyval) : result string :=
  match v with
  | PyInt z => Ok (fmt_08x_int z)
  | PyBool b => Ok (fmt_08x_int (if b then 1 else 0))
  | _ => Raise TypeError
  end.

(** ['%d' % z] on an [int]. *)
Definition fmt_d_int (z : Z) : string :=
  if z <? 0 then "-" +:+ dec_of_N (Z.abs_N z) else dec_of_N (Z.to_N z).

(** ['%d' % v]: a float is truncated towards zero ([int(v)]), which fails
    on [nan] (ValueError) and on the infinities (OverflowError). *)
Definition fmt_d (v : pyval) : result string :=
  match v with
  | PyInt z => Ok (fmt_d_int z)
  | PyBool b => Ok (fmt_d_int (if b then 1 else 0))
  | PyFloat f =>
      match f with
      | S754_zero _ => Ok "0"
      | S754_nan => Raise ValueError
      | S754_infinity _ => Raise OverflowError
      | S754_finite s m e =>
          let a := if 0 <=? e then Z.pos m * 2 ^ e else Z.pos m / 2 ^ (- e) in
          Ok (fmt_d_int (if s then - a else a))
      end
  | _ => Raise TypeError
  end.

(* ------------------------------------------------------------------- *)
(** *** Float formatting: [%f] *)

(** [num / den] rounded to the nearest integer, ties to even ([den > 0]). *)
Definition round_half_even (num den : Z) : Z :=
  let q := num / den in
  let r := num mod den in
  if 2 * r <? den then q
  else if den <? 2 * r then q + 1
  else if Z.even q then q else q + 1.

(** [m * 2^e] in millionths, correctly rounded. *)
Definition millionths (m : positive) (e : Z) : Z :=
  if 0 <=? e then Z.pos m * 1000000 * 2 ^ e
  else round_half_even (Z.pos m * 1000000) (2 ^ (- e)).

(** [u] millionths written with six decimals. *)
Definition fixed6 (u : Z) : string :=
  dec_of_N (Z.to_N (u / 1000000)) +:+ "." +:+
  zfill 6 (dec_of_N (Z.to_N (u mod 1000000))).

(** ['%f' % x] on a [float]: the exact binary value, rounded to six
    decimals (ties to even), the sign kept also on a zero result. *)
Definition fmt_f_float (x : spec_float) : string :=
  match x with
  | S754_nan => "nan"
  | S754_infinity s => if s then "-inf" else "inf"
  | S754_zero s => (if s then "-" else "") +:+ "0.000000"
  | S754_finite s m e => (if s then "-" else "") +:+ fixed6 (millionths m e)
  end.

(** [float(z)] on an [int]: the nearest double, OverflowError beyond the
    range. *)
Definition float_of_int (z : Z) : result spec_float :=
  match binary_normalize 53 1024 z 0 false with
  | S754_infinity _ => Raise OverflowError
  | f => Ok f
  end.

(** ['%f' % v]: a number is required; an [int] is converted first. *)
Definition fmt_f (v : pyval) : result string :=
  match v with
  | PyFloat x => Ok (fmt_f_float x)
  | PyInt z => rbind (float_of_int z) (fun x => Ok (fmt_f_float x))
  | PyBool b =>
      Ok (fmt_f_float (if b then S754_finite false 4503599627370496 (-52)
                       else S754_zero false))
  | _ => Raise TypeError
  end.

(** [abs(x) <= k] for a [float] [x] and an integer [k]. *)
Definition float_abs_le (x : spec_float) (k : Z) : bool :=
  match x with
  | S754_zero _ => true
  | S754_finite _ m e =>
      if 0 <=? e then Z.pos m * 2 ^ e <=? k else Z.pos m <=? k * 2 ^ (- e)
  | _ => false
  end.

(* ------------------------------------------------------------------- *)
(** *** [time]: [gmtime] and [strftime] *)

Record struct_time : Type := mk_tm {
  tm_year : Z; tm_mon : Z; tm_mday : Z;
  tm_hour : Z; tm_min : Z; tm_sec : Z
}.

(** The proleptic Gregorian date of day number [days] (day 0 is
    1970-01-01), by the era / day-of-era computation on 400-year cycles. *)
Definition civil_from_days (days : Z) : Z * Z * Z :=
  let z := days + 719468 in
  let era := z / 146097 in
  let doe := z mod 146097 in
  let yoe := (doe - doe / 1460 + doe / 36524 - doe / 146096) / 365 in
  let doy := doe - (365 * yoe + yoe / 4 - yoe / 100) in
  let mp := (5 * doy + 2) / 153 in
  let d := doy - (153 * mp + 2) / 5 + 1 in
  let m := if mp <? 10 then mp + 3 else mp - 9 in
  let y := yoe + era * 400 + (if m <=? 2 then 1 else 0) in
  (y, m, d).

(** [gmtime(secs)] on a whole number of seconds since the epoch. *)
Definition gmtime (secs : Z) : struct_time :=
  let '(y, m, d) := civil_from_days (secs / 86400) in
  let r := secs mod 86400 in
  mk_tm y m d (r / 3600) (r mod 3600 / 60) (r mod 60).

(** One conversion of [strftime]. *)
Definition strftime_field (c : ascii) (tm : struct_time) : string :=
  let two z := zfill 2 (dec_of_N (Z.to_N z)) in
  if Ascii.eqb c "Y" then fmt_d_int (tm_year tm)
  else if Ascii.eqb c "m" then two (tm_mon tm)
  else if Ascii.eqb c "d" then two (tm_mday tm)
  else if Ascii.eqb c "H" then two (tm_hour tm)
  else if Ascii.eqb c "M" then two (tm_min tm)
  else if Ascii.eqb c "S" then two (tm_sec tm)
  else if Ascii.eqb c "%" then "%"
  else String "%" (String c "").

(** [strftime(format, tm)]: conversions are replaced, every other
    character of the format is copied. *)
Fixpoint strftime (format : string) (tm : struct_time) : string :=
  match format with
  | EmptyString => ""
  | String c rest =>
      if Ascii.eqb c "%" then
        match rest with
        | EmptyString => "%"
        | String k rest' => strftime_field k tm +:+ strftime rest' tm
        end
      else String c (strftime rest tm)
  end.

(* ------------------------------------------------------------------- *)
(** *** [xml.etree.ElementTree]: elements and [tostring] *)

(** An element: tag, attributes in insertion order, text, children. *)
#[warnings="-register-all"]
Inductive element : Type :=
  | Element (tag : string) (attrib : list (string * string))
            (text : option string) (children : list element).

Definition tag_of (e : element) : string :=
  match e with Element t _ _ _ => t end.
Definition attrib_of (e : element) : list (string * string) :=
  match e with Element _ a _ _ => a end.
Definition text_of (e : element) : option string :=
  match e with Element _ _ x _ => x end.
Definition children_of (e : element) : list element :=
  match e with Element _ _ _ c => c end.

(** [e.get(k)]. *)
Fixpoint assoc (k : string) (l : list (string * string)) : option string :=
  match l with
  | [] => None
  | (k', v) :: l' => if String.eqb k k' then Some v else assoc k l'
  end.
Definition get (e : element) (k : string) : option string :=
  assoc k (attrib_of e).

(** [e.findall(t)]: the children with tag [t]. *)
Definition findall (e : element) (t : string) : list element :=
  List.filter (fun c => String.eqb (tag_of c) t) (children_of e).

(** [e.findall('t1/t2/...')]: the descendants reached by a path of tags. *)
Fixpoint findpath (e : element) (path : list string) : list element :=
  match path with
  | [] => [e]
  | t :: path' => flat_map (fun c => findpath c path') (findall e t)
  end.

(** The double quote character. *)
Definition dquote : ascii := "034"%char.

(** [s.replace(c, r)] for a single character [c]. *)
Fixpoint replace_char (c : ascii) (r : string) (s : string) : string :=
  match s with
  | EmptyString => ""
  | String x s' =>
      if Ascii.eqb x c then r +:+ replace_char c r s'
      else String x (replace_char c r s')
  end.

(** [_escape_cdata]: text content. *)
Definition escape_cdata (s : string) : string :=
  replace_char ">" "&gt;" (replace_char "<" "&lt;" (replace_char "&" "&amp;" s)).

(** [_escape_attrib]: attribute values; the replacements are made in
    this order ([&] first). *)
Definition escape_attrib (s : string) : string :=
  replace_char "009" "&#09;"
    (replace_char "010" "&#10;"
      (replace_char "013" "&#13;"
        (replace_char dquote "&quot;"
          (replace_char ">" "&gt;"
            (replace_char "<" "&lt;"
              (replace_char "&" "&amp;" s)))))).

(** [s.encode('us-ascii', 'xmlcharrefreplace')]: a character above 127
    becomes a decimal character reference. *)
Fixpoint encode_ascii (s : string) : string :=
  match s with
  | EmptyString => ""
  | String x s' =>
      let n := N_of_ascii x in
      if (n <? 128)%N then String x (encode_ascii s')
      else "&#" +:+ dec_of_N n +:+ ";" +:+ encode_ascii s'
  end.

Definition serialize_attrib (kv : string * string) : string :=
  " " +:+ fst kv +:+ "=" +:+
  String dquote (escape_attrib (snd kv) +:+ String dquote "").

Fixpoint concat_map {A} (f : A -> string) (l : list A) : string :=
  match l with
  | [] => ""
  | x :: l' => f x +:+ concat_map f l'
  end.

(** [_serialize_xml] with [short_empty_elements]: an element with neither
    text nor children is written [<tag ... />]. *)
Fixpoint serialize_xml (e : element) : string :=
  match e with
  | Element tag attrib text children =>
      let txt := match text with Some t => t | None => "" end in
      "<" +:+ tag +:+ concat_map serialize_attrib attrib +:+
      match txt, children with
      | EmptyString, [] => " />"
      | _, _ =>
          ">" +:+ escape_cdata txt +:+
          (fix go (l : list element) : string :=
             match l with
             | [] => ""
             | c :: l' => serialize_xml c +:+ go l'
             end) children +:+
          "</" +:+ tag +:+ ">"
      end
  end.

(** [ET.tostring(e)]: default encoding [us-ascii], no XML declaration. *)
Definition tostring (e : element) : string := encode_ascii (serialize_xml e).

(* ------------------------------------------------------------------- *)
(** *** [os.getenv] and [int] on a string *)

(** [os.getenv(name, default)]: the environment maps names to strings. *)
Definition getenv (env : gmap string string) (name default : string)
  : string :=
  match env !! name with
  | Some v => v
  | None => default
  end.

(** The decimal digits, and C's [isspace]: the blanks that [int] skips
    around a number. *)
Definition is_dec_digit (c : ascii) : bool :=
  let n := N_of_ascii c in ((48 <=? n) && (n <=? 57))%N.
Definition is_c_space (c : ascii) : bool :=
  let n := N_of_ascii c in ((9 <=? n) && (n <=? 13) || (n =? 32))%N.

(** What [int] first does to a string that is not all ASCII: a character
    below 127 is kept, a white space character (here the next-line and
    the no-break space, 133 and 160) becomes a space, and any other
    character, none being a decimal digit below 256, is replaced by [?]
    and ends the string. *)
Fixpoint to_ascii_decimal (s : string) : string :=
  match s with
  | EmptyString => ""
  | String c s' =>
      let n := N_of_ascii c in
      if (n <? 127)%N then String c (to_ascii_decimal s')
      else if ((n =? 133) || (n =? 160))%N
           then String " " (to_ascii_decimal s')
           else "?"
  end.

Fixpoint skip_c_spaces (s : string) : string :=
  match s with
  | String c s' => if is_c_space c then skip_c_spaces s' else s
  | EmptyString => s
  end.

(** The digits of a decimal literal, single underscores allowed between
    them: the value (continuing from [acc]), the number of digits (from
    [count]) and what follows.  [after_underscore] says that the character
    before was an underscore; two in a row, or one at the end of the
    digits, are refused. *)
Fixpoint scan_digits (s : string) (after_underscore : bool) (acc : N)
    (count : nat) : option (N * nat * string) :=
  match s with
  | String c s' =>
      if is_dec_digit c
      then scan_digits s' false (acc * 10 + digit_value c) (S count)
      else if Ascii.eqb c "_" then
        if after_underscore then None else scan_digits s' true acc count
      else if after_underscore then None else Some (acc, count, s)
  | EmptyString => if after_underscore then None else Some (acc, count, s)
  end.

(** What can follow the digits of a literal: the end of the string, or a
    character that is neither a digit nor an underscore. *)
Definition ends_digits (r : string) : bool :=
  match r with
  | String c _ => negb (is_dec_digit c) && negb (Ascii.eqb c "_")
  | EmptyString => true
  end.

(** The default limit on the digits of a string converted to an [int]
    (Python 3.11, and the security releases of the earlier versions). *)
Definition MAX_STR_DIGITS : nat := 4300.

(** The sign of a literal, if any: whether it is a minus, and what
    follows it. *)
Definition strip_sign (s : string) : bool * string :=
  match s with
  | String c r =>
      if Ascii.eqb c "-" then (true, r)
      else if Ascii.eqb c "+" then (false, r)
      else (false, s)
  | EmptyString => (false, s)
  end.

Definition starts_with (c : ascii) (s : string) : bool :=
  match s with
  | String x _ => Ascii.eqb x c
  | EmptyString => false
  end.

(** [int(s)] on a string, base 10: blanks, a sign, digits with single
    underscores between them, blanks; anything else is a ValueError. *)
Definition int_of_str (s : string) : result Z :=
  let t :=
    if string_forall (fun c => (N_of_ascii c <? 128)%N) s then s
    else to_ascii_decimal s in
  let '(neg, t2) := strip_sign (skip_c_spaces t) in
  if starts_with "_" t2 then Raise ValueError
  else
    match scan_digits t2 false 0 0 with
    | Some (n, count, r) =>
        if (count =? 0)%nat || (MAX_STR_DIGITS <? count)%nat
        then Raise ValueError
        else
          match skip_c_spaces r with
          | EmptyString => Ok (if neg : bool then - Z.of_N n else Z.of_N n)
          | _ => Raise ValueError
          end
    | None => Raise ValueError
    end.

(** The characters that a string accepted by [int] is made of: digits,
    blanks (the next-line and no-break space characters among them), the
    signs and the underscore. *)
Definition int_char (c : ascii) : bool :=
  let n := N_of_ascii c in
  (is_dec_digit c || is_c_space c || (n =? 43) || (n =? 45) || (n =? 95) ||
   (n =? 133) || (n =? 160))%N.

End Py.

(* ===================================================================== *)
(** ** Reading a document back: the XML 1.0 fragment of the serialiser *)
(* ===================================================================== *)

(** The program only writes documents; what a consumer reads is fixed by
    XML 1.0.  This is a reader for the fragment of XML 1.0 that [tostring]
    writes: an optional XML declaration, then one element; elements with
    attributes, character data and child elements; the five predefined
    entities and numeric character references.  Comments, processing
    instructions and CDATA sections, which the serialiser never writes,
    are refused.  Characters are 8-bit, names are in ASCII, and line ends
    are taken as they are.  The result is the tree as [ElementTree] holds
    it: for each element the text before the first child, [None] when
    there is none; the text after a child is checked and dropped. *)
Module Xml.
Import Py.

Definition code (c : ascii) : N := N_of_ascii c.

(** [S]: white space. *)
Definition is_space (c : ascii) : bool :=
  ((code c =? 32) || (code c =? 9) || (code c =? 10) || (code c =? 13))%N.

(** [Char]: tab, line feed, carriage return and everything from the
    space on. *)
Definition is_xml_char (c : ascii) : bool :=
  ((code c =? 9) || (code c =? 10) || (code c =? 13) || (32 <=? code c))%N.

Definition is_letter (c : ascii) : bool :=
  ((65 <=? code c) && (code c <=? 90) || (97 <=? code c) && (code c <=? 122))%N.
Definition is_digit (c : ascii) : bool :=
  ((48 <=? code c) && (code c <=? 57))%N.

(** [NameStartChar] and [NameChar], within ASCII. *)
Definition is_name_start (c : ascii) : bool :=
  (is_letter c || (code c =? 95) || (code c =? 58))%N.
Definition is_name_char (c : ascii) : bool :=
  (is_name_start c || is_digit c || (code c =? 45) || (code c =? 46))%N.

Definition is_name (s : string) : bool :=
  match s with
  | EmptyString => false
  | String c s' => is_name_start c && string_forall is_name_char s'
  end.

(** The characters that [encode_ascii] leaves as they are. *)
Definition is_ascii (c : ascii) : bool := (code c <? 128)%N.

(** All characters are XML characters. *)
Definition xml_safe (s : string) : bool := string_forall is_xml_char s.

Fixpoint skip_spaces (s : string) : string :=
  match s with
  | String c s' => if is_space c then skip_spaces s' else s
  | EmptyString => s
  end.

(** The longest prefix of name characters, and what follows it. *)
Fixpoint take_name_chars (s : string) : string * string :=
  match s with
  | String c s' =>
      if is_name_char c then
        let '(n, r) := take_name_chars s' in (String c n, r)
      else ("", s)
  | EmptyString => ("", s)
  end.

Definition parse_name (s : string) : option (string * string) :=
  match s with
  | String c s' =>
      if is_name_start c then
        let '(n, r) := take_name_chars s' in Some (String c n, r)
      else None
  | EmptyString => None
  end.

(** [x] does not continue a name. *)
Definition ends_name (x : string) : bool :=
  match x with
  | String c _ => negb (is_name_char c)
  | EmptyString => true
  end.

(** The number a string of decimal (or hexadecimal) digits denotes;
    [None] when the string is empty or has another character. *)
Definition number_of (hex : bool) (s : string) : option N :=
  let upper c := ((65 <=? code c) && (code c <=? 70))%N in
  let ok c := is_digit c || hex && (is_lower_hex c || upper c) in
  match s with
  | EmptyString => None
  | _ => if string_forall ok s
         then Some (radix_value (if hex then 16 else 10) 0 s)
         else None
  end.

(** The character a reference [&body;] stands for. *)
Definition decode_reference (body : string) : option ascii :=
  if String.eqb body "amp" then Some "&"%char
  else if String.eqb body "lt" then Some "<"%char
  else if String.eqb body "gt" then Some ">"%char
  else if String.eqb body "quot" then Some dquote
  else if String.eqb body "apos" then Some "'"%char
  else
    match body with
    | String "#" (String "x" digits) =>
        n ← number_of true digits;
        if (n <? 256)%N && is_xml_char (ascii_of_N n)
        then Some (ascii_of_N n) else None
    | String "#" digits =>
        n ← number_of false digits;
        if (n <? 256)%N && is_xml_char (ascii_of_N n)
        then Some (ascii_of_N n) else None
    | _ => None
    end.

(** [AttValue] after the opening quote [q]: up to the closing quote.
    [ref] holds the body of the reference being read, if any.  A literal
    white space character is normalised to a space. *)
Fixpoint att_value (q : ascii) (s : string) (ref : option string)
  : option (string * string) :=
  match s with
  | EmptyString => None
  | String c s' =>
      match ref with
      | Some body =>
          if Ascii.eqb c ";" then
            ch ← decode_reference body;
            '(v, r) ← att_value q s' None;
            Some (String ch v, r)
          else att_value q s' (Some (body +:+ String c ""))
      | None =>
          if Ascii.eqb c q then Some ("", s')
          else if Ascii.eqb c "<" then None
          else if Ascii.eqb c "&" then att_value q s' (Some "")
          else if is_xml_char c then
            '(v, r) ← att_value q s' None;
            Some (String (if is_space c then " "%char else c) v, r)
          else None
      end
  end.

(** [CharData] and references, up to the next [<], which is left in
    place. *)
Fixpoint char_data (s : string) (ref : option string)
  : option (string * string) :=
  match s with
  | EmptyString => match ref with None => Some ("", "") | Some _ => None end
  | String c s' =>
      match ref with
      | Some body =>
          if Ascii.eqb c ";" then
            ch ← decode_reference body;
            '(v, r) ← char_data s' None;
            Some (String ch v, r)
          else char_data s' (Some (body +:+ String c ""))
      | None =>
          if Ascii.eqb c "<" then Some ("", s)
          else if Ascii.eqb c "&" then char_data s' (Some "")
          else if is_xml_char c then
            '(v, r) ← char_data s' None;
            Some (String c v, r)
          else None
      end
  end.

(** How a tag ends: [/>], [>] or, for the declaration, [?>]. *)
Inductive tag_end : Type := EndEmpty | EndOpen | EndDecl.

(** The attributes of a tag, after its name, and the end of the tag. *)
Fixpoint parse_attributes (fuel : nat) (s : string)
  : option (list (string * string) * tag_end * string) :=
  match fuel with
  | O => None
  | S f =>
      match skip_spaces s with
      | String "/" (String ">" r) => Some ([], EndEmpty, r)
      | String ">" r => Some ([], EndOpen, r)
      | String "?" (String ">" r) => Some ([], EndDecl, r)
      | s1 =>
          match s with
          | String c _ =>
              if is_space c then
                '(k, s2) ← parse_name s1;
                match skip_spaces s2 with
                | String "=" s3 =>
                    match skip_spaces s3 with
                    | String q s4 =>
                        if Ascii.eqb q dquote || Ascii.eqb q "'" then
                          '(v, s5) ← att_value q s4 None;
                          '(l, e, r) ← parse_attributes f s5;
                          Some ((k, v) :: l, e, r)
                        else None
                    | EmptyString => None
                    end
                | _ => None
                end
              else None
          | EmptyString => None
          end
      end
  end.

(** No attribute name appears twice. *)
Fixpoint distinct (l : list string) : bool :=
  match l with
  | [] => true
  | k :: l' => negb (existsb (String.eqb k) l') && distinct l'
  end.

(** An element, and the children of an element up to its end tag. *)
Fixpoint parse_element (fuel : nat) (s : string)
  : option (element * string) :=
  match fuel with
  | O => None
  | S f =>
      match s with
      | String "<" s1 =>
          '(tag, s2) ← parse_name s1;
          '(attrs, e, s3) ← parse_attributes f s2;
          if distinct (map fst attrs) then
            match e with
            | EndEmpty => Some (Element tag attrs None [], s3)
            | EndOpen =>
                '(text, s4) ← char_data s3 None;
                '(children, s5) ← parse_children f tag s4;
                Some (Element tag attrs
                        (if String.eqb text "" then None else Some text)
                        children, s5)
            | EndDecl => None
            end
          else None
      | _ => None
      end
  end
with parse_children (fuel : nat) (tag : string) (s : string)
  : option (list element * string) :=
  match fuel with
  | O => None
  | S f =>
      match s with
      | String "<" (String "/" s1) =>
          '(name, s2) ← parse_name s1;
          match skip_spaces s2 with
          | String ">" r =>
              if String.eqb name tag then Some ([], r) else None
          | _ => None
          end
      | _ =>
          '(c, s1) ← parse_element f s;
          '(_, s2) ← char_data s1 None;
          '(cs, r) ← parse_children f tag s2;
          Some (c :: cs, r)
      end
  end.

(** The XML declaration: [version], then optionally [encoding], then
    optionally [standalone]. *)
Definition declaration_ok (l : list (string * string)) : bool :=
  match l with
  | ("version", v) :: l' =>
      String.prefix "1." v &&
      match l' with
      | [] | [("encoding", _)] => true
      | [("standalone", a)] | [("encoding", _); ("standalone", a)] =>
          String.eqb a "yes" || String.eqb a "no"
      | _ => false
      end
  | _ => false
  end.

Definition parse_declaration (s : string) : option string :=
  match s with
  | String "<" (String "?" (String "x" (String "m" (String "l" s1)))) =>
      '(l, e, r) ← parse_attributes (String.length s) s1;
      match e with
      | EndDecl => if declaration_ok l then Some r else None
      | _ => None
      end
  | _ => Some s
  end.

(** A document: the declaration if any, the root element, nothing but
    white space after it. *)
Definition parse_document (s : string) : option element :=
  s1 ← parse_declaration s;
  '(root, r) ← parse_element (String.length s) (skip_spaces s1);
  match skip_spaces r with
  | EmptyString => Some root
  | _ => None
  end.

(** The trees that are read back as they are: names for tags and
    attributes, no attribute twice, XML characters in the values, no
    text. *)
Definition attribute_ok (kv : string * string) : bool :=
  is_name (fst kv) && xml_safe (snd kv).

Fixpoint serializable (e : element) : bool :=
  match e with
  | Element tag attrib text children =>
      is_name tag && forallb attribute_ok attrib &&
      distinct (map fst attrib) &&
      match text with None | Some "" => true | _ => false end &&
      forallb serializable children
  end.

(** The fuel that reading an element, or a list of children, takes. *)
Fixpoint need (e : element) : nat :=
  match e with
  | Element _ attrib _ children =>
      S (Nat.max (S (length attrib))
           ((fix need_list (l : list element) : nat :=
               match l with
               | [] => 1%nat
               | c :: l' => S (Nat.max (need c) (need_list l'))
               end) children))
  end.

Fixpoint need_children (l : list element) : nat :=
  match l with
  | [] => 1%nat
  | c :: l' => S (Nat.max (need c) (need_children l'))
  end.

(** The tree as a reader sees it: an empty text is no text. *)
Fixpoint as_read (e : element) : element :=
  match e with
  | Element tag attrib text children =>
      Element tag attrib
        match text with Some "" => None | _ => text end
        (map as_read children)
  end.

(** The characters that [tostring] writes as they are in an attribute
    value: the ASCII characters other than the five it escapes and the
    tab, the line feed and the carriage return. *)
Definition is_plain (c : ascii) : bool :=
  is_ascii c &&
  negb ((code c =? 38) || (code c =? 60) || (code c =? 62) || (code c =? 34) ||
        (code c =? 9) || (code c =? 10) || (code c =? 13))%N.

End Xml.

(* ===================================================================== *)
(** ** The program: [mesh2cot.py] *)
(* ===================================================================== *)

Module Mesh2Cot.
Import Py.

(** The module-level settings read from the environment at import time. *)
Record config : Type := mk_config {
  ATAK_HOST : string;
  ATAK_PORT : Z;
  DEBUG_LEVEL : Z;
  UNIT_TYPE : string;
  UNIT_TEAM : string;
  UNIT_ROLE : string
}.

(** The values of the settings when no environment variable is set. *)
Definition default_config : config :=
  {| ATAK_HOST := "239.2.3.1"; ATAK_PORT := 6969; DEBUG_LEVEL := 0;
     UNIT_TYPE := "a-f-G-U-C"; UNIT_TEAM := "Green";
     UNIT_ROLE := "Team Member" |}.

(** The settings as the module computes them when it is imported, from
    the environment [env]: each variable has a default, and the port and
    the debug level go through [int], which can raise. *)
Definition load_config (env : gmap string string) : result config :=
  let host := getenv env "ATAK_HOST" "239.2.3.1" in
  port ← int_of_str (getenv env "ATAK_PORT" "6969");
  debug ← int_of_str (getenv env "DEBUG" "0");
  Ok {| ATAK_HOST := host; ATAK_PORT := port; DEBUG_LEVEL := debug;
        UNIT_TYPE := getenv env "UNIT_TYPE" "a-f-G-U-C";
        UNIT_TEAM := getenv env "UNIT_TEAM" "Green";
        UNIT_ROLE := getenv env "UNIT_ROLE" "Team Member" |}.

Definition REMARK : string := "".
Definition POINT_EVT_TTL : Z := 120.
Definition ISO_FORMAT : string := "%Y-%m-%dT%H:%M:%SZ".
Definition TIME_FORMAT : string := "%Y-%m-%dT%H:%M:%S.000Z".
Definition UUID_ROOT : string := "7ea452c5-a1ec-571c-a7ac".

(* ------------------------------------------------------------------- *)
(** *** The world: clock, sockets, network, log *)

(** A datagram handed to the network by [sendto]. *)
Record datagram : Type := mk_datagram {
  dg_sock : nat;
  dg_payload : string;
  dg_host : string;
  dg_port : Z
}.

(** The system clock counts nanoseconds since the epoch; [clock w n] is
    what the [n]-th query of the run returns and [ticks w] the number of
    queries made.  [socks w] are the descriptors of the open sockets,
    [sent w] the datagrams handed to the network, oldest first, and
    [log w] the lines logged.  [can_socket] and [can_send] say whether the
    operating system lets [socket()] and [sendto()] succeed. *)
Record world : Type := mk_world {
  clock : nat -> Z;
  ticks : nat;
  socks : gset nat;
  sent : list datagram;
  log : list string;
  can_socket : bool;
  can_send : bool
}.

Definition with_ticks (n : nat) (w : world) : world :=
  mk_world (clock w) n (socks w) (sent w) (log w) (can_socket w) (can_send w).
Definition with_socks (s : gset nat) (w : world) : world :=
  mk_world (clock w) (ticks w) s (sent w) (log w) (can_socket w) (can_send w).
Definition with_sent (l : list datagram) (w : world) : world :=
  mk_world (clock w) (ticks w) (socks w) l (log w) (can_socket w) (can_send w).
Definition with_log (l : list string) (w : world) : world :=
  mk_world (clock w) (ticks w) (socks w) (sent w) l (can_socket w) (can_send w).

(** Statements: a world transformer that returns a value or raises. *)
Definition M (A : Type) : Type := world -> result A * world.

Definition ret {A} (a : A) : M A := fun w => (Ok a, w).
Definition raise {A} (e : exn) : M A := fun w => (Raise e, w).
Definition bind {A B} (m : M A) (k : A -> M B) : M B :=
  fun w =>
    match m w with
    | (Ok a, w') => k a w'
    | (Raise e, w') => (Raise e, w')
    end.
Definition lift {A} (r : result A) : M A := fun w => (r, w).

#[global] Instance M_ret : MRet M := @ret.
#[global] Instance M_bind : MBind M := fun A B k m => bind m k.

Definition NS : Z := 1000000000.

(** One query of the system clock. *)
Definition read_clock : M Z :=
  fun w =>
    (Ok (clock w (ticks w)), with_ticks (S (ticks w)) w).

(** [gmtime()]: the current time, in whole seconds. *)
Definition gmtime_now : M struct_time :=
  t ← read_clock; ret (gmtime (t / NS)).

(** [time()]: the current time as a float number of seconds.  The float
    is kept by its exact value, in nanoseconds. *)
Definition time_now : M Z := read_clock.

(** [gmtime(t)] on a float [t] (kept in nanoseconds): rounds down to whole
    seconds. *)
Definition gmtime_at (t : Z) : struct_time := gmtime (t / NS).

(** [logging.debug(msg)]: recorded when the debug level is enabled. *)
Definition logging_debug (cfg : config) (msg : string) : M unit :=
  fun w =>
    (Ok tt, if DEBUG_LEVEL cfg =? 0 then w else with_log (log w ++ [msg]) w).

(** [socket.socket(AF_INET, SOCK_DGRAM)]: a descriptor not in use. *)
Definition socket_socket : M nat :=
  fun w =>
    if can_socket w then
      let fd := fresh (socks w) in
      (Ok fd, with_socks ({[fd]} ∪ socks w) w)
    else (Raise OSError, w).

(** [sock.sendto(data, (host, port))]. *)
Definition socket_sendto (fd : nat) (data : string) (host : string) (port : Z)
  : M unit :=
  fun w =>
    if can_send w then
      (Ok tt, with_sent (sent w ++ [mk_datagram fd data host port]) w)
    else (Raise OSError, w).

(** [sock.close()]. *)
Definition socket_close (fd : nat) : M unit :=
  fun w => (Ok tt, with_socks (socks w ∖ {[fd]}) w).

(* ------------------------------------------------------------------- *)
(** *** [makeCoT] *)

(** The element tree [cot] that [makeCoT] assembles, given the three
    formatted timestamps.  The arguments are typed as the caller passes
    them: [callsign], [uuid], [lat], [lon] and [alt] are strings, and
    [batt] is [None] for Python's [False] and [Some s] for a string; the
    status element is added when [batt] is true, that is a non-empty
    string. *)
Definition cot (cfg : config) (callsign uuid lat lon alt : string)
    (batt : option string) (t_time t_start t_stale : string) : element :=
  let EV_HOW := "m-g" in
  let event_attr :=
    [("version", "2.0"); ("uid", uuid); ("time", t_time); ("start", t_start);
     ("stale", t_stale); ("type", UNIT_TYPE cfg); ("how", EV_HOW)] in
  let point_attr :=
    [("lat", lat); ("lon", lon); ("hae", alt);
     ("ce", "9999999.0"); ("le", "9999999.0")] in
  let contact_attr := [("callsign", callsign)] in
  let precis_attr := [("geopointsrc", "GPS"); ("altsrc", "GPS")] in
  let takv_attr :=
    [("device", "MESH2COT"); ("platform", "ATAK");
     ("version", "3.8-COMPAT"); ("os", "23")] in
  Element "event" event_attr None
    [ Element "point" point_attr None [];
      Element "detail" [] None
        ([ Element "contact" contact_attr None [];
           Element "uid" [("Droid", callsign)] None [];
           Element "remarks" [] (Some REMARK) [];
           Element "__group"
             [("name", UNIT_TEAM cfg); ("role", UNIT_ROLE cfg)] None [];
           Element "takv" takv_attr None [] ]
         ++ match batt with
            | Some b =>
                if String.eqb b "" then []
                else [ Element "status" [("battery", b)] None [] ]
            | None => []
            end
         ++ [ Element "precisionlocation" precis_attr None [] ]) ].

(** ['<?xml version="1.0" standalone="yes"?>'.encode('utf-8')]. *)
Definition XML_DECL : string :=
  "<?xml version=" +:+ String dquote ("1.0" +:+ String dquote
  (" standalone=" +:+ String dquote ("yes" +:+ String dquote "?>"))).

(** The first part of [makeCoT]: the clock is queried three times, in the
    order of the entries [time], [start], [stale] of [event_attr], and the
    tree is assembled. *)
Definition makeCoT_cot (cfg : config) (callsign uuid lat lon alt : string)
    (batt : option string) : M element :=
  tm_time ← gmtime_now;
  tm_start ← gmtime_now;
  now ← time_now;
  ret (cot cfg callsign uuid lat lon alt batt
           (strftime TIME_FORMAT tm_time)
           (strftime TIME_FORMAT tm_start)
           (strftime TIME_FORMAT (gmtime_at (now + POINT_EVT_TTL * NS)))).

(** [makeCoT(callsign, uuid, lat, lon, alt, batt)]: the declaration
    followed by the serialised tree. *)
Definition makeCoT (cfg : config) (callsign uuid lat lon alt : string)
    (batt : option string) : M string :=
  tree ← makeCoT_cot cfg callsign uuid lat lon alt batt;
  ret (XML_DECL +:+ tostring tree).

(** In closed form: the tree and the document that [onReceive] gets from
    [makeCoT] in world [w] (the altitude argument is the constant of the
    call), and the world once the document is built and logged. *)
Definition tree_in (cfg : config) (callsign uuid lat lon : string)
    (b : option string) (w : world) : element :=
  cot cfg callsign uuid lat lon "9999999.0" b
    (strftime TIME_FORMAT (gmtime (clock w (ticks w) / NS)))
    (strftime TIME_FORMAT (gmtime (clock w (S (ticks w)) / NS)))
    (strftime TIME_FORMAT
       (gmtime ((clock w (S (S (ticks w))) + POINT_EVT_TTL * NS) / NS))).

Definition document_in (cfg : config) (callsign uuid lat lon : string)
    (b : option string) (w : world) : string :=
  XML_DECL +:+ tostring (tree_in cfg callsign uuid lat lon b w).

Definition built_in (cfg : config) (callsign uuid lat lon : string)
    (b : option string) (w : world) : world :=
  snd (logging_debug cfg
         ("CoT: " +:+ document_in cfg callsign uuid lat lon b w)
         (with_ticks (S (S (S (ticks w)))) w)).

(* ------------------------------------------------------------------- *)
(** *** [onReceive] *)

(** [packet['decoded']['position']]. *)
Definition position_of (packet : pyval) : result pyval :=
  decoded ← getitem packet "decoded"; getitem decoded "position".

(** The [try ... except KeyError] around the battery level: a KeyError
    gives [False], any other exception goes through. *)
Definition battery_of (packet : pyval) : result pyval :=
  match position ← position_of packet; getitem position "batteryLevel" with
  | Ok v => Ok v
  | Raise (KeyError _) => Ok (PyBool false)
  | Raise e => Raise e
  end.

(** [('%d' % batt) if batt else False]. *)
Definition battery_arg (batt : pyval) : result (option string) :=
  if truthy batt then s ← fmt_d batt; Ok (Some s) else Ok None.

(** ['mesh-%08x' % packet['from']]. *)
Definition callsign_of (packet : pyval) : result string :=
  from ← getitem packet "from"; h ← fmt_08x from; Ok ("mesh-" +:+ h).

(** [UUID_ROOT + '-00%08x' % packet['from']]. *)
Definition uuid_of (packet : pyval) : result string :=
  from ← getitem packet "from"; h ← fmt_08x from;
  Ok (UUID_ROOT +:+ "-00" +:+ h).

(** The exceptions of the extraction and formatting steps, as opposed to
    the transport's [OSError]. *)
Definition extraction_error (e : exn) : Prop := e <> OSError.

(** [onReceive(packet, interface)]: the callback run on every packet. *)
Definition onReceive (cfg : config) (packet : pyval) : M unit :=
  decoded ← lift (getitem packet "decoded");
  has_position ← lift (contains "position" decoded);
  if has_position : bool then
    batt ← lift (battery_of packet);
    position ← lift (position_of packet);
    both ← lift (keys_superset position ["latitude"; "longitude"]);
    if both : bool then
      callsign ← lift (callsign_of packet);
      uuid ← lift (uuid_of packet);
      lat ← lift (p ← position_of packet; x ← getitem p "latitude"; fmt_f x);
      lon ← lift (p ← position_of packet; x ← getitem p "longitude"; fmt_f x);
      b ← lift (battery_arg batt);
      CoT ← makeCoT cfg callsign uuid lat lon "9999999.0" b;
      _ ← logging_debug cfg ("CoT: " +:+ CoT);
      o_sock ← socket_socket;
      _ ← socket_sendto o_sock CoT (ATAK_HOST cfg) (ATAK_PORT cfg);
      socket_close o_sock
    else ret tt
  else ret tt.

End Mesh2Cot.

(* ===================================================================== *)
(** ** Sample packets and worlds *)
(* ===================================================================== *)

Module Samples.
Import Py Mesh2Cot.

(** The doubles nearest to 45.123456 and to 93.654321. *)
Definition lat5 : spec_float := S754_finite false 6350561863352155 (-47).
Definition lon5 : spec_float := S754_finite true 6590336955581825 (-46).

(** [{latitude: 45.123456, longitude: -93.654321}], the same with a
    battery level, and a position with a latitude only. *)
Definition p5 : gmap string pyval :=
  <["latitude" := PyFloat lat5]> (<["longitude" := PyFloat lon5]> ∅).
Definition p5_batt (n : Z) : gmap string pyval :=
  <["batteryLevel" := PyInt n]> p5.
Definition p5_lat_only : gmap string pyval :=
  <["latitude" := PyFloat lat5]> ∅.

(** [{from: 0x1A2B3C4D, decoded: {position: p}}]. *)
Definition d_of (p : gmap string pyval) : gmap string pyval :=
  <["position" := PyDict p]> ∅.
Definition m_of (p : gmap string pyval) : gmap string pyval :=
  <["from" := PyInt 439041101]> (<["decoded" := PyDict (d_of p)]> ∅).

(** The packet of the end-to-end example. *)
Definition packet5 : pyval := PyDict (m_of p5).

Definition m_no_decoded : gmap string pyval := <["from" := PyInt 439041101]> ∅.

(** The default settings with debug logging switched on. *)
Definition debug_config : config :=
  {| ATAK_HOST := "239.2.3.1"; ATAK_PORT := 6969; DEBUG_LEVEL := 1;
     UNIT_TYPE := "a-f-G-U-C"; UNIT_TEAM := "Green";
     UNIT_ROLE := "Team Member" |}.

(** A clock that starts at 2026-11-06 21:20:00 UTC and advances by 0.6 s
    from one query to the next. *)
Definition clock_06 (n : nat) : Z := 1794000000 * NS + Z.of_nat n * 600000000.

(** Worlds: nothing sent yet, no socket open; the transport works, or
    [sendto] fails, or [socket] fails. *)
Definition w_up : world := mk_world clock_06 0 ∅ [] [] true true.
Definition w_socket_down : world := mk_world clock_06 0 ∅ [] [] false true.

(** The default settings but for a team name that is the control
    character of code 1. *)
Definition control_config : config :=
  {| ATAK_HOST := "239.2.3.1"; ATAK_PORT := 6969; DEBUG_LEVEL := 0;
     UNIT_TYPE := "a-f-G-U-C"; UNIT_TEAM := String "001" "";
     UNIT_ROLE := "Team Member" |}.


(** Environments: one that sets none of the program's variables, one
    with a port between blanks and the debug level 1, and one with a debug
    level that is no number. *)
Definition env_other : gmap string string := <["PATH" := "/usr/bin"]> ∅.
Definition env_port : gmap string string :=
  <["ATAK_PORT" := " 4242 "]> (<["DEBUG" := "1"]> ∅).
Definition env_debug_true : gmap string string := <["DEBUG" := "true"]> ∅.

(** The packet of the example as the radio delivers it, with the fields
    the handler does not use. *)
Definition p5_more : gmap string pyval :=
  <["altitude" := PyInt 312]> (<["time" := PyInt 1794000000]> p5).
Definition m5_more : gmap string pyval :=
  <["to" := PyInt 4294967295]> (<["rxSnr" := PyFloat lat5]>
    (<["from" := PyInt 439041101]>
       (<["decoded" := PyDict (<["position" := PyDict p5_more]> ∅)]> ∅))).

(** The settings with a team name that is not in ASCII: [Grün], with the
    character of code 252. *)
Definition latin_config : config :=
  {| ATAK_HOST := "239.2.3.1"; ATAK_PORT := 6969; DEBUG_LEVEL := 0;
     UNIT_TYPE := "a-f-G-U-C"; UNIT_TEAM := "Gr" +:+ String "252" "n";
     UNIT_ROLE := "Team Member" |}.

End Samples.

(* ===================================================================== *)
(** ** Facts on strings *)
(* ===================================================================== *)

Section StringFacts.

Lemma append_assoc (a b c : string) : (a +:+ b) +:+ c = a +:+ (b +:+ c).
Proof. induction a as [|x a IH]; simpl; [reflexivity | f_equal; exact IH]. Qed.

Lemma append_nil_r (a : string) : a +:+ "" = a.
Proof. induction a as [|x a IH]; simpl; [reflexivity | f_equal; exact IH]. Qed.

Lemma length_append (a b : string) :
  String.length (a +:+ b) = (String.length a + String.length b)%nat.
Proof. induction a as [|x a IH]; simpl; [reflexivity | f_equal; exact IH]. Qed.

Lemma append_inv_head (p a b : string) : p +:+ a = p +:+ b -> a = b.
Proof.
  induction p as [|x p IH]; simpl; intros H; [exact H|].
  injection H as H. now apply IH.
Qed.

Lemma string_forall_append p a b :
  string_forall p (a +:+ b) = string_forall p a && string_forall p b.
Proof.
  induction a as [|x a IH]; simpl; [reflexivity|].
  now rewrite IH, andb_assoc.
Qed.

Lemma length_repeat_char c n : String.length (repeat_char c n) = n.
Proof. induction n as [|n IH]; simpl; congruence. Qed.

Lemma string_forall_repeat_char p c n :
  p c = true -> string_forall p (repeat_char c n) = true.
Proof.
  intros Hc. induction n as [|n IH]; simpl; [reflexivity | now rewrite Hc, IH].
Qed.

End StringFacts.

(* ===================================================================== *)
(** ** Facts on integer formatting *)
(* ===================================================================== *)

Module PyFacts.
Import Py.

Section Radix.

Variable b : N.
Hypothesis b_lo : (2 <= b)%N.
Hypothesis b_hi : (b <= 16)%N.

Lemma digit_value_char (d : N) : (d < 16)%N -> digit_value (digit_char d) = d.
Proof.
  intros H. destruct d as [|p]; [reflexivity|].
  do 4 (destruct p as [p|p|]; try reflexivity; try lia).
Qed.

Lemma is_lower_hex_digit_char (d : N) : is_lower_hex (digit_char d) = true.
Proof.
  destruct d as [|p]; [reflexivity|].
  do 4 (destruct p as [p|p|]; try reflexivity).
Qed.

Lemma radix_value_append (a c : string) (acc : N) :
  radix_value b acc (a +:+ c) = radix_value b (radix_value b acc a) c.
Proof.
  revert acc. induction a as [|x a IH]; intros acc; simpl; [reflexivity|].
  apply IH.
Qed.

Lemma radix_value_zeros (k : nat) (s : string) :
  radix_value b 0 (repeat_char "0" k +:+ s) = radix_value b 0 s.
Proof. induction k as [|k IH]; simpl; [reflexivity | exact IH]. Qed.

(** With enough fuel the digits denote the number. *)
Lemma radix_value_digits (fuel : nat) (n : N) :
  (n < b ^ N.of_nat fuel)%N -> radix_value b 0 (radix_digits b fuel n) = n.
Proof.
  revert n. induction fuel as [|f IH]; intros n Hn.
  - simpl in *. lia.
  - simpl. destruct (N.eqb_spec n 0) as [->|Hz]; [reflexivity|].
    rewrite radix_value_append. simpl.
    assert (Hq : (n / b < b ^ N.of_nat f)%N).
    { apply N.Div0.div_lt_upper_bound.
      rewrite Nat2N.inj_succ, N.pow_succ_r' in Hn. exact Hn. }
    rewrite (IH _ Hq), digit_value_char.
    + rewrite (N.div_mod n b) at 3 by lia. lia.
    + pose proof (N.mod_upper_bound n b). lia.
Qed.

(** A number below [b^k] has at most [k] digits. *)
Lemma radix_digits_length (fuel k : nat) (n : N) :
  (n < b ^ N.of_nat k)%N ->
  (String.length (radix_digits b fuel n) <= k)%nat.
Proof.
  revert n k. induction fuel as [|f IH]; intros n k Hn; simpl; [lia|].
  destruct (N.eqb_spec n 0) as [->|Hz]; [simpl; lia|].
  destruct k as [|k]; [simpl in Hn; lia|].
  rewrite length_append. simpl.
  assert (Hq : (n / b < b ^ N.of_nat k)%N).
  { apply N.Div0.div_lt_upper_bound.
    rewrite Nat2N.inj_succ, N.pow_succ_r' in Hn. exact Hn. }
  specialize (IH _ _ Hq). lia.
Qed.

Lemma radix_digits_charset (fuel : nat) (n : N) :
  string_forall is_lower_hex (radix_digits b fuel n) = true.
Proof.
  revert n. induction fuel as [|f IH]; intros n; simpl; [reflexivity|].
  destruct (n =? 0)%N; [reflexivity|].
  rewrite string_forall_append, IH. simpl.
  now rewrite is_lower_hex_digit_char.
Qed.

(** The fuel of [radix_of_N] is enough. *)
Lemma radix_fuel_enough (n : N) :
  n <> 0%N -> (n < b ^ N.of_nat (S (N.to_nat (N.log2 n))))%N.
Proof.
  intros Hz.
  rewrite Nat2N.inj_succ, N2Nat.id.
  apply N.lt_le_trans with (2 ^ N.succ (N.log2 n))%N.
  - apply N.log2_spec. lia.
  - apply N.pow_le_mono_l. exact b_lo.
Qed.

Lemma radix_value_of_N (n : N) : radix_value b 0 (radix_of_N b n) = n.
Proof.
  unfold radix_of_N. destruct (N.eqb_spec n 0) as [->|Hz]; [reflexivity|].
  apply radix_value_digits, radix_fuel_enough, Hz.
Qed.

Lemma radix_of_N_length (k : nat) (n : N) :
  (n < b ^ N.of_nat (S k))%N ->
  (1 <= String.length (radix_of_N b n) <= S k)%nat.
Proof.
  intros Hn. unfold radix_of_N.
  destruct (N.eqb_spec n 0) as [->|Hz]; [simpl; lia|].
  split; [|now apply radix_digits_length].
  simpl. destruct (N.eqb_spec n 0); [contradiction|].
  rewrite length_append. simpl. lia.
Qed.

Lemma radix_of_N_charset (n : N) :
  string_forall is_lower_hex (radix_of_N b n) = true.
Proof.
  unfold radix_of_N. destruct (n =? 0)%N; [reflexivity|].
  apply radix_digits_charset.
Qed.

End Radix.

Lemma radix_of_N_nonempty (b n : N) : radix_of_N b n <> "".
Proof.
  unfold radix_of_N. destruct (N.eqb_spec n 0) as [->|Hz]; [discriminate|].
  simpl. destruct (N.eqb_spec n 0); [contradiction|].
  destruct (radix_digits b _ _); discriminate.
Qed.

Lemma fmt_d_int_nonempty (z : Z) : String.eqb (fmt_d_int z) "" = false.
Proof.
  apply String.eqb_neq. unfold fmt_d_int, dec_of_N.
  destruct (z <? 0); [discriminate | apply radix_of_N_nonempty].
Qed.

Lemma zfill_length (w : nat) (s : string) :
  String.length (zfill w s) = Nat.max w (String.length s).
Proof. unfold zfill. rewrite length_append, length_repeat_char. lia. Qed.

(** ['%08x' % z] on a 32-bit value: eight lower-case hexadecimal digits
    that denote [z]. *)
Lemma fmt_08x_int_32 (z : Z) :
  0 <= z < 2 ^ 32 ->
  String.length (fmt_08x_int z) = 8%nat /\
  string_forall is_lower_hex (fmt_08x_int z) = true /\
  radix_value 16 0 (fmt_08x_int z) = Z.to_N z.
Proof.
  intros Hz. unfold fmt_08x_int.
  destruct (Z.ltb_spec z 0) as [?|_]; [lia|].
  assert (Hn : (Z.to_N z < 16 ^ N.of_nat 8)%N)
    by (change (16 ^ N.of_nat 8)%N with 4294967296%N; lia).
  assert (Hlen : (1 <= String.length (radix_of_N 16 (Z.to_N z)) <= 8)%nat)
    by (apply radix_of_N_length; solve [lia | exact Hn]).
  unfold hex_of_N. repeat split.
  - rewrite zfill_length. lia.
  - unfold zfill.
    rewrite string_forall_append, string_forall_repeat_char by reflexivity.
    apply radix_of_N_charset; lia.
  - unfold zfill. rewrite radix_value_zeros. apply radix_value_of_N; lia.
Qed.

(* ------------------------------------------------------------------- *)
(** *** Decimal numerals and [int] *)

Lemma string_forall_weaken (p q : ascii -> bool) (s : string) :
  (forall c, p c = true -> q c = true) ->
  string_forall p s = true -> string_forall q s = true.
Proof.
  intros Hpq. induction s as [|c s IH]; simpl; [reflexivity|].
  intros [Hc Hs]%andb_true_iff. now rewrite (Hpq c Hc), IH.
Qed.

Lemma dec_digit_char (d : N) : (d < 10)%N -> is_dec_digit (digit_char d) = true.
Proof.
  intros H. destruct d as [|p]; [reflexivity|].
  do 4 (destruct p as [p|p|]; try reflexivity; try lia).
Qed.

Lemma dec_digits_charset (fuel : nat) (n : N) :
  string_forall is_dec_digit (radix_digits 10 fuel n) = true.
Proof.
  revert n. induction fuel as [|f IH]; intros n; simpl; [reflexivity|].
  destruct (n =? 0)%N; [reflexivity|].
  rewrite string_forall_append, IH. simpl.
  rewrite dec_digit_char; [reflexivity|].
  apply N.mod_upper_bound. discriminate.
Qed.

Lemma dec_of_N_digits (n : N) : string_forall is_dec_digit (dec_of_N n) = true.
Proof.
  unfold dec_of_N, radix_of_N. destruct (n =? 0)%N; [reflexivity|].
  apply dec_digits_charset.
Qed.

(** A decimal digit is an ASCII character, and neither a blank, nor a
    sign, nor an underscore. *)
Lemma dec_digit_plain (c : ascii) :
  is_dec_digit c = true ->
  (N_of_ascii c <? 128)%N = true /\ is_c_space c = false /\
  Ascii.eqb c "-" = false /\ Ascii.eqb c "+" = false /\
  Ascii.eqb c "_" = false.
Proof.
  destruct c as [[] [] [] [] [] [] [] []]; intros H;
    first [discriminate H | repeat split; reflexivity].
Qed.

Lemma c_space_plain (c : ascii) :
  is_c_space c = true ->
  (N_of_ascii c <? 128)%N = true /\ is_dec_digit c = false /\
  Ascii.eqb c "_" = false.
Proof.
  destruct c as [[] [] [] [] [] [] [] []]; intros H;
    first [discriminate H | repeat split; reflexivity].
Qed.

Lemma scan_digits_run (s r : string) (au : bool) (acc : N) (count : nat) :
  string_forall is_dec_digit s = true -> s <> "" \/ au = false ->
  ends_digits r = true ->
  scan_digits (s +:+ r) au acc count =
  Some (radix_value 10 acc s, (count + String.length s)%nat, r).
Proof.
  intros Hs Hne Hr. revert au acc count Hne.
  induction s as [|c s IH]; intros au acc count Hne.
  - destruct Hne as [Hne| ->]; [contradiction|].
    simpl. rewrite Nat.add_0_r.
    destruct r as [|c r]; [reflexivity|]. simpl in Hr |- *.
    apply andb_true_iff in Hr as [H1 H2].
    apply negb_true_iff in H1, H2. now rewrite H1, H2.
  - simpl in Hs. apply andb_true_iff in Hs as [Hc Hs].
    simpl. rewrite Hc, (IH Hs) by (right; reflexivity).
    do 2 f_equal. f_equal. lia.
Qed.

Lemma skip_c_spaces_run (sp s : string) :
  string_forall is_c_space sp = true ->
  skip_c_spaces (sp +:+ s) = skip_c_spaces s.
Proof.
  induction sp as [|c sp IH]; [reflexivity|]. simpl.
  intros [Hc Hs]%andb_true_iff. rewrite Hc. exact (IH Hs).
Qed.

Lemma skip_c_spaces_all (sp : string) :
  string_forall is_c_space sp = true -> skip_c_spaces sp = "".
Proof.
  intros H. rewrite <- (append_nil_r sp). now rewrite skip_c_spaces_run.
Qed.

(** [int] reads a decimal numeral, with a minus sign or without, and
    with blanks around it, as the number it denotes. *)
Lemma int_of_str_numeral (neg : bool) (s sp1 sp2 : string) :
  string_forall is_dec_digit s = true -> s <> "" ->
  (String.length s <= MAX_STR_DIGITS)%nat ->
  string_forall is_c_space sp1 = true ->
  string_forall is_c_space sp2 = true ->
  int_of_str (sp1 +:+ (if neg then "-" else "") +:+ s +:+ sp2) =
  Ok (if neg then - Z.of_N (radix_value 10 0 s) else Z.of_N (radix_value 10 0 s)).
Proof.
  intros Hs Hne Hlen H1 H2. unfold int_of_str.
  assert (Hascii : string_forall (fun c => (N_of_ascii c <? 128)%N)
                     (sp1 +:+ (if neg then "-" else "") +:+ s +:+ sp2) = true).
  { rewrite !string_forall_append.
    rewrite (string_forall_weaken is_c_space _ sp1) by
      (try assumption; intros c Hc; apply c_space_plain, Hc).
    rewrite (string_forall_weaken is_c_space _ sp2) by
      (try assumption; intros c Hc; apply c_space_plain, Hc).
    rewrite (string_forall_weaken is_dec_digit _ s) by
      (try assumption; intros c Hc; apply dec_digit_plain, Hc).
    destruct neg; reflexivity. }
  rewrite Hascii, skip_c_spaces_run by assumption.
  assert (Hr : ends_digits sp2 = true).
  { destruct sp2 as [|c sp2]; [reflexivity|]. simpl in H2 |- *.
    apply andb_true_iff in H2 as [Hc _].
    destruct (c_space_plain c Hc) as (_ & -> & ->). reflexivity. }
  assert (Hstrip : strip_sign (skip_c_spaces
                     ((if neg then "-" else "") +:+ s +:+ sp2)) =
                   (neg, s +:+ sp2)).
  { destruct s as [|c s]; [contradiction|].
    simpl in Hs. apply andb_true_iff in Hs as [Hc _].
    destruct (dec_digit_plain c Hc) as (_ & Hsp & Hm & Hp & _).
    destruct neg; simpl; [reflexivity|].
    rewrite Hsp. simpl. now rewrite Hm, Hp. }
  rewrite Hstrip.
  assert (Hus : starts_with "_" (s +:+ sp2) = false).
  { destruct s as [|c s]; [contradiction|].
    simpl in Hs |- *. apply andb_true_iff in Hs as [Hc _].
    apply (dec_digit_plain c Hc). }
  rewrite Hus, scan_digits_run by (auto; left; exact Hne).
  simpl Nat.add.
  assert (Hcount : ((String.length s =? 0)%nat ||
                    (MAX_STR_DIGITS <? String.length s)%nat) = false).
  { apply orb_false_iff. split.
    - apply Nat.eqb_neq. destruct s; [contradiction | discriminate].
    - apply Nat.ltb_ge. exact Hlen. }
  rewrite Hcount, skip_c_spaces_all by assumption. reflexivity.
Qed.

(** A number below [10^k] has at most [k] decimal digits. *)
Lemma dec_of_N_length (k : nat) (n : N) :
  (n < 10 ^ N.of_nat (S k))%N ->
  (1 <= String.length (dec_of_N n) <= S k)%nat.
Proof.
  intros H. unfold dec_of_N. apply radix_of_N_length; [lia | lia | exact H].
Qed.

(** ['%d' % z] is read back by [int] as [z], also between blanks. *)
Lemma int_of_str_fmt_d (z : Z) (sp1 sp2 : string) :
  Z.abs z < 10 ^ 4300 ->
  string_forall is_c_space sp1 = true ->
  string_forall is_c_space sp2 = true ->
  int_of_str (sp1 +:+ fmt_d_int z +:+ sp2) = Ok z.
Proof.
  intros Hz H1 H2.
  assert (Hlen : forall n : N, Z.of_N n < 10 ^ 4300 ->
            (String.length (dec_of_N n) <= MAX_STR_DIGITS)%nat).
  { intros n Hn. apply (dec_of_N_length 4299).
    apply N2Z.inj_lt. rewrite N2Z.inj_pow. exact Hn. }
  assert (Hne : forall n, dec_of_N n <> "") by (intros n; apply radix_of_N_nonempty).
  unfold fmt_d_int. destruct (Z.ltb_spec z 0) as [Hneg|Hpos].
  - etransitivity.
    + apply (int_of_str_numeral true (dec_of_N (Z.abs_N z)) sp1 sp2);
        auto using dec_of_N_digits.
      apply Hlen. lia.
    + unfold dec_of_N. rewrite radix_value_of_N by lia. f_equal. lia.
  - etransitivity.
    + apply (int_of_str_numeral false (dec_of_N (Z.to_N z)) sp1 sp2);
        auto using dec_of_N_digits.
      apply Hlen. lia.
    + unfold dec_of_N. rewrite radix_value_of_N by lia. f_equal. lia.
Qed.

(** [int] raises nothing but ValueError. *)
Lemma int_of_str_raises (s : string) (e : exn) :
  int_of_str s = Raise e -> e = ValueError.
Proof.
  unfold int_of_str. intros H.
  repeat case_match; simplify_eq; reflexivity.
Qed.

Lemma skip_c_spaces_forall (p : ascii -> bool) (s : string) :
  string_forall p s = true -> string_forall p (skip_c_spaces s) = true.
Proof.
  induction s as [|c s IH]; [reflexivity|]. simpl.
  intros [Hc Hs]%andb_true_iff.
  destruct (is_c_space c); [exact (IH Hs)|]. simpl. now rewrite Hc, Hs.
Qed.

Lemma strip_sign_forall (p : ascii -> bool) (s : string) :
  string_forall p s = true -> string_forall p (snd (strip_sign s)) = true.
Proof.
  destruct s as [|c s]; [reflexivity|]. simpl.
  intros [Hc Hs]%andb_true_iff.
  destruct (Ascii.eqb c "-"); [exact Hs|].
  destruct (Ascii.eqb c "+"); [exact Hs|]. simpl. now rewrite Hc, Hs.
Qed.

Lemma to_ascii_decimal_no_digit (s : string) :
  string_forall (fun c => negb (is_dec_digit c)) s = true ->
  string_forall (fun c => negb (is_dec_digit c)) (to_ascii_decimal s) = true.
Proof.
  induction s as [|c s IH]; [reflexivity|]. simpl.
  intros [Hc Hs]%andb_true_iff.
  destruct (N_of_ascii c <? 127)%N; [simpl; now rewrite Hc, IH|].
  destruct (_ || _)%N; [simpl; now rewrite IH | reflexivity].
Qed.

(** A string without a decimal digit is no number. *)
Lemma int_of_str_no_digit (s : string) :
  string_forall (fun c => negb (is_dec_digit c)) s = true ->
  int_of_str s = Raise ValueError.
Proof.
  intros Hs. unfold int_of_str.
  set (t := if string_forall _ s then s else to_ascii_decimal s).
  assert (Ht : string_forall (fun c => negb (is_dec_digit c)) t = true).
  { subst t. destruct (string_forall (fun c => (N_of_ascii c <? 128)%N) s);
      [exact Hs | now apply to_ascii_decimal_no_digit]. }
  apply (skip_c_spaces_forall _ t), strip_sign_forall in Ht.
  destruct (strip_sign (skip_c_spaces t)) as [neg t2]. simpl in Ht.
  destruct t2 as [|c r]; [reflexivity|].
  simpl in Ht. apply andb_true_iff in Ht as [Hc _].
  apply negb_true_iff in Hc. simpl. rewrite Hc.
  destruct (Ascii.eqb c "_"); reflexivity.
Qed.

Lemma skip_c_spaces_inv (p : ascii -> bool) (s : string) :
  (forall c, is_c_space c = true -> p c = true) ->
  string_forall p (skip_c_spaces s) = true -> string_forall p s = true.
Proof.
  intros Hp. induction s as [|c s IH]; [reflexivity|]. simpl.
  destruct (is_c_space c) eqn:Hc; [|exact (fun H => H)].
  intros H. now rewrite (Hp c Hc), IH.
Qed.

Lemma skip_c_spaces_nil (s : string) :
  skip_c_spaces s = "" -> string_forall is_c_space s = true.
Proof.
  induction s as [|c s IH]; [reflexivity|]. simpl.
  destruct (is_c_space c); [exact IH | discriminate].
Qed.

Lemma strip_sign_inv (p : ascii -> bool) (s : string) :
  p "-"%char = true -> p "+"%char = true ->
  string_forall p (snd (strip_sign s)) = true -> string_forall p s = true.
Proof.
  intros Hm Hp. destruct s as [|c s]; [reflexivity|]. simpl.
  destruct (Ascii.eqb_spec c "-") as [->|_]; [simpl; now rewrite Hm|].
  destruct (Ascii.eqb_spec c "+") as [->|_]; [simpl; now rewrite Hp|].
  exact (fun H => H).
Qed.

Lemma scan_digits_inv (p : ascii -> bool) (s : string) (au : bool)
    (acc n : N) (count k : nat) (r : string) :
  (forall c, is_dec_digit c = true -> p c = true) -> p "_"%char = true ->
  scan_digits s au acc count = Some (n, k, r) ->
  string_forall p r = true -> string_forall p s = true.
Proof.
  intros Hd Hu. revert au acc count.
  induction s as [|c s IH]; intros au acc count H Hr; [reflexivity|].
  simpl in H. destruct (is_dec_digit c) eqn:Hc.
  - simpl. rewrite (Hd c Hc). exact (IH _ _ _ H Hr).
  - destruct (Ascii.eqb_spec c "_") as [->|_].
    + destruct au; [discriminate|]. simpl. rewrite Hu. exact (IH _ _ _ H Hr).
    + destruct au; [discriminate|]. now simplify_eq.
Qed.

Lemma to_ascii_decimal_inv (s : string) :
  string_forall int_char (to_ascii_decimal s) = true ->
  string_forall int_char s = true.
Proof.
  induction s as [|c s IH]; [reflexivity|]. simpl.
  destruct (N_of_ascii c <? 127)%N.
  - simpl. intros [-> H]%andb_true_iff. exact (IH H).
  - destruct (N.eqb_spec (N_of_ascii c) 133) as [E|_];
      [|destruct (N.eqb_spec (N_of_ascii c) 160) as [E|_]]; simpl.
    + intros H. rewrite (IH H), andb_true_r.
      unfold int_char. rewrite E.
      apply orb_true_iff. left. apply orb_true_iff. right. reflexivity.
    + intros H. rewrite (IH H), andb_true_r.
      unfold int_char. rewrite E. apply orb_true_iff. right. reflexivity.
    + discriminate.
Qed.

(** A string that [int] accepts is made of digits, blanks, signs and
    underscores, and has a digit. *)
Lemma int_of_str_ok_inv (s : string) (z : Z) :
  int_of_str s = Ok z ->
  string_forall int_char s = true /\
  string_forall (fun c => negb (is_dec_digit c)) s = false.
Proof.
  intros H. split.
  - revert H. unfold int_of_str.
    set (t := if string_forall _ s then s else to_ascii_decimal s).
    intros H.
    assert (Ht : string_forall int_char t = true).
    { apply skip_c_spaces_inv.
      { intros c Hc. unfold int_char. rewrite Hc.
        now rewrite orb_true_r. }
      apply strip_sign_inv; [reflexivity | reflexivity |].
      destruct (strip_sign (skip_c_spaces t)) as [neg t2]. simpl.
      destruct (starts_with "_" t2); [discriminate|].
      destruct (scan_digits t2 false 0 0) as [[[n k] r]|] eqn:E;
        [|discriminate].
      destruct (_ || _); [discriminate|].
      destruct (skip_c_spaces r) eqn:Er; [|discriminate].
      apply (scan_digits_inv int_char _ _ _ _ _ _ _
               ltac:(intros c Hc; unfold int_char; now rewrite Hc)
               eq_refl E).
      apply skip_c_spaces_nil in Er. revert Er.
      apply string_forall_weaken. intros c Hc. unfold int_char.
      rewrite Hc. now rewrite orb_true_r. }
    subst t.
    destruct (string_forall (fun c => (N_of_ascii c <? 128)%N) s); [exact Ht|].
    now apply to_ascii_decimal_inv.
  - destruct (string_forall (fun c => negb (is_dec_digit c)) s) eqn:E;
      [|reflexivity].
    rewrite (int_of_str_no_digit s E) in H. discriminate.
Qed.

(** ['%d' % v] is never the empty string. *)
Lemma fmt_d_nonempty (v : pyval) (s : string) :
  fmt_d v = Ok s -> String.eqb s "" = false.
Proof.
  unfold fmt_d. intros H.
  repeat case_match; simplify_eq; solve [reflexivity | apply fmt_d_int_nonempty].
Qed.

(** [round_half_even] gives a nearest integer, and the even one of the
    two when the quotient lies half way. *)
Lemma round_half_even_nearest (num den : Z) :
  0 < den ->
  2 * Z.abs (round_half_even num den * den - num) <= den /\
  (2 * Z.abs (round_half_even num den * den - num) = den ->
   Z.even (round_half_even num den) = true).
Proof.
  intros Hden. unfold round_half_even.
  pose proof (Z.div_mod num den ltac:(lia)) as E.
  pose proof (Z.mod_pos_bound num den Hden) as B.
  set (q := num / den) in *. set (r := num mod den) in *.
  assert (E1 : q * den - num = - r) by lia.
  assert (E2 : (q + 1) * den - num = den - r) by lia.
  destruct (Z.ltb_spec (2 * r) den) as [H1|H1].
  - rewrite E1. split; lia.
  - destruct (Z.ltb_spec den (2 * r)) as [H2|H2].
    + rewrite E2. split; lia.
    + destruct (Z.even q) eqn:Ev.
      * rewrite E1. split; [lia | intros _; exact Ev].
      * rewrite E2. split; [lia|]. intros _.
        rewrite Z.add_1_r, Z.even_succ, <- Z.negb_even, Ev. reflexivity.
Qed.

Lemma round_half_even_nonneg (num den : Z) :
  0 <= num -> 0 < den -> 0 <= round_half_even num den.
Proof.
  intros Hn Hd. unfold round_half_even.
  pose proof (Z.div_pos num den Hn Hd).
  repeat case_match; lia.
Qed.

(** [millionths m e] is the multiple of a millionth nearest to [m * 2^e],
    the even one in a tie. *)
Lemma millionths_nearest (m : positive) (e : Z) :
  let u := millionths m e in
  let den := 2 ^ Z.max 0 (- e) in
  let num := Z.pos m * 1000000 * 2 ^ Z.max 0 e in
  0 <= u /\ 2 * Z.abs (u * den - num) <= den /\
  (2 * Z.abs (u * den - num) = den -> Z.even u = true).
Proof.
  cbv zeta. unfold millionths. destruct (Z.leb_spec 0 e) as [He|He].
  - rewrite (Z.max_l 0 (- e)), (Z.max_r 0 e) by lia.
    change (2 ^ 0) with 1.
    assert (0 < 2 ^ e) by (apply Z.pow_pos_nonneg; lia).
    split; [nia|]. split; [lia | lia].
  - rewrite (Z.max_r 0 (- e)), (Z.max_l 0 e) by lia.
    change (2 ^ 0) with 1. rewrite Z.mul_1_r.
    assert (Hden : 0 < 2 ^ (- e)) by (apply Z.pow_pos_nonneg; lia).
    split; [apply round_half_even_nonneg; lia|].
    apply round_half_even_nearest, Hden.
Qed.

(** [fixed6 u]: the whole part, a point, and six digits, which together
    denote [u] millionths. *)
Lemma fixed6_shape (u : Z) :
  0 <= u ->
  exists (q : N) (f : string),
    fixed6 u = dec_of_N q +:+ "." +:+ f /\
    String.length f = 6%nat /\ string_forall is_dec_digit f = true /\
    Z.of_N q * 1000000 + Z.of_N (radix_value 10 0 f) = u.
Proof.
  intros Hu. unfold fixed6.
  pose proof (Z.mod_pos_bound u 1000000 ltac:(lia)) as Hr.
  pose proof (Z.div_pos u 1000000 Hu ltac:(lia)) as Hq.
  pose proof (Z.div_mod u 1000000 ltac:(lia)) as E.
  set (r := Z.to_N (u mod 1000000)).
  exists (Z.to_N (u / 1000000)), (zfill 6 (dec_of_N r)).
  split; [reflexivity|].
  assert (Hlen : (1 <= String.length (dec_of_N r) <= 6)%nat).
  { apply (dec_of_N_length 5). subst r.
    change (10 ^ N.of_nat 6)%N with 1000000%N. lia. }
  split; [rewrite zfill_length; lia|]. split.
  - unfold zfill.
    rewrite string_forall_append, string_forall_repeat_char by reflexivity.
    apply dec_of_N_digits.
  - unfold zfill, dec_of_N.
    rewrite radix_value_zeros, radix_value_of_N by lia. subst r. lia.
Qed.

(** ['%f' % x] on a finite, non-zero [float]: the sign, then the decimal
    numeral with six decimals nearest to the value. *)
Lemma fmt_f_float_nearest (s : bool) (m : positive) (e : Z) :
  exists (q : N) (f : string) (u : Z),
    fmt_f_float (S754_finite s m e) =
      (if s then "-" else "") +:+ dec_of_N q +:+ "." +:+ f /\
    String.length f = 6%nat /\ string_forall is_dec_digit f = true /\
    u = Z.of_N q * 1000000 + Z.of_N (radix_value 10 0 f) /\
    2 * Z.abs (u * 2 ^ Z.max 0 (- e) - Z.pos m * 1000000 * 2 ^ Z.max 0 e)
      <= 2 ^ Z.max 0 (- e) /\
    (2 * Z.abs (u * 2 ^ Z.max 0 (- e) - Z.pos m * 1000000 * 2 ^ Z.max 0 e)
       = 2 ^ Z.max 0 (- e) -> Z.even u = true).
Proof.
  destruct (millionths_nearest m e) as (H0 & H1 & H2).
  destruct (fixed6_shape (millionths m e) H0) as (q & f & E & Hl & Hd & Hv).
  exists q, f, (millionths m e). simpl. rewrite E.
  split; [reflexivity|]. split; [exact Hl|]. split; [exact Hd|].
  split; [now rewrite Hv|]. split; [exact H1 | exact H2].
Qed.

(* ------------------------------------------------------------------- *)
(** *** Numerals: digits, width and value *)

Lemma lower_hex_value (c : ascii) :
  is_lower_hex c = true -> (digit_value c < 16)%N.
Proof.
  destruct c as [[] [] [] [] [] [] [] []]; intros H;
    first [discriminate H | reflexivity].
Qed.

Lemma dec_digit_value (c : ascii) :
  is_dec_digit c = true -> (digit_value c < 10)%N.
Proof.
  destruct c as [[] [] [] [] [] [] [] []]; intros H;
    first [discriminate H | reflexivity].
Qed.

(** A numeral of [k] digits denotes a number below [b^k]. *)
Lemma radix_value_bound (b : N) (p : ascii -> bool) (s : string) (acc : N) :
  (forall c, p c = true -> (digit_value c < b)%N) ->
  string_forall p s = true ->
  (radix_value b acc s < (acc + 1) * b ^ N.of_nat (String.length s))%N.
Proof.
  intros Hp. revert acc. induction s as [|c s IH]; intros acc Hs.
  - simpl. lia.
  - simpl in Hs. apply andb_true_iff in Hs as [Hc Hs].
    cbn [radix_value String.length].
    rewrite Nat2N.inj_succ, N.pow_succ_r'.
    specialize (IH (acc * b + digit_value c)%N Hs).
    specialize (Hp c Hc).
    eapply N.lt_le_trans; [exact IH|].
    rewrite N.mul_assoc. apply N.mul_le_mono_r. lia.
Qed.

(** The number of digits of a number from [b^k] on exceeds [k]. *)
Lemma hex_of_N_long (k : nat) (n : N) :
  (16 ^ N.of_nat k <= n)%N -> (k < String.length (hex_of_N n))%nat.
Proof.
  intros Hn.
  pose proof (radix_value_bound 16 is_lower_hex (hex_of_N n) 0
                lower_hex_value (radix_of_N_charset 16 n)) as H.
  unfold hex_of_N in *. rewrite radix_value_of_N in H by lia.
  rewrite N.add_0_l, N.mul_1_l in H.
  destruct (Nat.lt_ge_cases k (String.length (radix_of_N 16 n))) as [|Hle];
    [assumption|].
  assert (16 ^ N.of_nat (String.length (radix_of_N 16 n)) <= 16 ^ N.of_nat k)%N
    by (apply N.pow_le_mono_r; lia).
  lia.
Qed.

Lemma dec_of_N_long (k : nat) (n : N) :
  (10 ^ N.of_nat k <= n)%N -> (k < String.length (dec_of_N n))%nat.
Proof.
  intros Hn.
  pose proof (radix_value_bound 10 is_dec_digit (dec_of_N n) 0
                dec_digit_value (dec_of_N_digits n)) as H.
  unfold dec_of_N in *. rewrite radix_value_of_N in H by lia.
  rewrite N.add_0_l, N.mul_1_l in H.
  destruct (Nat.lt_ge_cases k (String.length (radix_of_N 10 n))) as [|Hle];
    [assumption|].
  assert (10 ^ N.of_nat (String.length (radix_of_N 10 n)) <= 10 ^ N.of_nat k)%N
    by (apply N.pow_le_mono_r; lia).
  lia.
Qed.

(** ['%08x' % z]: a sign for a negative [z], then at least eight (seven
    after a sign) lower-case hexadecimal digits that denote [|z|]. *)
Lemma fmt_08x_int_digits (z : Z) :
  exists h,
    fmt_08x_int z = (if z <? 0 then "-" else "") +:+ h /\
    string_forall is_lower_hex h = true /\
    radix_value 16 0 h = Z.abs_N z /\
    String.length h =
      Nat.max (if z <? 0 then 7 else 8) (String.length (hex_of_N (Z.abs_N z))).
Proof.
  unfold fmt_08x_int. destruct (Z.ltb_spec z 0) as [Hz|Hz].
  - exists (zfill 7 (hex_of_N (Z.abs_N z))). split; [reflexivity|].
    unfold zfill at 1 2, hex_of_N.
    rewrite string_forall_append, string_forall_repeat_char by reflexivity.
    rewrite radix_of_N_charset, radix_value_zeros, radix_value_of_N by lia.
    rewrite zfill_length. auto.
  - exists (zfill 8 (hex_of_N (Z.to_N z))). split; [reflexivity|].
    replace (Z.abs_N z) with (Z.to_N z) by lia.
    unfold zfill at 1 2, hex_of_N.
    rewrite string_forall_append, string_forall_repeat_char by reflexivity.
    rewrite radix_of_N_charset, radix_value_zeros, radix_value_of_N by lia.
    rewrite zfill_length. auto.
Qed.

(** ['%08x'] maps different integers to different strings. *)
Lemma fmt_08x_int_inj (z1 z2 : Z) :
  fmt_08x_int z1 = fmt_08x_int z2 -> z1 = z2.
Proof.
  destruct (fmt_08x_int_digits z1) as (h1 & -> & C1 & V1 & L1).
  destruct (fmt_08x_int_digits z2) as (h2 & -> & C2 & V2 & L2).
  assert (Hh : forall h, string_forall is_lower_hex h = true ->
                         (7 <= String.length h)%nat ->
                         forall h', "-" +:+ h' <> "" +:+ h).
  { intros h C L h' E. simpl in E. subst h. discriminate C. }
  destruct (Z.ltb_spec z1 0) as [H1|H1], (Z.ltb_spec z2 0) as [H2|H2].
  - simpl. intros [= E]. rewrite E in V1. lia.
  - intros E. exfalso. apply (Hh h2 C2 ltac:(lia) h1 E).
  - intros E. exfalso. symmetry in E. apply (Hh h1 C1 ltac:(lia) h2 E).
  - simpl. intros E. rewrite E in V1. lia.
Qed.

(* ------------------------------------------------------------------- *)
(** *** Dates and times of day *)

(** From 1970 to 9999 the date of a day number has a year of four
    digits, a month from 1 to 12 and a day from 1 to 31. *)
Lemma civil_from_days_range (days : Z) :
  0 <= days < 2932897 ->
  let '(y, m, d) := civil_from_days days in
  1970 <= y <= 9999 /\ 1 <= m <= 12 /\ 1 <= d <= 31.
Proof.
  intros H. unfold civil_from_days. cbv zeta.
  repeat match goal with
         | |- context [if ?c then _ else _] => destruct c eqn:?
         end;
    Z.div_mod_to_equations; lia.
Qed.

Lemma gmtime_range (secs : Z) :
  0 <= secs < 253402300800 ->
  1970 <= tm_year (gmtime secs) <= 9999 /\
  1 <= tm_mon (gmtime secs) <= 12 /\ 1 <= tm_mday (gmtime secs) <= 31 /\
  0 <= tm_hour (gmtime secs) < 24 /\ 0 <= tm_min (gmtime secs) < 60 /\
  0 <= tm_sec (gmtime secs) < 60.
Proof.
  intros H. unfold gmtime.
  assert (Hd : 0 <= secs / 86400 < 2932897)
    by (Z.div_mod_to_equations; lia).
  pose proof (civil_from_days_range (secs / 86400) Hd) as Hc.
  destruct (civil_from_days (secs / 86400)) as [[y m] d]. simpl.
  destruct Hc as (Hy & Hm & Hdd).
  split; [exact Hy|]. split; [exact Hm|]. split; [exact Hdd|].
  Z.div_mod_to_equations; lia.
Qed.

(** A number below 100 is written with two digits, and a year from 1000
    to 9999 with four. *)
Lemma two_digits (v : Z) :
  0 <= v <= 99 -> String.length (zfill 2 (dec_of_N (Z.to_N v))) = 2%nat.
Proof.
  intros H. rewrite zfill_length.
  pose proof (dec_of_N_length 1 (Z.to_N v)) as Hl.
  change (10 ^ N.of_nat 2)%N with 100%N in Hl. lia.
Qed.

Lemma four_digits (y : Z) :
  1000 <= y <= 9999 ->
  fmt_d_int y = dec_of_N (Z.to_N y) /\
  String.length (dec_of_N (Z.to_N y)) = 4%nat.
Proof.
  intros H. unfold fmt_d_int.
  destruct (Z.ltb_spec y 0) as [?|_]; [lia|]. split; [reflexivity|].
  pose proof (dec_of_N_length 3 (Z.to_N y)) as Hl.
  pose proof (dec_of_N_long 3 (Z.to_N y)) as Hg.
  change (10 ^ N.of_nat 4)%N with 10000%N in Hl.
  change (10 ^ N.of_nat 3)%N with 1000%N in Hg. lia.
Qed.

(* ------------------------------------------------------------------- *)
(** *** The width of a formatted number *)

Lemma round_half_even_le (num den k : Z) :
  0 < den -> num <= k * den -> round_half_even num den <= k.
Proof.
  intros Hden Hk. unfold round_half_even.
  pose proof (Z.div_mod num den ltac:(lia)) as E.
  pose proof (Z.mod_pos_bound num den Hden) as B.
  set (q := num / den) in *. set (r := num mod den) in *.
  assert (Hq : q <= k) by nia.
  assert (Hr : q = k -> r = 0) by nia.
  repeat case_match; lia.
Qed.

Lemma millionths_le (s : bool) (m : positive) (e k : Z) :
  float_abs_le (S754_finite s m e) k = true ->
  millionths m e <= k * 1000000.
Proof.
  unfold float_abs_le, millionths. destruct (Z.leb_spec 0 e) as [He|He].
  - intros H%Z.leb_le. nia.
  - intros H%Z.leb_le.
    assert (Hden : 0 < 2 ^ (- e)) by (apply Z.pow_pos_nonneg; lia).
    apply round_half_even_le; [exact Hden | nia].
Qed.

(** ['%f' % x] for [|x| <= k < 10^j]: at most a sign, [j] digits, the
    point and six decimals. *)
Lemma fmt_f_float_length (x : spec_float) (k : Z) (j : nat) :
  float_abs_le x k = true -> 0 <= k < 10 ^ Z.of_nat (S j) ->
  (String.length (fmt_f_float x) <= 9 + j)%nat.
Proof.
  intros Hx Hk. destruct x as [s|s| |s m e]; try discriminate.
  - destruct s; simpl; lia.
  - pose proof (millionths_le s m e k Hx) as Hu.
    destruct (millionths_nearest m e) as (H0 & _).
    cbn [fmt_f_float]. unfold fixed6.
    rewrite !length_append, zfill_length.
    assert (Hq : (Z.to_N (millionths m e / 1000000) < 10 ^ N.of_nat (S j))%N).
    { apply N2Z.inj_lt. rewrite N2Z.inj_pow, nat_N_Z, Z2N.id
        by (apply Z.div_pos; lia).
      change (Z.of_N 10) with 10.
      assert (millionths m e / 1000000 <= k)
        by (apply Z.div_le_upper_bound; lia).
      lia. }
    pose proof (dec_of_N_length j _ Hq) as Hl.
    assert (Hr : (Z.to_N (millionths m e mod 1000000) < 10 ^ N.of_nat 6)%N).
    { change (10 ^ N.of_nat 6)%N with 1000000%N.
      pose proof (Z.mod_pos_bound (millionths m e) 1000000 ltac:(lia)). lia. }
    pose proof (dec_of_N_length 5 _ Hr) as Hl6.
    destruct s; cbn [String.length]; lia.
Qed.

Lemma fmt_d_int_length_100 (n : Z) :
  0 <= n <= 100 -> (String.length (fmt_d_int n) <= 3)%nat.
Proof.
  intros H. unfold fmt_d_int. destruct (Z.ltb_spec n 0) as [?|_]; [lia|].
  pose proof (dec_of_N_length 2 (Z.to_N n)) as Hl.
  change (10 ^ N.of_nat 3)%N with 1000%N in Hl. lia.
Qed.

End PyFacts.

(* ===================================================================== *)
(** ** Facts on serialising and reading back *)
(* ===================================================================== *)

Module XmlFacts.
Import Py PyFacts Xml.

(** A property of all 256 characters, by cases on the eight bits. *)
Ltac all_chars c :=
  destruct c as [[] [] [] [] [] [] [] []].

Lemma string_forall_impl (p q : ascii -> bool) (s : string) :
  (forall c, p c = true -> q c = true) ->
  string_forall p s = true -> string_forall q s = true.
Proof.
  intros Hpq. induction s as [|c s IH]; simpl; [reflexivity|].
  intros [Hc Hs]%andb_true_iff. now rewrite (Hpq c Hc), IH.
Qed.

(** *** Escaping and encoding work character by character *)

Lemma replace_char_append c r a b :
  replace_char c r (a +:+ b) = replace_char c r a +:+ replace_char c r b.
Proof.
  induction a as [|x a IH]; simpl; [reflexivity|].
  destruct (Ascii.eqb x c); rewrite IH; [|reflexivity].
  now rewrite append_assoc.
Qed.

Lemma escape_attrib_append a b :
  escape_attrib (a +:+ b) = escape_attrib a +:+ escape_attrib b.
Proof. unfold escape_attrib. now rewrite !replace_char_append. Qed.

Lemma encode_ascii_append a b :
  encode_ascii (a +:+ b) = encode_ascii a +:+ encode_ascii b.
Proof.
  induction a as [|x a IH]; simpl; [reflexivity|].
  destruct (N_of_ascii x <? 128)%N; simpl; rewrite IH; [reflexivity|].
  now rewrite !append_assoc.
Qed.

Lemma encode_ascii_id s :
  string_forall is_ascii s = true -> encode_ascii s = s.
Proof.
  induction s as [|x s IH]; simpl; [reflexivity|].
  intros [Hx Hs]%andb_true_iff. unfold is_ascii, code in Hx.
  now rewrite Hx, IH.
Qed.

Lemma name_char_ascii c : is_name_char c = true -> is_ascii c = true.
Proof. all_chars c; intros H; first [discriminate H | reflexivity]. Qed.

Lemma name_ascii k : is_name k = true -> string_forall is_ascii k = true.
Proof.
  destruct k as [|c k]; [discriminate|]. simpl.
  intros [Hc Hk]%andb_true_iff. apply andb_true_iff. split.
  - apply name_char_ascii. unfold is_name_char. now rewrite Hc.
  - revert Hk. apply string_forall_impl, name_char_ascii.
Qed.

(** *** Attribute values *)

(** Evaluate the escaped and encoded form of a given character. *)
Ltac norm_escaped :=
  match goal with
  | |- context [encode_ascii (escape_attrib (String ?c ""))] =>
      let t := eval vm_compute in (encode_ascii (escape_attrib (String c ""))) in
      change (encode_ascii (escape_attrib (String c ""))) with t
  end.

(** One character of a value, escaped and encoded, is read back as that
    character. *)
Lemma att_value_char (c : ascii) (rest : string) :
  is_xml_char c = true ->
  att_value dquote (encode_ascii (escape_attrib (String c "")) +:+ rest) None
  = ('(v, r) ← att_value dquote rest None; Some (String c v, r)).
Proof.
  all_chars c; intros H;
    first [discriminate H | norm_escaped; reflexivity].
Qed.

Lemma att_value_roundtrip (v rest : string) :
  xml_safe v = true ->
  att_value dquote
    (encode_ascii (escape_attrib v) +:+ String dquote rest) None
  = Some (v, rest).
Proof.
  unfold xml_safe. induction v as [|c v IH]; [reflexivity|].
  simpl string_forall. intros [Hc Hv]%andb_true_iff.
  change (String c v) with (String c "" +:+ v).
  rewrite escape_attrib_append, encode_ascii_append, append_assoc.
  rewrite (att_value_char c _ Hc), (IH Hv). reflexivity.
Qed.

(** *** Names *)

Lemma take_name_chars_append (k x : string) :
  string_forall is_name_char k = true -> ends_name x = true ->
  take_name_chars (k +:+ x) = (k, x).
Proof.
  intros Hk Hx. induction k as [|c k IH]; simpl.
  - destruct x as [|c x]; [reflexivity|]. simpl in *.
    apply negb_true_iff in Hx. now rewrite Hx.
  - simpl in Hk. apply andb_true_iff in Hk as [Hc Hk].
    now rewrite Hc, (IH Hk).
Qed.

Lemma parse_name_append (k x : string) :
  is_name k = true -> ends_name x = true ->
  parse_name (k +:+ x) = Some (k, x).
Proof.
  destruct k as [|c k]; [discriminate|]. simpl.
  intros [Hc Hk]%andb_true_iff Hx.
  now rewrite Hc, (take_name_chars_append k x Hk Hx).
Qed.

Lemma is_name_first (k : string) :
  is_name k = true ->
  exists c k', k = String c k' /\ is_name_start c = true.
Proof.
  destruct k as [|c k]; [discriminate|]. simpl.
  intros [Hc _]%andb_true_iff. eauto.
Qed.

(** *** Attributes *)

Lemma encode_serialize_attrib (k v : string) :
  is_name k = true ->
  encode_ascii (serialize_attrib (k, v)) =
  " " +:+ k +:+ "=" +:+
  String dquote (encode_ascii (escape_attrib v) +:+ String dquote "").
Proof.
  intros Hk. unfold serialize_attrib. simpl fst. simpl snd.
  rewrite !encode_ascii_append, (encode_ascii_id k (name_ascii k Hk)).
  change (String dquote (escape_attrib v +:+ String dquote ""))
    with (String dquote "" +:+ escape_attrib v +:+ String dquote "").
  rewrite !encode_ascii_append. reflexivity.
Qed.

(** After a space, a name start character opens an attribute. *)
Lemma parse_attributes_next (f : nat) (c0 : ascii) (s : string) :
  is_name_start c0 = true ->
  parse_attributes (S f) (String " " (String c0 s)) =
  ('(k, s2) ← parse_name (String c0 s);
   match skip_spaces s2 with
   | String "=" s3 =>
       match skip_spaces s3 with
       | String q s4 =>
           if Ascii.eqb q dquote || Ascii.eqb q "'" then
             '(v, s5) ← att_value q s4 None;
             '(l, e, r) ← parse_attributes f s5;
             Some ((k, v) :: l, e, r)
           else None
       | EmptyString => None
       end
   | _ => None
   end).
Proof. all_chars c0; intros H; first [discriminate H | reflexivity]. Qed.

Lemma parse_attributes_step (f : nat) (k v rest : string) :
  is_name k = true -> xml_safe v = true ->
  parse_attributes (S f) (encode_ascii (serialize_attrib (k, v)) +:+ rest) =
  ('(l, e, r) ← parse_attributes f rest; Some ((k, v) :: l, e, r)).
Proof.
  intros Hk Hv. rewrite (encode_serialize_attrib k v Hk).
  destruct (is_name_first k Hk) as (c0 & k' & Ek & Hc0).
  rewrite !append_assoc.
  change (" " +:+ ?x) with (String " " x).
  rewrite Ek at 1. change (String c0 k' +:+ ?x) with (String c0 (k' +:+ x)).
  rewrite (parse_attributes_next f c0 _ Hc0).
  change (String c0 (k' +:+ ?x)) with (String c0 k' +:+ x). rewrite <- Ek.
  rewrite parse_name_append by (assumption || reflexivity).
  cbn [mbind option_bind skip_spaces String.append].
  change (is_space "=") with false. cbv iota.
  cbn [skip_spaces]. change (is_space dquote) with false. cbv iota.
  change (Ascii.eqb dquote dquote) with true. cbn [orb].
  rewrite append_assoc. cbn [String.append].
  rewrite (att_value_roundtrip v rest Hv). reflexivity.
Qed.

(** The attributes as serialised, followed by the end of the tag. *)
Lemma parse_attributes_roundtrip
    (attrs : list (string * string)) (tail r : string) (e : tag_end) :
  forallb attribute_ok attrs = true ->
  (forall f, parse_attributes (S f) tail = Some ([], e, r)) ->
  forall fuel, (length attrs < fuel)%nat ->
  parse_attributes fuel
    (encode_ascii (concat_map serialize_attrib attrs) +:+ tail)
  = Some (attrs, e, r).
Proof.
  intros Hok Htail. induction attrs as [|[k v] attrs IH]; intros fuel Hfuel.
  - destruct fuel as [|f]; [simpl in Hfuel; lia|]. apply Htail.
  - simpl in Hok. apply andb_true_iff in Hok as [Hkv Hok].
    unfold attribute_ok in Hkv. simpl in Hkv.
    apply andb_true_iff in Hkv as [Hk Hv].
    destruct fuel as [|f]; [simpl in Hfuel; lia|].
    cbn [concat_map]. rewrite encode_ascii_append, append_assoc.
    rewrite (parse_attributes_step f k v _ Hk Hv).
    rewrite (IH Hok f) by (simpl in Hfuel; lia). reflexivity.
Qed.

Lemma tail_empty (r : string) (f : nat) :
  parse_attributes (S f) (" />" +:+ r) = Some ([], EndEmpty, r).
Proof. reflexivity. Qed.

Lemma tail_open (r : string) (f : nat) :
  parse_attributes (S f) (">" +:+ r) = Some ([], EndOpen, r).
Proof. reflexivity. Qed.

(** What follows the tag name does not continue the name. *)
Lemma attributes_end_name (attrs : list (string * string)) (tail : string) :
  ends_name tail = true ->
  ends_name (encode_ascii (concat_map serialize_attrib attrs) +:+ tail) = true.
Proof.
  intros Ht. destruct attrs as [|[k v] attrs]; [exact Ht|]. reflexivity.
Qed.


(** *** Elements *)

Lemma serialize_xml_unfold tag attrib text children :
  serialize_xml (Element tag attrib text children) =
  "<" +:+ tag +:+ concat_map serialize_attrib attrib +:+
  match default "" text, children with
  | EmptyString, [] => " />"
  | _, _ =>
      ">" +:+ escape_cdata (default "" text) +:+
      concat_map serialize_xml children +:+ "</" +:+ tag +:+ ">"
  end.
Proof.
  assert (Hgo : forall l,
             (fix go (l : list element) : string :=
                match l with
                | [] => ""
                | c :: l' => serialize_xml c +:+ go l'
                end) l = concat_map serialize_xml l).
  { induction l as [|c l IH]; [reflexivity|]. cbn [concat_map]. now rewrite <- IH. }
  cbn [serialize_xml]. rewrite Hgo.
  destruct text as [[|]|]; destruct children; reflexivity.
Qed.

Lemma need_unfold tag attrib text children :
  need (Element tag attrib text children) =
  S (Nat.max (S (length attrib)) (need_children children)).
Proof. reflexivity. Qed.

(** The serialised and encoded form of an element without text. *)
Lemma encode_serialize_xml tag attrib text children :
  is_name tag = true -> default "" text = "" ->
  encode_ascii (serialize_xml (Element tag attrib text children)) =
  String "<"
    (tag +:+ encode_ascii (concat_map serialize_attrib attrib) +:+
     match children with
     | [] => " />"
     | _ =>
         ">" +:+ encode_ascii (concat_map serialize_xml children) +:+
         "</" +:+ tag +:+ ">"
     end).
Proof.
  intros Htag Htxt. rewrite serialize_xml_unfold, Htxt.
  pose proof (encode_ascii_id tag (name_ascii tag Htag)) as Et.
  destruct children as [|c cs]; rewrite !encode_ascii_append, !Et; reflexivity.
Qed.

Lemma serializable_text tag attrib text children :
  serializable (Element tag attrib text children) = true ->
  default "" text = "".
Proof.
  cbn [serializable]. rewrite !andb_true_iff. intros (((_ & _) & H) & _).
  destruct text as [[|]|]; [reflexivity | discriminate | reflexivity].
Qed.

(** A serialised element starts with [<] and a name start character. *)
Lemma serialize_xml_starts (e : element) :
  serializable e = true ->
  exists c0 s, encode_ascii (serialize_xml e) = String "<" (String c0 s) /\
               is_name_start c0 = true.
Proof.
  destruct e as [tag attrib text children]. intros Hs.
  pose proof (serializable_text _ _ _ _ Hs) as Htxt.
  cbn [serializable] in Hs. rewrite !andb_true_iff in Hs.
  destruct Hs as ((((Htag & _) & _) & _) & _).
  rewrite (encode_serialize_xml _ _ _ _ Htag Htxt).
  destruct (is_name_first tag Htag) as (c0 & k & -> & Hc0).
  eexists. eexists. split; [reflexivity | exact Hc0].
Qed.

(** Before a name start character, [<] opens a child, not the end tag. *)
Lemma parse_children_next (f : nat) (tag : string) (c0 : ascii) (s : string) :
  is_name_start c0 = true ->
  parse_children (S f) tag (String "<" (String c0 s)) =
  ('(c, s1) ← parse_element f (String "<" (String c0 s));
   '(_, s2) ← char_data s1 None;
   '(cs, r) ← parse_children f tag s2;
   Some (c :: cs, r)).
Proof. all_chars c0; intros H; first [discriminate H | reflexivity]. Qed.

Lemma parse_children_end (f : nat) (tag rest : string) :
  is_name tag = true ->
  parse_children (S f) tag ("</" +:+ tag +:+ ">" +:+ rest) = Some ([], rest).
Proof.
  intros Htag. cbn [String.append parse_children].
  rewrite parse_name_append by (assumption || reflexivity).
  cbn [mbind option_bind skip_spaces String.append].
  change (is_space ">") with false. cbv iota.
  now rewrite String.eqb_refl.
Qed.

Lemma element_string_empty (tag a rest : string) :
  String "<" (tag +:+ a +:+ " />") +:+ rest =
  String "<" (tag +:+ a +:+ " />" +:+ rest).
Proof.
  cbn [String.append].
  repeat (rewrite append_assoc; cbn [String.append]). reflexivity.
Qed.

Lemma element_string_open (tag a c rest : string) :
  String "<" (tag +:+ a +:+ ">" +:+ c +:+ "</" +:+ tag +:+ ">") +:+ rest =
  String "<" (tag +:+ a +:+ ">" +:+ (c +:+ "</" +:+ tag +:+ ">" +:+ rest)).
Proof.
  cbn [String.append].
  repeat (rewrite append_assoc; cbn [String.append]). reflexivity.
Qed.

(** Serialising, then reading: the tree comes back, its empty texts read
    as no text. *)
Lemma read_back (fuel : nat) :
  (forall e rest,
      serializable e = true -> (need e <= fuel)%nat ->
      parse_element fuel (encode_ascii (serialize_xml e) +:+ rest)
      = Some (as_read e, rest)) /\
  (forall cs tag rest,
      forallb serializable cs = true -> is_name tag = true ->
      (need_children cs <= fuel)%nat ->
      parse_children fuel tag
        (encode_ascii (concat_map serialize_xml cs) +:+
         "</" +:+ tag +:+ ">" +:+ rest)
      = Some (map as_read cs, rest)).
Proof.
  induction fuel as [|f [IHe IHc]].
  - split.
    + intros [tag attrib text children] rest _ H. rewrite need_unfold in H. lia.
    + intros [|c cs] tag rest _ _ H; simpl in H; lia.
  - split.
    + intros [tag attrib text children] rest Hs Hn.
      rewrite need_unfold in Hn.
      pose proof (serializable_text _ _ _ _ Hs) as Htxt.
      cbn [serializable] in Hs. rewrite !andb_true_iff in Hs.
      destruct Hs as ((((Htag & Hattr) & Hdis) & Htext) & Hcs).
      rewrite (encode_serialize_xml _ _ _ _ Htag Htxt).
      destruct children as [|c cs].
      * rewrite element_string_empty. cbn [parse_element].
        rewrite parse_name_append;
          [|exact Htag|apply attributes_end_name; reflexivity].
        cbn [mbind option_bind].
        rewrite (parse_attributes_roundtrip attrib _ rest EndEmpty Hattr
                   (tail_empty rest) f) by lia.
        cbn [mbind option_bind]. rewrite Hdis.
        destruct text as [[|]|]; [reflexivity | discriminate | reflexivity].
      * rewrite element_string_open. cbn [parse_element].
        set (T := encode_ascii (concat_map serialize_xml (c :: cs)) +:+ _).
        rewrite parse_name_append;
          [|exact Htag|apply attributes_end_name; reflexivity].
        cbn [mbind option_bind].
        rewrite (parse_attributes_roundtrip attrib _ T EndOpen Hattr
                   (tail_open T) f) by lia.
        cbn [mbind option_bind]. rewrite Hdis.
        assert (HT : char_data T None = Some ("", T)).
        { subst T. cbn [concat_map forallb] in *.
          apply andb_true_iff in Hcs as [Hc _].
          destruct (serialize_xml_starts c Hc) as (c0 & s0 & E & _).
          rewrite encode_ascii_append, E. reflexivity. }
        rewrite HT. cbn [mbind option_bind]. subst T.
        rewrite (IHc (c :: cs) tag rest Hcs Htag) by lia.
        cbn [mbind option_bind String.eqb].
        destruct text as [[|]|]; [reflexivity | discriminate | reflexivity].
    + intros cs tag rest Hcs Htag Hn. destruct cs as [|c cs].
      * apply parse_children_end, Htag.
      * cbn [need_children] in Hn. cbn [forallb] in Hcs.
        apply andb_true_iff in Hcs as [Hc Hcs].
        cbn [concat_map]. rewrite encode_ascii_append, append_assoc.
        destruct (serialize_xml_starts c Hc) as (c0 & s0 & E & Hc0).
        set (T := encode_ascii (concat_map serialize_xml cs) +:+ _).
        assert (Hnext := parse_children_next f tag c0 (s0 +:+ T) Hc0).
        change (String "<" (String c0 (s0 +:+ T)))
          with (String "<" (String c0 s0) +:+ T) in Hnext.
        rewrite <- E in Hnext. rewrite Hnext.
        rewrite (IHe c T Hc) by lia.
        cbn [mbind option_bind].
        assert (HT : char_data T None = Some ("", T)).
        { subst T. destruct cs as [|c' cs'].
          - reflexivity.
          - cbn [concat_map forallb] in *.
            apply andb_true_iff in Hcs as [Hc' _].
            destruct (serialize_xml_starts c' Hc') as (c1 & s1 & E' & _).
            rewrite encode_ascii_append, E'. reflexivity. }
        rewrite HT. cbn [mbind option_bind]. subst T.
        rewrite (IHc cs tag rest Hcs Htag) by lia.
        reflexivity.
Qed.

(** *** Documents *)

Lemma tail_decl (r : string) (f : nat) :
  parse_attributes (S f) ("?>" +:+ r) = Some ([], EndDecl, r).
Proof. reflexivity. Qed.

Lemma parse_declaration_decl (x : string) :
  parse_declaration (Mesh2Cot.XML_DECL +:+ x) = Some x.
Proof.
  pose (attrs := [("version", "1.0"); ("standalone", "yes")]).
  change (Mesh2Cot.XML_DECL +:+ x)
    with (String "<" (String "?" (String "x" (String "m" (String "l"
            (encode_ascii (concat_map serialize_attrib attrs) +:+
             "?>" +:+ x)))))).
  unfold parse_declaration. cbv beta iota.
  cbn [String.length].
  rewrite (parse_attributes_roundtrip attrs _ x EndDecl eq_refl (tail_decl x))
    by (simpl; lia).
  reflexivity.
Qed.

(** The declaration alone is long enough to fuel the reading of a tree
    that needs at most 38 steps. *)
Lemma declaration_fuel (e : element) (x : string) :
  (need e <= 38)%nat ->
  (need e <= String.length (Mesh2Cot.XML_DECL +:+ x))%nat.
Proof.
  intros Hn. rewrite length_append.
  assert (H : String.length Mesh2Cot.XML_DECL = 38%nat) by reflexivity.
  rewrite H. apply Nat.le_trans with 38%nat; [exact Hn | apply Nat.le_add_r].
Qed.

Lemma bind_some {A B} (a : A) (k : A -> option B) : (Some a ≫= k) = k a.
Proof. reflexivity. Qed.

(** The declaration, then a serialised tree: the document reads back as
    the tree. *)
Lemma parse_document_roundtrip (e : element) :
  serializable e = true -> (need e <= 38)%nat ->
  parse_document (Mesh2Cot.XML_DECL +:+ tostring e) = Some (as_read e).
Proof.
  intros Hs Hn. unfold parse_document.
  pose proof (declaration_fuel e (tostring e) Hn) as Hfuel.
  revert Hfuel.
  generalize (String.length (Mesh2Cot.XML_DECL +:+ tostring e)).
  intros fuel Hfuel.
  rewrite parse_declaration_decl, bind_some. unfold tostring.
  destruct (serialize_xml_starts e Hs) as (c0 & s0 & E & _).
  assert (Hsk : skip_spaces (encode_ascii (serialize_xml e))
                = encode_ascii (serialize_xml e)) by (rewrite E; reflexivity).
  rewrite Hsk.
  rewrite <- (append_nil_r (encode_ascii (serialize_xml e))).
  rewrite (proj1 (read_back fuel) e "" Hs Hfuel), bind_some.
  reflexivity.
Qed.

(** *** The tree of [makeCoT] is one that reads back *)

Lemma lower_hex_xml_char c : is_lower_hex c = true -> is_xml_char c = true.
Proof. all_chars c; intros H; first [discriminate H | reflexivity]. Qed.

Lemma xml_safe_append a b :
  xml_safe (a +:+ b) = xml_safe a && xml_safe b.
Proof. apply string_forall_append. Qed.

Lemma dec_of_N_safe n : xml_safe (dec_of_N n) = true.
Proof.
  apply (string_forall_impl is_lower_hex); [apply lower_hex_xml_char|].
  apply radix_of_N_charset; lia.
Qed.

Lemma zfill_safe w s : xml_safe s = true -> xml_safe (zfill w s) = true.
Proof.
  intros Hs. unfold zfill. rewrite xml_safe_append, Hs, andb_true_r.
  now apply string_forall_repeat_char.
Qed.

Lemma fmt_d_int_safe z : xml_safe (fmt_d_int z) = true.
Proof.
  unfold fmt_d_int. destruct (z <? 0); [|apply dec_of_N_safe].
  rewrite xml_safe_append, dec_of_N_safe. reflexivity.
Qed.

Lemma strftime_field_safe c tm :
  is_xml_char c = true -> xml_safe (strftime_field c tm) = true.
Proof.
  intros Hc. unfold strftime_field.
  repeat (destruct (Ascii.eqb c _);
          [first [apply fmt_d_int_safe | apply zfill_safe, dec_of_N_safe
                 | reflexivity]|]).
  unfold xml_safe. simpl. now rewrite Hc.
Qed.

(** The timestamps are made of XML characters. *)
Lemma stamp_safe (tm : struct_time) :
  xml_safe (strftime Mesh2Cot.TIME_FORMAT tm) = true.
Proof.
  unfold Mesh2Cot.TIME_FORMAT. cbn [strftime Ascii.eqb Bool.eqb].
  repeat (rewrite xml_safe_append, strftime_field_safe by reflexivity;
          cbn [andb]; unfold xml_safe at 1; cbn [string_forall];
          fold (xml_safe);
          match goal with |- is_xml_char ?c && _ = true =>
            change (is_xml_char c) with true; cbn [andb] end).
  reflexivity.
Qed.

(** What the formatting operators return is made of XML characters. *)
Lemma fmt_08x_safe v s : fmt_08x v = Ok s -> xml_safe s = true.
Proof.
  assert (H : forall z, xml_safe (fmt_08x_int z) = true).
  { intros z. unfold fmt_08x_int.
    assert (Hh : forall n, xml_safe (hex_of_N n) = true).
    { intros n. apply (string_forall_impl is_lower_hex);
        [apply lower_hex_xml_char | apply radix_of_N_charset; lia]. }
    destruct (z <? 0); [|apply zfill_safe, Hh].
    rewrite xml_safe_append, (zfill_safe _ _ (Hh _)). reflexivity. }
  destruct v; simpl; intros [= <-]; apply H.
Qed.

Lemma fmt_d_safe v s : fmt_d v = Ok s -> xml_safe s = true.
Proof.
  destruct v as [| |z|f| |]; simpl; try discriminate;
    try (intros [= <-]; apply fmt_d_int_safe).
  destruct f; intros [= <-]; first [reflexivity | apply fmt_d_int_safe].
Qed.

Lemma fmt_f_float_safe x : xml_safe (fmt_f_float x) = true.
Proof.
  assert (Hfix : forall u, xml_safe (fixed6 u) = true).
  { intros u. unfold fixed6.
    rewrite !xml_safe_append, dec_of_N_safe, (zfill_safe _ _ (dec_of_N_safe _)).
    reflexivity. }
  destruct x as [[]|[]| |[] m e]; try reflexivity;
    cbn [fmt_f_float String.append];
    try match goal with
        | |- xml_safe (String "-" ?x) = true => change (xml_safe x = true)
        end;
    apply Hfix.
Qed.

Lemma fmt_f_safe v s : fmt_f v = Ok s -> xml_safe s = true.
Proof.
  destruct v as [|b|z|f| |]; cbn [fmt_f]; try discriminate.
  - intros [= <-]. apply fmt_f_float_safe.
  - unfold float_of_int.
    destruct (binary_normalize _ _ _ _ _) as [s0|s0| |s0 m e] eqn:E;
      cbn [rbind]; try discriminate; intros H;
      match type of H with
      | Ok (fmt_f_float ?x) = _ =>
          assert (Hs : s = fmt_f_float x) by congruence;
          rewrite Hs; apply fmt_f_float_safe
      end.
  - intros [= <-]. apply fmt_f_float_safe.
Qed.

Section CotReadsBack.

Import Mesh2Cot.

Variable cfg : config.
Variables callsign uuid lat lon alt : string.
Variable batt : option string.
Variables t1 t2 t3 : string.

Hypothesis callsign_safe : xml_safe callsign = true.
Hypothesis uuid_safe : xml_safe uuid = true.
Hypothesis lat_safe : xml_safe lat = true.
Hypothesis lon_safe : xml_safe lon = true.
Hypothesis alt_safe : xml_safe alt = true.
Hypothesis batt_safe :
  match batt with Some s => xml_safe s | None => true end = true.
Hypothesis type_safe : xml_safe (UNIT_TYPE cfg) = true.
Hypothesis team_safe : xml_safe (UNIT_TEAM cfg) = true.
Hypothesis role_safe : xml_safe (UNIT_ROLE cfg) = true.
Hypothesis t1_safe : xml_safe t1 = true.
Hypothesis t2_safe : xml_safe t2 = true.
Hypothesis t3_safe : xml_safe t3 = true.

Lemma cot_serializable :
  serializable (cot cfg callsign uuid lat lon alt batt t1 t2 t3) = true.
Proof using All.
  unfold cot.
  destruct batt as [s|]; [destruct (String.eqb s "")|];
    cbn [serializable forallb app]; unfold attribute_ok; cbn [fst snd];
    rewrite ?callsign_safe, ?uuid_safe, ?lat_safe, ?lon_safe, ?alt_safe,
      ?batt_safe, ?type_safe, ?team_safe, ?role_safe, ?t1_safe, ?t2_safe,
      ?t3_safe;
    reflexivity.
Qed.

Lemma cot_need :
  (need (cot cfg callsign uuid lat lon alt batt t1 t2 t3) <= 38)%nat.
Proof using Type.
  unfold cot.
  case batt; [intros s; case (String.eqb s "")|];
    apply Nat.leb_le; reflexivity.
Qed.

Lemma cot_reads_back :
  parse_document
    (XML_DECL +:+ tostring (cot cfg callsign uuid lat lon alt batt t1 t2 t3))
  = Some (as_read (cot cfg callsign uuid lat lon alt batt t1 t2 t3)).
Proof using All.
  apply parse_document_roundtrip; [apply cot_serializable | apply cot_need].
Qed.

End CotReadsBack.


(** *** The bytes of a document *)

(** Whatever the string, its encoding has only characters below 128. *)
Lemma encode_ascii_is_ascii (s : string) :
  string_forall is_ascii (encode_ascii s) = true.
Proof.
  induction s as [|c s IH]; [reflexivity|]. simpl.
  destruct (N_of_ascii c <? 128)%N eqn:E.
  - simpl. unfold is_ascii at 1, code. now rewrite E, IH.
  - cbn [string_forall]. rewrite string_forall_append.
    cbn [string_forall]. rewrite IH.
    rewrite (string_forall_weaken is_dec_digit is_ascii (dec_of_N _));
      [reflexivity | | apply dec_of_N_digits].
    intros x Hx. apply (dec_digit_plain x Hx).
Qed.

(** *** The length of a document *)

(** The length of an attribute value as it is written. *)
#[local] Abbreviation written s :=
  (String.length (encode_ascii (escape_attrib s))).

Lemma written_char (c : ascii) :
  (written (String c "") <= 6)%nat.
Proof.
  all_chars c;
    match goal with
    | |- (String.length ?t <= 6)%nat =>
        let n := eval vm_compute in (String.length t) in
        change (n <= 6)%nat; lia
    end.
Qed.

Lemma written_cons (c : ascii) (s : string) :
  written (String c s) = (written (String c "") + written s)%nat.
Proof.
  change (String c s) with (String c "" +:+ s).
  now rewrite escape_attrib_append, encode_ascii_append, length_append.
Qed.

(** No character is written with more than six. *)
Lemma written_bound (s : string) : (written s <= 6 * String.length s)%nat.
Proof.
  induction s as [|c s IH]; [reflexivity|].
  rewrite written_cons. pose proof (written_char c).
  cbn [String.length]. lia.
Qed.

Lemma written_plain_char (c : ascii) :
  is_plain c = true -> encode_ascii (escape_attrib (String c "")) = String c "".
Proof.
  all_chars c; intros H; first [discriminate H | vm_compute; reflexivity].
Qed.

(** A string of plain characters is written as it is. *)
Lemma written_plain (s : string) :
  string_forall is_plain s = true -> encode_ascii (escape_attrib s) = s.
Proof.
  induction s as [|c s IH]; [reflexivity|]. simpl string_forall.
  intros [Hc Hs]%andb_true_iff.
  change (String c s) with (String c "" +:+ s).
  now rewrite escape_attrib_append, encode_ascii_append,
    (written_plain_char c Hc), (IH Hs).
Qed.

Lemma lower_hex_is_plain c : is_lower_hex c = true -> is_plain c = true.
Proof. all_chars c; intros H; first [discriminate H | reflexivity]. Qed.

Lemma dec_of_N_plain n : string_forall is_plain (dec_of_N n) = true.
Proof.
  apply (string_forall_impl is_lower_hex); [apply lower_hex_is_plain|].
  apply radix_of_N_charset; lia.
Qed.

Lemma zfill_plain w s :
  string_forall is_plain s = true -> string_forall is_plain (zfill w s) = true.
Proof.
  intros Hs. unfold zfill. rewrite string_forall_append, Hs, andb_true_r.
  now apply string_forall_repeat_char.
Qed.

Lemma fmt_d_int_plain z : string_forall is_plain (fmt_d_int z) = true.
Proof.
  unfold fmt_d_int. destruct (z <? 0); [|apply dec_of_N_plain].
  rewrite string_forall_append, dec_of_N_plain. reflexivity.
Qed.

Lemma fmt_08x_int_plain z : string_forall is_plain (fmt_08x_int z) = true.
Proof.
  unfold fmt_08x_int.
  assert (Hh : forall n, string_forall is_plain (hex_of_N n) = true).
  { intros n. apply (string_forall_impl is_lower_hex);
      [apply lower_hex_is_plain | apply radix_of_N_charset; lia]. }
  destruct (z <? 0); [|apply zfill_plain, Hh].
  rewrite string_forall_append, (zfill_plain _ _ (Hh _)). reflexivity.
Qed.

Lemma fmt_f_float_plain x : string_forall is_plain (fmt_f_float x) = true.
Proof.
  assert (Hfix : forall u, string_forall is_plain (fixed6 u) = true).
  { intros u. unfold fixed6.
    rewrite !string_forall_append, dec_of_N_plain,
      (zfill_plain _ _ (dec_of_N_plain _)).
    reflexivity. }
  destruct x as [[]|[]| |[] m e]; try reflexivity;
    cbn [fmt_f_float]; rewrite string_forall_append, Hfix; reflexivity.
Qed.

Lemma strftime_field_plain c tm :
  is_plain c = true -> string_forall is_plain (strftime_field c tm) = true.
Proof.
  intros Hc. unfold strftime_field.
  repeat (destruct (Ascii.eqb c _);
          [first [apply fmt_d_int_plain | apply zfill_plain, dec_of_N_plain
                 | reflexivity]|]).
  simpl. now rewrite Hc.
Qed.

Lemma stamp_plain (tm : struct_time) :
  string_forall is_plain (strftime Mesh2Cot.TIME_FORMAT tm) = true.
Proof.
  unfold Mesh2Cot.TIME_FORMAT. cbn [strftime Ascii.eqb Bool.eqb].
  repeat (rewrite string_forall_append, strftime_field_plain by reflexivity;
          cbn [andb string_forall];
          match goal with |- is_plain ?c && _ = true =>
            change (is_plain c) with true; cbn [andb] end).
  reflexivity.
Qed.

(** The attributes of a tag, and an element without text, as written. *)
Lemma attributes_length (attrs : list (string * string)) :
  forallb (fun kv => is_name (fst kv)) attrs = true ->
  String.length (encode_ascii (concat_map serialize_attrib attrs)) =
  sum_list_with
    (fun kv => 4 + String.length (fst kv) + written (snd kv))%nat attrs.
Proof.
  induction attrs as [|[k v] attrs IH]; [reflexivity|].
  cbn [forallb fst]. intros [Hk Ha]%andb_true_iff.
  cbn [concat_map sum_list_with fst snd].
  rewrite encode_ascii_append, length_append, (IH Ha).
  rewrite (encode_serialize_attrib k v Hk).
  rewrite !length_append. cbn [String.length]. rewrite length_append.
  cbn [String.length]. lia.
Qed.

Lemma children_length (c : element) (cs : list element) :
  String.length (encode_ascii (concat_map serialize_xml (c :: cs))) =
  (String.length (encode_ascii (serialize_xml c)) +
   String.length (encode_ascii (concat_map serialize_xml cs)))%nat.
Proof. cbn [concat_map]. now rewrite encode_ascii_append, length_append. Qed.

Lemma element_length tag attrs text children :
  is_name tag = true -> default "" text = "" ->
  forallb (fun kv => is_name (fst kv)) attrs = true ->
  String.length (encode_ascii (serialize_xml (Element tag attrs text children)))
  = (1 + String.length tag +
     sum_list_with
       (fun kv => 4 + String.length (fst kv) + written (snd kv)) attrs +
     match children with
     | [] => 3
     | _ => 4 + String.length (encode_ascii (concat_map serialize_xml children))
            + String.length tag
     end)%nat.
Proof.
  intros Ht Hx Ha. rewrite (encode_serialize_xml _ _ _ _ Ht Hx).
  cbn [String.length]. rewrite !length_append, (attributes_length _ Ha).
  destruct children as [|c cs]; [cbn [String.length]; lia|].
  rewrite !length_append. cbn [String.length]. lia.
Qed.

(** The length of the document that [makeCoT] returns. *)
Lemma cot_length cfg callsign uuid lat lon alt batt t1 t2 t3 :
  String.length
    (Mesh2Cot.XML_DECL +:+
     tostring (Mesh2Cot.cot cfg callsign uuid lat lon alt batt t1 t2 t3)) =
  (395 + written uuid + written t1 + written t2 + written t3 +
   written (Mesh2Cot.UNIT_TYPE cfg) + written lat + written lon +
   written alt + 2 * written callsign +
   written (Mesh2Cot.UNIT_TEAM cfg) + written (Mesh2Cot.UNIT_ROLE cfg) +
   match batt with
   | Some b => if String.eqb b "" then 0 else 21 + written b
   | None => 0
   end)%nat.
Proof.
  rewrite length_append. unfold tostring, Mesh2Cot.cot.
  change (String.length Mesh2Cot.XML_DECL) with 38%nat.
  destruct batt as [b|]; [destruct (String.eqb b "")|]; cbn [app];
    repeat first [ rewrite element_length by reflexivity
                 | rewrite children_length
                 | progress cbn [concat_map encode_ascii String.length
                                 sum_list_with fst snd] ];
    change (written "2.0") with 3%nat; change (written "m-g") with 3%nat;
    change (written "9999999.0") with 9%nat;
    change (written "MESH2COT") with 8%nat; change (written "ATAK") with 4%nat;
    change (written "3.8-COMPAT") with 10%nat; change (written "23") with 2%nat;
    change (written "GPS") with 3%nat;
    lia.
Qed.

End XmlFacts.

(* ===================================================================== *)
(** ** Facts on the program *)
(* ===================================================================== *)

Module Mesh2CotFacts.
Import Py PyFacts Xml XmlFacts Mesh2Cot Samples.

(** The formatted timestamp of a whole number of seconds. *)
#[local] Abbreviation stamp s := (strftime TIME_FORMAT (gmtime s)).

Lemma makeCoT_cot_run cfg callsign uuid lat lon alt batt (w : world) :
  makeCoT_cot cfg callsign uuid lat lon alt batt w =
  (Ok (cot cfg callsign uuid lat lon alt batt
           (stamp (clock w (ticks w) / NS))
           (stamp (clock w (S (ticks w)) / NS))
           (stamp ((clock w (S (S (ticks w))) + POINT_EVT_TTL * NS) / NS))),
   with_ticks (S (S (S (ticks w)))) w).
Proof. reflexivity. Qed.

Lemma bind_lift_ok {A B} (a : A) (k : A -> M B) : (lift (Ok a) ≫= k) = k a.
Proof. reflexivity. Qed.

Lemma bind_lift_raise {A B} (e : exn) (k : A -> M B) (w : world) :
  (lift (Raise e) ≫= k) w = (Raise e, w).
Proof. reflexivity. Qed.

Lemma result_bind_ok {A B} (a : A) (k : A -> result B) : (Ok a ≫= k) = k a.
Proof. reflexivity. Qed.

(** Projections of updated worlds, without unfolding anything else. *)
Ltac world_simpl :=
  cbn [clock ticks socks sent log can_socket can_send
       with_ticks with_socks with_sent with_log fst snd].

(** One step of a run: the lifted expression evaluates by [H]. *)
Ltac run_lift H := rewrite H, bind_lift_ok; cbv beta.

(** The document [makeCoT] returns in world [w]. *)
Lemma makeCoT_run cfg callsign uuid lat lon alt batt (w : world) :
  makeCoT cfg callsign uuid lat lon alt batt w =
  (Ok (XML_DECL +:+ tostring
         (cot cfg callsign uuid lat lon alt batt
              (stamp (clock w (ticks w) / NS))
              (stamp (clock w (S (ticks w)) / NS))
              (stamp ((clock w (S (S (ticks w))) + POINT_EVT_TTL * NS) / NS)))),
   with_ticks (S (S (S (ticks w)))) w).
Proof. reflexivity. Qed.

(** Closing the socket just opened gives back the sockets as they were. *)
Lemma fresh_socket_released (s : gset nat) :
  ({[fresh s]} ∪ s) ∖ {[fresh s]} = s.
Proof. pose proof (is_fresh s). set_solver. Qed.

(** *** The tail of [onReceive]: build, log, send *)

(** What [onReceive] runs once the arguments of [makeCoT] are evaluated. *)
#[local] Abbreviation transmit cfg callsign uuid lat lon b :=
  (CoT ← makeCoT cfg callsign uuid lat lon "9999999.0" b;
   _ ← logging_debug cfg ("CoT: " +:+ CoT);
   o_sock ← socket_socket;
   _ ← socket_sendto o_sock CoT (ATAK_HOST cfg) (ATAK_PORT cfg);
   socket_close o_sock).

Section Transmit.

Variable cfg : config.
Variables callsign uuid lat lon : string.
Variable b : option string.

#[local] Abbreviation document w := (document_in cfg callsign uuid lat lon b w).
#[local] Abbreviation built w := (built_in cfg callsign uuid lat lon b w).


Lemma built_sent w : sent (built w) = sent w.
Proof.
  unfold built_in, logging_debug. destruct (DEBUG_LEVEL cfg =? 0); reflexivity.
Qed.

Lemma built_ticks w : ticks (built w) = S (S (S (ticks w))).
Proof.
  unfold built_in, logging_debug. destruct (DEBUG_LEVEL cfg =? 0); reflexivity.
Qed.

Lemma built_log w :
  log (built w) =
  if DEBUG_LEVEL cfg =? 0 then log w else log w ++ ["CoT: " +:+ document w].
Proof.
  unfold built_in, logging_debug. destruct (DEBUG_LEVEL cfg =? 0); reflexivity.
Qed.

(** The transport works: one datagram, the socket opened and closed. *)
Lemma transmit_sends (w : world) :
  can_socket w = true -> can_send w = true ->
  transmit cfg callsign uuid lat lon b w =
  (Ok tt,
   with_sent (sent w ++ [mk_datagram (fresh (socks w)) (document w)
                                     (ATAK_HOST cfg) (ATAK_PORT cfg)])
             (built w)).
Proof.
  intros Hs Hd.
  unfold mbind, M_bind, bind. rewrite makeCoT_run.
  unfold built_in, document_in, tree_in.
  unfold logging_debug, socket_socket, socket_sendto, socket_close.
  destruct (DEBUG_LEVEL cfg =? 0); world_simpl; rewrite Hs; world_simpl;
    rewrite Hd; world_simpl; rewrite fresh_socket_released; reflexivity.
Qed.

(** No socket can be opened: the handler raises before anything is sent. *)
Lemma transmit_no_socket (w : world) :
  can_socket w = false ->
  transmit cfg callsign uuid lat lon b w = (Raise OSError, built w).
Proof.
  intros Hs.
  unfold mbind, M_bind, bind. rewrite makeCoT_run.
  unfold built_in, document_in, tree_in.
  unfold logging_debug, socket_socket.
  destruct (DEBUG_LEVEL cfg =? 0); world_simpl; rewrite Hs; reflexivity.
Qed.

(** The send fails: the handler raises, and the socket it opened stays
    open. *)
Lemma transmit_send_fails (w : world) :
  can_socket w = true -> can_send w = false ->
  transmit cfg callsign uuid lat lon b w =
  (Raise OSError, with_socks ({[fresh (socks w)]} ∪ socks w) (built w)).
Proof.
  intros Hs Hd.
  unfold mbind, M_bind, bind. rewrite makeCoT_run.
  unfold built_in, document_in, tree_in.
  unfold logging_debug, socket_socket, socket_sendto.
  destruct (DEBUG_LEVEL cfg =? 0); world_simpl; rewrite Hs; world_simpl;
    rewrite Hd; reflexivity.
Qed.

End Transmit.

(** *** Packets with a position, a latitude and a longitude *)

Section Qualifying.

Variable cfg : config.
Variables m d p : gmap string pyval.
Variables callsign uuid lat lon : string.
Variable b : option string.

Hypothesis Hdecoded : m !! "decoded" = Some (PyDict d).
Hypothesis Hposition : d !! "position" = Some (PyDict p).
Hypothesis Hlat : is_Some (p !! "latitude").
Hypothesis Hlon : is_Some (p !! "longitude").
Hypothesis Hcallsign : callsign_of (PyDict m) = Ok callsign.
Hypothesis Huuid : uuid_of (PyDict m) = Ok uuid.
Hypothesis Hlatf : (x ← getitem (PyDict p) "latitude"; fmt_f x) = Ok lat.
Hypothesis Hlonf : (x ← getitem (PyDict p) "longitude"; fmt_f x) = Ok lon.
Hypothesis Hbatt :
  battery_arg (default (PyBool false) (p !! "batteryLevel")) = Ok b.

Lemma getitem_decoded : getitem (PyDict m) "decoded" = Ok (PyDict d).
Proof using Hdecoded. unfold getitem. rewrite Hdecoded. reflexivity. Qed.

Lemma contains_position : contains "position" (PyDict d) = Ok true.
Proof using Hposition.
  unfold contains. rewrite Hposition. reflexivity.
Qed.

Lemma position_of_packet : position_of (PyDict m) = Ok (PyDict p).
Proof using Hdecoded Hposition.
  unfold position_of. rewrite getitem_decoded. simpl.
  unfold getitem. rewrite Hposition. reflexivity.
Qed.

Lemma battery_of_packet :
  battery_of (PyDict m) = Ok (default (PyBool false) (p !! "batteryLevel")).
Proof using Hdecoded Hposition.
  unfold battery_of. rewrite position_of_packet. simpl.
  unfold getitem. case (p !! "batteryLevel"); reflexivity.
Qed.

Lemma keys_superset_position :
  keys_superset (PyDict p) ["latitude"; "longitude"] = Ok true.
Proof using Hlat Hlon.
  unfold keys_superset. simpl.
  rewrite !bool_decide_eq_true_2 by assumption. reflexivity.
Qed.

(** The handler gets as far as [makeCoT], with the arguments formatted. *)
Lemma onReceive_qualifying (w : world) :
  onReceive cfg (PyDict m) w = transmit cfg callsign uuid lat lon b w.
Proof using All.
  unfold onReceive.
  run_lift getitem_decoded. run_lift contains_position.
  run_lift battery_of_packet. run_lift position_of_packet.
  run_lift keys_superset_position.
  run_lift Hcallsign. run_lift Huuid.
  rewrite !result_bind_ok.
  run_lift Hlatf. run_lift Hlonf. run_lift Hbatt.
  reflexivity.
Qed.

End Qualifying.

(** *** Well-typed qualifying packets *)

(** The source id is an [int], the coordinates are [float]s. *)
Lemma onReceive_typed cfg (m d p : gmap string pyval) (z : Z)
    (x y : spec_float) (b : option string) (w : world) :
  m !! "decoded" = Some (PyDict d) ->
  d !! "position" = Some (PyDict p) ->
  m !! "from" = Some (PyInt z) ->
  p !! "latitude" = Some (PyFloat x) ->
  p !! "longitude" = Some (PyFloat y) ->
  battery_arg (default (PyBool false) (p !! "batteryLevel")) = Ok b ->
  onReceive cfg (PyDict m) w =
  transmit cfg ("mesh-" +:+ fmt_08x_int z)
           (UUID_ROOT +:+ "-00" +:+ fmt_08x_int z)
           (fmt_f_float x) (fmt_f_float y) b w.
Proof.
  intros Hd Hp Hf Hx Hy Hb.
  apply (onReceive_qualifying cfg m d p); try assumption.
  - rewrite Hx. eexists. reflexivity.
  - rewrite Hy. eexists. reflexivity.
  - unfold callsign_of, getitem. rewrite Hf. reflexivity.
  - unfold uuid_of, getitem. rewrite Hf. reflexivity.
  - unfold getitem. rewrite Hx. reflexivity.
  - unfold getitem. rewrite Hy. reflexivity.
Qed.

(** *** Every packet: the three ways a call can go *)

Lemma getitem_error v k e : getitem v k = Raise e -> extraction_error e.
Proof.
  unfold getitem, extraction_error. intros H.
  repeat case_match; simplify_eq; done.
Qed.

Lemma contains_error k v e : contains k v = Raise e -> extraction_error e.
Proof.
  unfold contains, extraction_error. intros H.
  repeat case_match; simplify_eq; done.
Qed.

Lemma keys_superset_error v ks e :
  keys_superset v ks = Raise e -> extraction_error e.
Proof.
  unfold keys_superset, extraction_error. intros H.
  repeat case_match; simplify_eq; done.
Qed.

Lemma fmt_08x_error v e : fmt_08x v = Raise e -> extraction_error e.
Proof.
  unfold fmt_08x, extraction_error. intros H.
  repeat case_match; simplify_eq; done.
Qed.

Lemma fmt_d_error v e : fmt_d v = Raise e -> extraction_error e.
Proof.
  unfold fmt_d, extraction_error. intros H.
  repeat case_match; simplify_eq; done.
Qed.

Lemma fmt_f_error v e : fmt_f v = Raise e -> extraction_error e.
Proof.
  unfold fmt_f, float_of_int, extraction_error. intros H.
  destruct v; simpl in H; simplify_eq; try done.
  destruct (binary_normalize _ _ _ _ _); simpl in H; simplify_eq; done.
Qed.

Lemma result_bind_error {A B} (r : result A) (k : A -> result B) e :
  (r ≫= k) = Raise e ->
  r = Raise e \/ exists a, r = Ok a /\ k a = Raise e.
Proof.
  destruct r as [a|e']; simpl; intros H; [right; eauto | left; congruence].
Qed.

Lemma position_of_error v e : position_of v = Raise e -> extraction_error e.
Proof.
  unfold position_of. intros [H|(a & _ & H)]%result_bind_error;
    eapply getitem_error; eassumption.
Qed.

Lemma battery_of_error v e : battery_of v = Raise e -> extraction_error e.
Proof.
  unfold battery_of.
  destruct (position_of v ≫= _) as [a|e'] eqn:E; [discriminate|].
  intros H.
  assert (e' = e) as -> by (destruct e'; congruence).
  apply result_bind_error in E as [E|(a & _ & E)];
    [eapply position_of_error | eapply getitem_error]; eassumption.
Qed.

Lemma battery_arg_error v e : battery_arg v = Raise e -> extraction_error e.
Proof.
  unfold battery_arg. destruct (truthy v); [|discriminate].
  intros [H|(a & _ & H)]%result_bind_error; [|discriminate].
  eapply fmt_d_error; eassumption.
Qed.

Lemma callsign_of_error v e : callsign_of v = Raise e -> extraction_error e.
Proof.
  unfold callsign_of.
  intros [H|(a & _ & [H|(h & _ & H)]%result_bind_error)]%result_bind_error;
    [eapply getitem_error | eapply fmt_08x_error | discriminate]; eassumption.
Qed.

Lemma uuid_of_error v e : uuid_of v = Raise e -> extraction_error e.
Proof.
  unfold uuid_of.
  intros [H|(a & _ & [H|(h & _ & H)]%result_bind_error)]%result_bind_error;
    [eapply getitem_error | eapply fmt_08x_error | discriminate]; eassumption.
Qed.

Lemma coordinate_error v k e :
  (x ← getitem v k; fmt_f x) = Raise e -> extraction_error e.
Proof.
  intros [H|(a & _ & H)]%result_bind_error;
    [eapply getitem_error | eapply fmt_f_error]; eassumption.
Qed.

(** One step of the case analysis: the lifted expression [r] either
    raises, which ends the call in the same world, or has a value. *)
Ltac run_case r Herr :=
  destruct r eqn:?;
  [ rewrite ?bind_lift_ok; cbv beta
  | right; left; eexists; split; [eapply Herr; eassumption | reflexivity] ].

(** A call of the handler either skips the packet, or fails while reading
    the packet (the world is as before), or reaches [makeCoT] with
    arguments that the formatting operators returned. *)
Lemma onReceive_arguments cfg (packet : pyval) (w : world) :
  onReceive cfg packet w = (Ok tt, w) \/
  (exists e, extraction_error e /\ onReceive cfg packet w = (Raise e, w)) \/
  (exists callsign uuid lat lon b position batt,
      callsign_of packet = Ok callsign /\
      uuid_of packet = Ok uuid /\
      (x ← getitem position "latitude"; fmt_f x) = Ok lat /\
      (x ← getitem position "longitude"; fmt_f x) = Ok lon /\
      battery_arg batt = Ok b /\
      onReceive cfg packet w = transmit cfg callsign uuid lat lon b w).
Proof.
  unfold onReceive.
  run_case (getitem packet "decoded") getitem_error.
  run_case (contains "position" a) contains_error.
  destruct a0; [|left; reflexivity].
  run_case (battery_of packet) battery_of_error.
  run_case (position_of packet) position_of_error.
  run_case (keys_superset a1 ["latitude"; "longitude"]) keys_superset_error.
  destruct a2; [|left; reflexivity].
  run_case (callsign_of packet) callsign_of_error.
  run_case (uuid_of packet) uuid_of_error.
  rewrite !result_bind_ok.
  run_case (getitem a1 "latitude" ≫= fmt_f) coordinate_error.
  run_case (getitem a1 "longitude" ≫= fmt_f) coordinate_error.
  run_case (battery_arg a0) battery_arg_error.
  right; right. exists a2, a3, a4, a5, a6, a1, a0. auto 10.
Qed.

Lemma onReceive_cases cfg (packet : pyval) (w : world) :
  onReceive cfg packet w = (Ok tt, w) \/
  (exists e, extraction_error e /\ onReceive cfg packet w = (Raise e, w)) \/
  (exists callsign uuid lat lon b,
      onReceive cfg packet w = transmit cfg callsign uuid lat lon b w).
Proof.
  destruct (onReceive_arguments cfg packet w)
    as [H|[H|(cs & u & la & lo & b & _ & _ & _ & _ & _ & _ & _ & H)]];
    eauto 10.
Qed.

(* ------------------------------------------------------------------- *)
(** *** Identifiers *)

(** C1: for a 32-bit source id [z], the uid is the fixed root followed by
    ["-00"] and the callsign is ["mesh-"], each followed by the same eight
    lower-case, zero-padded hexadecimal digits of [z]; both depend on the
    packet through the source id alone, and two source ids of the 32-bit
    range with the same uid, or with the same callsign, are equal. *)
Theorem C1_uid_callsign_from_source_id
    (m1 m2 : gmap string pyval) (z1 z2 : Z) :
  m1 !! "from" = Some (PyInt z1) -> 0 <= z1 < 2 ^ 32 ->
  m2 !! "from" = Some (PyInt z2) -> 0 <= z2 < 2 ^ 32 ->
  (uuid_of (PyDict m1) =
     Ok ("7ea452c5-a1ec-571c-a7ac-00" +:+ fmt_08x_int z1) /\
   callsign_of (PyDict m1) = Ok ("mesh-" +:+ fmt_08x_int z1) /\
   String.length (fmt_08x_int z1) = 8%nat /\
   string_forall is_lower_hex (fmt_08x_int z1) = true /\
   radix_value 16 0 (fmt_08x_int z1) = Z.to_N z1) /\
  (uuid_of (PyDict m1) = uuid_of (PyDict m2) -> z1 = z2) /\
  (callsign_of (PyDict m1) = callsign_of (PyDict m2) -> z1 = z2).
Proof.
  intros H1 R1 H2 R2.
  destruct (fmt_08x_int_32 z1 R1) as (L1 & C1 & V1).
  destruct (fmt_08x_int_32 z2 R2) as (L2 & C2 & V2).
  assert (Hinj : fmt_08x_int z1 = fmt_08x_int z2 -> z1 = z2).
  { intros E. rewrite E in V1. rewrite V1 in V2. lia. }
  unfold uuid_of, callsign_of, getitem. rewrite H1, H2. simpl.
  repeat split; try assumption.
  - intros [= E]. apply Hinj. exact E.
  - intros [= E]. apply Hinj. exact E.
Qed.

Lemma C1_uid_callsign_witness :
  uuid_of packet5 = Ok "7ea452c5-a1ec-571c-a7ac-001a2b3c4d" /\
  callsign_of packet5 = Ok "mesh-1a2b3c4d".
Proof.
  pose proof (C1_uid_callsign_from_source_id
                (m_of p5) m_no_decoded 439041101 439041101) as H.
  destruct H as ((Hu & Hc & _) & _).
  - reflexivity.
  - split; [lia | reflexivity].
  - reflexivity.
  - split; [lia | reflexivity].
  - split; [exact Hu | exact Hc].
Defined.

(* ------------------------------------------------------------------- *)
(** *** Packets that are skipped, packets that make the handler fail *)

(** C6: a packet whose decoded payload has no position, or whose position
    lacks the latitude or the longitude, is skipped: the handler returns
    normally and the world is as before (no clock query, so no event is
    built; no datagram; no log line). *)
Theorem C6_no_position_no_datagram cfg (m d : gmap string pyval) (w : world) :
  m !! "decoded" = Some (PyDict d) ->
  (d !! "position" = None \/
   exists p : gmap string pyval,
     d !! "position" = Some (PyDict p) /\
     (p !! "latitude" = None \/ p !! "longitude" = None)) ->
  onReceive cfg (PyDict m) w = (Ok tt, w) /\
  sent (snd (onReceive cfg (PyDict m) w)) = sent w.
Proof.
  intros Hd Hp.
  assert (H : onReceive cfg (PyDict m) w = (Ok tt, w)); [|now rewrite H].
  unfold onReceive.
  run_lift (getitem_decoded m d Hd).
  destruct Hp as [Hp|(p & Hp & Hk)].
  - unfold contains. rewrite Hp. reflexivity.
  - run_lift (contains_position d p Hp).
    run_lift (battery_of_packet m d p Hd Hp).
    run_lift (position_of_packet m d p Hd Hp).
    unfold keys_superset. simpl.
    destruct Hk as [-> | ->]; [reflexivity|].
    destruct (p !! "latitude"); reflexivity.
Qed.



Lemma C6_no_position_witness :
  onReceive debug_config (PyDict (m_of p5_lat_only)) w_up = (Ok tt, w_up) /\
  sent (snd (onReceive debug_config (PyDict (m_of p5_lat_only)) w_up)) = [].
Proof.
  apply (C6_no_position_no_datagram debug_config (m_of p5_lat_only)
           (d_of p5_lat_only) w_up).
  - reflexivity.
  - right. exists p5_lat_only. split; [reflexivity | right; reflexivity].
Defined.



(* ------------------------------------------------------------------- *)
(** *** The transport *)

(** Any call sends the datagrams it had, or exactly one more. *)
Lemma onReceive_sent cfg (packet : pyval) (w : world) :
  sent (snd (onReceive cfg packet w)) = sent w \/
  exists callsign uuid lat lon b,
    fst (onReceive cfg packet w) = Ok tt /\
    sent (snd (onReceive cfg packet w)) =
    sent w ++ [mk_datagram (fresh (socks w))
                 (document_in cfg callsign uuid lat lon b w)
                 (ATAK_HOST cfg) (ATAK_PORT cfg)].
Proof.
  destruct (onReceive_cases cfg packet w)
    as [H|[(e0 & He & H)|(cs & u & la & lo & b & H)]]; rewrite H; clear H.
  - left. reflexivity.
  - left. reflexivity.
  - destruct (can_socket w) eqn:Hs; [destruct (can_send w) eqn:Hd|].
    + rewrite transmit_sends by assumption. right.
      exists cs, u, la, lo, b. world_simpl. split; reflexivity.
    + rewrite transmit_send_fails by assumption. left. apply built_sent.
    + rewrite transmit_no_socket by assumption. left. apply built_sent.
Qed.




(* ------------------------------------------------------------------- *)
(** *** What the document says *)

(** The battery argument of [makeCoT] for an integer battery level: the
    level in decimal, unless the level is 0. *)
Lemma battery_arg_int (n : Z) :
  battery_arg (PyInt n) = Ok (if n =? 0 then None else Some (fmt_d_int n)).
Proof. unfold battery_arg. simpl. destruct (n =? 0); reflexivity. Qed.

(** The status elements of the tree: one when [batt] is a non-empty
    string, none otherwise. *)
Lemma cot_status cfg callsign uuid lat lon alt batt t1 t2 t3 :
  findpath (cot cfg callsign uuid lat lon alt batt t1 t2 t3)
           ["detail"; "status"] =
  match batt with
  | Some s =>
      if String.eqb s "" then []
      else [Element "status" [("battery", s)] None []]
  | None => []
  end.
Proof.
  unfold cot. destruct batt as [s|]; [destruct (String.eqb s "")|]; reflexivity.
Qed.

(** The tree sent for a well-typed qualifying packet when the transport
    works. *)
Lemma onReceive_typed_sends
    cfg (m d p : gmap string pyval) (z : Z) (x y : spec_float)
    (b : option string) (w : world) :
  m !! "decoded" = Some (PyDict d) ->
  d !! "position" = Some (PyDict p) ->
  m !! "from" = Some (PyInt z) ->
  p !! "latitude" = Some (PyFloat x) ->
  p !! "longitude" = Some (PyFloat y) ->
  battery_arg (default (PyBool false) (p !! "batteryLevel")) = Ok b ->
  can_socket w = true -> can_send w = true ->
  fst (onReceive cfg (PyDict m) w) = Ok tt /\
  sent (snd (onReceive cfg (PyDict m) w)) =
  sent w ++
  [mk_datagram (fresh (socks w))
     (XML_DECL +:+ tostring
        (tree_in cfg ("mesh-" +:+ fmt_08x_int z)
           (UUID_ROOT +:+ "-00" +:+ fmt_08x_int z)
           (fmt_f_float x) (fmt_f_float y) b w))
     (ATAK_HOST cfg) (ATAK_PORT cfg)].
Proof.
  intros Hd Hp Hf Hx Hy Hb Hs Hn.
  rewrite (onReceive_typed cfg m d p z x y b w Hd Hp Hf Hx Hy Hb).
  rewrite transmit_sends by assumption. split; reflexivity.
Qed.

(** A battery level that is a non-zero integer is reported, in decimal;
    an absent battery level is not. *)
Lemma battery_status_reported
    cfg (m d p : gmap string pyval) (z : Z) (x y : spec_float) (w : world) :
  m !! "decoded" = Some (PyDict d) ->
  d !! "position" = Some (PyDict p) ->
  m !! "from" = Some (PyInt z) ->
  p !! "latitude" = Some (PyFloat x) ->
  p !! "longitude" = Some (PyFloat y) ->
  can_socket w = true -> can_send w = true ->
  (p !! "batteryLevel" = None \/
   exists n, p !! "batteryLevel" = Some (PyInt n) /\ n <> 0) ->
  exists tree fd,
    sent (snd (onReceive cfg (PyDict m) w)) =
    sent w ++ [mk_datagram fd (XML_DECL +:+ tostring tree)
                           (ATAK_HOST cfg) (ATAK_PORT cfg)] /\
    findpath tree ["detail"; "status"] =
    match p !! "batteryLevel" with
    | Some (PyInt n) => [Element "status" [("battery", fmt_d_int n)] None []]
    | _ => []
    end.
Proof.
  intros Hd Hp Hf Hx Hy Hs Hn Hb.
  destruct Hb as [Hb|(n & Hb & Hnz)].
  - assert (Hba : battery_arg (default (PyBool false) (p !! "batteryLevel"))
                  = Ok None) by (rewrite Hb; reflexivity).
    destruct (onReceive_typed_sends cfg m d p z x y _ w Hd Hp Hf Hx Hy Hba Hs Hn)
      as (_ & ->).
    eexists. eexists. split; [reflexivity|].
    unfold tree_in. rewrite cot_status, Hb. reflexivity.
  - assert (Hba : battery_arg (default (PyBool false) (p !! "batteryLevel"))
                  = Ok (Some (fmt_d_int n))).
    { rewrite Hb. simpl. rewrite battery_arg_int.
      destruct (Z.eqb_spec n 0); [contradiction | reflexivity]. }
    destruct (onReceive_typed_sends cfg m d p z x y _ w Hd Hp Hf Hx Hy Hba Hs Hn)
      as (_ & ->).
    eexists. eexists. split; [reflexivity|].
    unfold tree_in. rewrite cot_status, Hb, fmt_d_int_nonempty. reflexivity.
Qed.

(** C2 fails on the code at a battery level of 0: the field is present
    on the position, the packet qualifies and the document is sent, but it
    has no battery-status element, because the handler tests the truth
    value of the level and 0 is false. *)
Theorem C2_battery_level_zero_not_reported
    cfg (m d p : gmap string pyval) (z : Z) (x y : spec_float) (w : world) :
  m !! "decoded" = Some (PyDict d) ->
  d !! "position" = Some (PyDict p) ->
  m !! "from" = Some (PyInt z) ->
  p !! "latitude" = Some (PyFloat x) ->
  p !! "longitude" = Some (PyFloat y) ->
  p !! "batteryLevel" = Some (PyInt 0) ->
  can_socket w = true -> can_send w = true ->
  exists tree fd,
    sent (snd (onReceive cfg (PyDict m) w)) =
    sent w ++ [mk_datagram fd (XML_DECL +:+ tostring tree)
                           (ATAK_HOST cfg) (ATAK_PORT cfg)] /\
    findpath tree ["detail"; "status"] = [].
Proof.
  intros Hd Hp Hf Hx Hy Hb Hs Hn.
  assert (Hba : battery_arg (default (PyBool false) (p !! "batteryLevel"))
                = Ok None) by (rewrite Hb; reflexivity).
  destruct (onReceive_typed_sends cfg m d p z x y _ w Hd Hp Hf Hx Hy Hba Hs Hn)
    as (_ & ->).
  eexists. eexists. split; [reflexivity|].
  unfold tree_in. apply cot_status.
Qed.

Lemma C2_battery_level_zero_witness :
  exists tree fd,
    sent (snd (onReceive default_config (PyDict (m_of (p5_batt 0))) w_up)) =
    [mk_datagram fd (XML_DECL +:+ tostring tree) "239.2.3.1" 6969] /\
    findpath tree ["detail"; "status"] = [].
Proof.
  apply (C2_battery_level_zero_not_reported default_config
           (m_of (p5_batt 0)) (d_of (p5_batt 0)) (p5_batt 0)
           439041101 lat5 lon5 w_up); reflexivity.
Defined.

(** C7: on a qualifying packet, whatever the position holds under
    [altitude] (nothing, or any value), the handler runs as without it, and
    the point of the document that is sent carries the fixed sentinel
    ["9999999.0"] as [hae], [ce] and [le]. *)
Theorem C7_altitude_ignored_hae_sentinel
    cfg (m d p : gmap string pyval) (z : Z) (x y : spec_float)
    (b : option string) (w : world) :
  m !! "decoded" = Some (PyDict d) ->
  d !! "position" = Some (PyDict p) ->
  m !! "from" = Some (PyInt z) ->
  p !! "latitude" = Some (PyFloat x) ->
  p !! "longitude" = Some (PyFloat y) ->
  battery_arg (default (PyBool false) (p !! "batteryLevel")) = Ok b ->
  can_socket w = true -> can_send w = true ->
  (forall a : pyval,
      onReceive cfg
        (PyDict (<["decoded" :=
                   PyDict (<["position" := PyDict (<["altitude" := a]> p)]> d)]> m))
        w
      = onReceive cfg (PyDict m) w) /\
  exists tree point,
    sent (snd (onReceive cfg (PyDict m) w)) =
    sent w ++ [mk_datagram (fresh (socks w)) (XML_DECL +:+ tostring tree)
                           (ATAK_HOST cfg) (ATAK_PORT cfg)] /\
    findall tree "point" = [point] /\
    get point "hae" = Some "9999999.0" /\
    get point "ce" = Some "9999999.0" /\
    get point "le" = Some "9999999.0".
Proof.
  intros Hd Hp Hf Hx Hy Hb Hs Hn. split.
  - intros a.
    rewrite (onReceive_typed cfg m d p z x y b w Hd Hp Hf Hx Hy Hb).
    apply (onReceive_typed cfg _
             (<["position" := PyDict (<["altitude" := a]> p)]> d)
             (<["altitude" := a]> p)).
    + apply lookup_insert_eq.
    + apply lookup_insert_eq.
    + rewrite lookup_insert_ne by discriminate. exact Hf.
    + rewrite lookup_insert_ne by discriminate. exact Hx.
    + rewrite lookup_insert_ne by discriminate. exact Hy.
    + rewrite lookup_insert_ne by discriminate. exact Hb.
  - destruct (onReceive_typed_sends cfg m d p z x y b w Hd Hp Hf Hx Hy Hb Hs Hn)
      as (_ & ->).
    eexists. eexists. split; [reflexivity|].
    repeat split; reflexivity.
Qed.

Lemma C7_altitude_ignored_witness :
  onReceive default_config
    (PyDict (<["decoded" :=
               PyDict (<["position" := PyDict (<["altitude" := PyFloat lat5]> p5)]>
                         (d_of p5))]> (m_of p5))) w_up
  = onReceive default_config packet5 w_up.
Proof.
  apply (C7_altitude_ignored_hae_sentinel default_config
           (m_of p5) (d_of p5) p5 439041101 lat5 lon5 None w_up);
    reflexivity.
Defined.

(** The coordinates of the sample packet are the doubles nearest to
    45.123456 and to -93.654321: normalised 53-bit mantissas, within half a
    unit in the last place of the decimal values. *)
Lemma sample_coordinates_nearest :
  lat5 = S754_finite false 6350561863352155 (-47) /\
  lon5 = S754_finite true 6590336955581825 (-46) /\
  2 ^ 52 <= 6350561863352155 < 2 ^ 53 /\
  2 ^ 52 <= 6590336955581825 < 2 ^ 53 /\
  2 * Z.abs (6350561863352155 * 10 ^ 6 - 45123456 * 2 ^ 47) <= 10 ^ 6 /\
  2 * Z.abs (6590336955581825 * 10 ^ 6 - 93654321 * 2 ^ 46) <= 10 ^ 6.
Proof. repeat split; vm_compute; discriminate. Qed.



(* ------------------------------------------------------------------- *)
(** *** Timestamps *)









(* ------------------------------------------------------------------- *)
(** *** The document as bytes, and as a reader sees it *)

Lemma result_bind_ok_inv {A B} (r : result A) (k : A -> result B) (b : B) :
  (r ≫= k) = Ok b -> exists a, r = Ok a /\ k a = Ok b.
Proof. destruct r as [a|e]; simpl; intros H; [eauto | discriminate]. Qed.

(** The arguments that [onReceive] passes to [makeCoT] are made of XML
    characters. *)
Lemma callsign_of_safe v s : callsign_of v = Ok s -> xml_safe s = true.
Proof.
  unfold callsign_of.
  intros (a & _ & (h & Hh & [= <-])%result_bind_ok_inv)%result_bind_ok_inv.
  exact (fmt_08x_safe a h Hh).
Qed.

Lemma uuid_of_safe v s : uuid_of v = Ok s -> xml_safe s = true.
Proof.
  unfold uuid_of.
  intros (a & _ & (h & Hh & [= <-])%result_bind_ok_inv)%result_bind_ok_inv.
  exact (fmt_08x_safe a h Hh).
Qed.

Lemma coordinate_safe v k s :
  (x ← getitem v k; fmt_f x) = Ok s -> xml_safe s = true.
Proof.
  intros (a & _ & H)%result_bind_ok_inv. exact (fmt_f_safe a s H).
Qed.

Lemma battery_arg_safe v b :
  battery_arg v = Ok b ->
  match b with Some s => xml_safe s | None => true end = true.
Proof.
  unfold battery_arg. destruct (truthy v); [|intros [= <-]; reflexivity].
  intros (s & Hs & [= <-])%result_bind_ok_inv. exact (fmt_d_safe v s Hs).
Qed.

(** C8 (as the code has it): what [makeCoT] returns is always the XML
    declaration followed by the serialised tree.  When the configured
    type, team and role hold only characters that XML allows (tab, line
    feed, carriage return, and the characters from the space on), and so
    do the strings [makeCoT] is given, the document reads back as that
    tree: the root is the one [event] element with the attributes
    [version], [uid], [time], [start], [stale], [type], [how], and its
    children are exactly one [point] and one [detail].  The strings that
    [onReceive] gives to [makeCoT] always qualify, so that every datagram
    it sends reads back in this way. *)
Theorem C8_declaration_then_tree_reads_back cfg :
  (forall (callsign uuid lat lon alt : string) (batt : option string)
          (w : world),
      exists tree w',
        makeCoT_cot cfg callsign uuid lat lon alt batt w = (Ok tree, w') /\
        makeCoT cfg callsign uuid lat lon alt batt w =
          (Ok (XML_DECL +:+ tostring tree), w') /\
        (xml_safe (UNIT_TYPE cfg) = true ->
         xml_safe (UNIT_TEAM cfg) = true ->
         xml_safe (UNIT_ROLE cfg) = true ->
         xml_safe callsign = true -> xml_safe uuid = true ->
         xml_safe lat = true -> xml_safe lon = true ->
         xml_safe alt = true ->
         match batt with Some s => xml_safe s | None => true end = true ->
         parse_document (XML_DECL +:+ tostring tree) = Some (as_read tree) /\
         tag_of (as_read tree) = "event" /\
         map fst (attrib_of (as_read tree)) =
           ["version"; "uid"; "time"; "start"; "stale"; "type"; "how"] /\
         map tag_of (children_of (as_read tree)) = ["point"; "detail"])) /\
  (xml_safe (UNIT_TYPE cfg) = true ->
   xml_safe (UNIT_TEAM cfg) = true ->
   xml_safe (UNIT_ROLE cfg) = true ->
   forall (packet : pyval) (w : world) (dg : datagram),
     sent (snd (onReceive cfg packet w)) = sent w ++ [dg] ->
     exists root,
       parse_document (dg_payload dg) = Some root /\
       tag_of root = "event" /\
       map fst (attrib_of root) =
         ["version"; "uid"; "time"; "start"; "stale"; "type"; "how"] /\
       map tag_of (children_of root) = ["point"; "detail"]).
Proof.
  split.
  - intros callsign uuid lat lon alt batt w.
    rewrite makeCoT_cot_run, makeCoT_run.
    eexists. eexists. split; [reflexivity|]. split; [reflexivity|].
    intros Hty Hte Hro Hc Hu Hla Hlo Ha Hb.
    split; [|repeat split; reflexivity].
    apply cot_reads_back; try assumption; apply stamp_safe.
  - intros Hty Hte Hro packet w dg.
    assert (Hno : sent w <> sent w ++ [dg]).
    { intros E. apply (f_equal length) in E.
      rewrite length_app in E. simpl in E. lia. }
    destruct (onReceive_arguments cfg packet w)
      as [H|[(e & _ & H)|(cs & u & la & lo & b & pos & bv
                           & Hcs & Hu & Hla & Hlo & Hb & H)]];
      rewrite H; clear H; try (intros E; now elim Hno).
    destruct (can_socket w) eqn:Hs; [destruct (can_send w) eqn:Hd|].
    + rewrite transmit_sends by assumption. world_simpl.
      intros [= <-]%app_inv_head. cbn [dg_payload].
      unfold document_in, tree_in. eexists. split.
      * apply cot_reads_back; try assumption;
          eauto using callsign_of_safe, uuid_of_safe, coordinate_safe,
                      battery_arg_safe, stamp_safe.
      * repeat split; reflexivity.
    + rewrite transmit_send_fails by assumption.
      intros E. elim Hno. rewrite <- E. symmetry. apply built_sent.
    + rewrite transmit_no_socket by assumption.
      intros E. elim Hno. rewrite <- E. symmetry. apply built_sent.
Qed.

(** C8, as stated, fails: with a team name that is the control character
    of code 1, the handler sends a document that no reader accepts. *)
Lemma C8_counterexample_control_character :
  exists dg,
    sent (snd (onReceive control_config packet5 w_up)) = [dg] /\
    parse_document (dg_payload dg) = None.
Proof. eexists. split; [reflexivity | vm_compute; reflexivity]. Qed.

Lemma C8_declaration_then_tree_witness :
  exists root,
    parse_document
      (dg_payload (mk_datagram 0
         (document_in default_config "mesh-1a2b3c4d"
            "7ea452c5-a1ec-571c-a7ac-001a2b3c4d" "45.123456" "-93.654321"
            None w_up) "239.2.3.1" 6969)) = Some root /\
    tag_of root = "event".
Proof.
  destruct (proj2 (C8_declaration_then_tree_reads_back default_config)
              eq_refl eq_refl eq_refl packet5 w_up
              (mk_datagram 0
                 (document_in default_config "mesh-1a2b3c4d"
                    "7ea452c5-a1ec-571c-a7ac-001a2b3c4d" "45.123456"
                    "-93.654321" None w_up) "239.2.3.1" 6969))
    as (root & H1 & H2 & _).
  - reflexivity.
  - exists root. split; [exact H1 | exact H2].
Defined.

(* ------------------------------------------------------------------- *)
(** *** The settings *)

(** X1: the settings depend on the environment through the six variables
    [ATAK_HOST], [ATAK_PORT], [DEBUG], [UNIT_TYPE], [UNIT_TEAM] and
    [UNIT_ROLE] alone; when none of them is set, whatever else is, the
    import succeeds with the defaults: the multicast group 239.2.3.1, port
    6969, no debug output, type [a-f-G-U-C], team [Green], role
    [Team Member]. *)
Theorem X1_settings_from_six_variables (env env' : gmap string string) :
  (forall k,
      In k ["ATAK_HOST"; "ATAK_PORT"; "DEBUG";
            "UNIT_TYPE"; "UNIT_TEAM"; "UNIT_ROLE"] ->
      env !! k = env' !! k) ->
  load_config env = load_config env' /\
  (env' = ∅ -> load_config env = Ok default_config).
Proof.
  intros H.
  assert (E : load_config env = load_config env').
  { unfold load_config, getenv.
    rewrite (H "ATAK_HOST"), (H "ATAK_PORT"), (H "DEBUG"), (H "UNIT_TYPE"),
      (H "UNIT_TEAM"), (H "UNIT_ROLE") by (simpl; tauto).
    reflexivity. }
  split; [exact E|]. intros ->. rewrite E. reflexivity.
Qed.

Lemma X1_settings_default_witness : load_config env_other = Ok default_config.
Proof.
  apply (X1_settings_from_six_variables env_other ∅); [|reflexivity].
  intros k [<-|[<-|[<-|[<-|[<-|[<-|[]]]]]]]; reflexivity.
Defined.

(** X2: a port and a debug level given in decimal, with a minus sign or
    without, and with blanks around them, are read back as the numbers
    they denote (within the 4300 digits that [int] accepts); the other
    four settings are taken as they are. *)
Theorem X2_numeric_settings_read_back
    (env : gmap string string) (port debug : Z) (a b c d : string) :
  Z.abs port < 10 ^ 4300 -> Z.abs debug < 10 ^ 4300 ->
  string_forall is_c_space a = true -> string_forall is_c_space b = true ->
  string_forall is_c_space c = true -> string_forall is_c_space d = true ->
  getenv env "ATAK_PORT" "6969" = a +:+ fmt_d_int port +:+ b ->
  getenv env "DEBUG" "0" = c +:+ fmt_d_int debug +:+ d ->
  load_config env =
  Ok {| ATAK_HOST := getenv env "ATAK_HOST" "239.2.3.1";
        ATAK_PORT := port; DEBUG_LEVEL := debug;
        UNIT_TYPE := getenv env "UNIT_TYPE" "a-f-G-U-C";
        UNIT_TEAM := getenv env "UNIT_TEAM" "Green";
        UNIT_ROLE := getenv env "UNIT_ROLE" "Team Member" |}.
Proof.
  intros Hp Hd Ha Hb Hc Hd' Ep Ed. unfold load_config.
  rewrite Ep, Ed, !int_of_str_fmt_d by assumption. reflexivity.
Qed.

Lemma X2_numeric_settings_witness :
  load_config env_port =
  Ok {| ATAK_HOST := "239.2.3.1"; ATAK_PORT := 4242; DEBUG_LEVEL := 1;
        UNIT_TYPE := "a-f-G-U-C"; UNIT_TEAM := "Green";
        UNIT_ROLE := "Team Member" |}.
Proof.
  apply (X2_numeric_settings_read_back env_port 4242 1 " " " " "" "");
    reflexivity.
Defined.

(** X3: the port and the debug level are not checked before they are
    converted: when [ATAK_PORT] or [DEBUG] is set to a string that has no
    decimal digit (the empty string, for one) or that has a character
    other than digits, blanks, signs and underscores ([true], [0x1b],
    [69.69]), the import fails with a ValueError. *)
Theorem X3_non_numeric_setting_fails
    (env : gmap string string) (name s : string) :
  name = "ATAK_PORT" \/ name = "DEBUG" ->
  env !! name = Some s ->
  string_forall int_char s = false \/
  string_forall (fun c => negb (is_dec_digit c)) s = true ->
  load_config env = Raise ValueError.
Proof.
  intros Hname Hs Hbad.
  assert (E : int_of_str s = Raise ValueError).
  { destruct (int_of_str s) as [z|e] eqn:E.
    - destruct (int_of_str_ok_inv s z E) as [H1 H2].
      destruct Hbad; congruence.
    - now rewrite (int_of_str_raises s e E). }
  unfold load_config.
  destruct Hname as [-> | ->].
  - replace (getenv env "ATAK_PORT" "6969") with s
      by (unfold getenv; now rewrite Hs).
    rewrite E. reflexivity.
  - replace (getenv env "DEBUG" "0") with s
      by (unfold getenv; now rewrite Hs).
    rewrite E.
    destruct (int_of_str (getenv env "ATAK_PORT" "6969")) as [z|e] eqn:E';
      [reflexivity|].
    now rewrite (int_of_str_raises _ e E').
Qed.

Lemma X3_non_numeric_setting_witness :
  load_config env_debug_true = Raise ValueError.
Proof.
  apply (X3_non_numeric_setting_fails env_debug_true "DEBUG" "true");
    [right; reflexivity | reflexivity | left; reflexivity].
Defined.

(* ------------------------------------------------------------------- *)
(** *** What the handler reads, and what it leaves alone *)

(** X4: of a packet with a position, the handler reads the source id and
    the latitude, the longitude and the battery level of the position, and
    nothing else: two such packets that agree on these four run the same,
    in any world, whether they fail, are skipped or are sent. *)
Theorem X4_handler_reads_four_fields
    cfg (m m' d d' p p' : gmap string pyval) (w : world) :
  m !! "decoded" = Some (PyDict d) -> m' !! "decoded" = Some (PyDict d') ->
  d !! "position" = Some (PyDict p) -> d' !! "position" = Some (PyDict p') ->
  m !! "from" = m' !! "from" ->
  (forall k, In k ["latitude"; "longitude"; "batteryLevel"] ->
             p !! k = p' !! k) ->
  onReceive cfg (PyDict m) w = onReceive cfg (PyDict m') w.
Proof.
  intros Hd Hd' Hp Hp' Hf Hk.
  assert (Ecs : callsign_of (PyDict m) = callsign_of (PyDict m'))
    by (unfold callsign_of, getitem; now rewrite Hf).
  assert (Euu : uuid_of (PyDict m) = uuid_of (PyDict m'))
    by (unfold uuid_of, getitem; now rewrite Hf).
  assert (Eks : keys_superset (PyDict p) ["latitude"; "longitude"] =
                keys_superset (PyDict p') ["latitude"; "longitude"]).
  { unfold keys_superset. simpl.
    now rewrite (Hk "latitude"), (Hk "longitude") by (simpl; tauto). }
  assert (Ela : getitem (PyDict p) "latitude" = getitem (PyDict p') "latitude")
    by (unfold getitem; now rewrite (Hk "latitude") by (simpl; tauto)).
  assert (Elo : getitem (PyDict p) "longitude" = getitem (PyDict p') "longitude")
    by (unfold getitem; now rewrite (Hk "longitude") by (simpl; tauto)).
  unfold onReceive.
  rewrite (getitem_decoded m d Hd), (getitem_decoded m' d' Hd'), !bind_lift_ok.
  cbv beta.
  rewrite (contains_position d p Hp), (contains_position d' p' Hp'),
    !bind_lift_ok.
  cbv beta iota.
  rewrite (battery_of_packet m d p Hd Hp), (battery_of_packet m' d' p' Hd' Hp'),
    (position_of_packet m d p Hd Hp), (position_of_packet m' d' p' Hd' Hp'),
    !bind_lift_ok, !result_bind_ok.
  cbv beta.
  rewrite Ecs, Euu, Eks, Ela, Elo, (Hk "batteryLevel") by (simpl; tauto).
  reflexivity.
Qed.

Lemma X4_handler_reads_four_fields_witness :
  onReceive default_config (PyDict m5_more) w_up =
  onReceive default_config packet5 w_up.
Proof.
  apply (X4_handler_reads_four_fields default_config m5_more (m_of p5)
           (<["position" := PyDict p5_more]> ∅) (d_of p5) p5_more p5 w_up);
    try reflexivity.
  intros k [<-|[<-|[<-|[]]]]; reflexivity.
Defined.

(** The world once the document is built and logged: the environment,
    the clock, the sockets and the datagrams are as before. *)
Lemma built_frame cfg callsign uuid lat lon b (w : world) :
  let w' := built_in cfg callsign uuid lat lon b w in
  clock w' = clock w /\ can_socket w' = can_socket w /\
  can_send w' = can_send w /\ socks w' = socks w /\ sent w' = sent w /\
  ticks w' = S (S (S (ticks w))) /\
  log w' = if DEBUG_LEVEL cfg =? 0 then log w
           else log w ++ ["CoT: " +:+ document_in cfg callsign uuid lat lon b w].
Proof.
  unfold built_in, logging_debug.
  destruct (DEBUG_LEVEL cfg =? 0); repeat split; reflexivity.
Qed.

(** The ways a call can end, with the world it leaves. *)
Lemma onReceive_outcomes cfg (packet : pyval) (w : world) :
  onReceive cfg packet w = (Ok tt, w) \/
  (exists e, extraction_error e /\ onReceive cfg packet w = (Raise e, w)) \/
  (exists callsign uuid lat lon b,
      let doc := document_in cfg callsign uuid lat lon b w in
      let w1 := built_in cfg callsign uuid lat lon b w in
      (can_socket w = true /\ can_send w = true /\
       onReceive cfg packet w =
       (Ok tt, with_sent (sent w ++ [mk_datagram (fresh (socks w)) doc
                                       (ATAK_HOST cfg) (ATAK_PORT cfg)]) w1)) \/
      (can_socket w = true /\ can_send w = false /\
       onReceive cfg packet w =
       (Raise OSError, with_socks ({[fresh (socks w)]} ∪ socks w) w1)) \/
      (can_socket w = false /\
       onReceive cfg packet w = (Raise OSError, w1))).
Proof.
  destruct (onReceive_cases cfg packet w)
    as [H|[H|(cs & u & la & lo & b & H)]]; [auto | auto |].
  right; right. exists cs, u, la, lo, b. cbv zeta. rewrite H.
  destruct (can_socket w) eqn:Hs; [destruct (can_send w) eqn:Hd|].
  - left. now rewrite transmit_sends.
  - right; left. now rewrite transmit_send_fails.
  - right; right. now rewrite transmit_no_socket.
Qed.

(** X5: whatever the packet, a call of the handler leaves the datagrams
    sent before and the lines logged before in place and adds at most one
    of each; a datagram it adds goes to the configured host and port, from
    a descriptor that was not in use, and then the call returns normally.
    It queries the clock three times or not at all.  It closes no socket
    that was open before, and the only socket it can leave open is the one
    it opened, when the call ends in an OSError; after a call that returns
    normally the open sockets are those of before. *)
Theorem X5_handler_frame cfg (packet : pyval) (w : world) :
  let r := fst (onReceive cfg packet w) in
  let w' := snd (onReceive cfg packet w) in
  let fd := fresh (socks w) in
  clock w' = clock w /\ can_socket w' = can_socket w /\
  can_send w' = can_send w /\
  (ticks w' = ticks w \/ ticks w' = (ticks w + 3)%nat) /\
  (sent w' = sent w \/
   exists payload,
     sent w' = sent w ++ [mk_datagram fd payload (ATAK_HOST cfg) (ATAK_PORT cfg)]
     /\ (fd ∉ socks w) /\ r = Ok tt) /\
  (log w' = log w \/ exists line, log w' = log w ++ [line]) /\
  (socks w' = socks w \/
   (r = Raise OSError /\ socks w' = ({[fd]} ∪ socks w))) /\
  (r = Ok tt -> socks w' = socks w).
Proof.
  cbv zeta.
  destruct (onReceive_outcomes cfg packet w)
    as [H|[(e & _ & H)|(cs & u & la & lo & b & H)]].
  - rewrite H. simpl. split_and!; auto.
  - rewrite H. simpl. split_and!; auto.
  - cbv zeta in H.
    destruct (built_frame cfg cs u la lo b w)
      as (Hc & Hcs & Hcd & Hso & Hse & Ht & Hl).
    assert (Hlog : log (built_in cfg cs u la lo b w) = log w \/
                   exists line,
                     log (built_in cfg cs u la lo b w) = log w ++ [line]).
    { rewrite Hl. destruct (DEBUG_LEVEL cfg =? 0); eauto. }
    destruct H as [(_ & _ & H)|[(_ & _ & H)|(_ & H)]]; rewrite H; world_simpl.
    + split_and!; auto; try (right; lia).
      right. eexists. split; [reflexivity|].
      split; [apply is_fresh | reflexivity].
    + split_and!; auto; try (right; lia); discriminate.
    + split_and!; auto; try (right; lia); discriminate.
Qed.

(** X6: the debug line is the document itself.  With the debug level 0
    no call logs anything.  With another debug level, a call that builds a
    document logs the one line [CoT: ] followed by that document, before
    it opens the socket, so also when the socket cannot be opened or the
    send fails; and when a datagram goes out, the line logged holds its
    payload. *)
Theorem X6_debug_line_is_the_document
    cfg (m d p : gmap string pyval) (z : Z) (x y : spec_float)
    (b : option string) (w : world) :
  m !! "decoded" = Some (PyDict d) ->
  d !! "position" = Some (PyDict p) ->
  m !! "from" = Some (PyInt z) ->
  p !! "latitude" = Some (PyFloat x) ->
  p !! "longitude" = Some (PyFloat y) ->
  battery_arg (default (PyBool false) (p !! "batteryLevel")) = Ok b ->
  let doc :=
    document_in cfg ("mesh-" +:+ fmt_08x_int z)
      (UUID_ROOT +:+ "-00" +:+ fmt_08x_int z)
      (fmt_f_float x) (fmt_f_float y) b w in
  log (snd (onReceive cfg (PyDict m) w)) =
    (if DEBUG_LEVEL cfg =? 0 then log w else log w ++ ["CoT: " +:+ doc]) /\
  (forall packet' : pyval,
      DEBUG_LEVEL cfg = 0 -> log (snd (onReceive cfg packet' w)) = log w) /\
  (forall (packet' : pyval) (dg : datagram),
      DEBUG_LEVEL cfg <> 0 ->
      sent (snd (onReceive cfg packet' w)) = sent w ++ [dg] ->
      log (snd (onReceive cfg packet' w)) =
      log w ++ ["CoT: " +:+ dg_payload dg]).
Proof.
  intros Hd Hp Hf Hx Hy Hb doc. subst doc. split; [|split].
  - rewrite (onReceive_typed cfg m d p z x y b w Hd Hp Hf Hx Hy Hb).
    destruct (built_frame cfg ("mesh-" +:+ fmt_08x_int z)
                (UUID_ROOT +:+ "-00" +:+ fmt_08x_int z)
                (fmt_f_float x) (fmt_f_float y) b w)
      as (_ & _ & _ & _ & _ & _ & Hl).
    destruct (can_socket w) eqn:Hs; [destruct (can_send w) eqn:Hn|].
    + rewrite transmit_sends by assumption. exact Hl.
    + rewrite transmit_send_fails by assumption. exact Hl.
    + rewrite transmit_no_socket by assumption. exact Hl.
  - intros packet' Hz.
    destruct (onReceive_outcomes cfg packet' w)
      as [H|[(e & _ & H)|(cs & u & la & lo & b' & H)]];
      [now rewrite H | now rewrite H |].
    cbv zeta in H.
    destruct (built_frame cfg cs u la lo b' w)
      as (_ & _ & _ & _ & _ & _ & Hl).
    rewrite Hz in Hl.
    destruct H as [(_ & _ & H)|[(_ & _ & H)|(_ & H)]]; rewrite H; exact Hl.
  - intros packet' dg Hz.
    assert (Hno : sent w <> sent w ++ [dg]).
    { intros E. apply (f_equal length) in E.
      rewrite length_app in E. simpl in E. lia. }
    destruct (onReceive_outcomes cfg packet' w)
      as [H|[(e & _ & H)|(cs & u & la & lo & b' & H)]];
      [rewrite H; intros E; now elim Hno
      |rewrite H; intros E; now elim Hno |].
    cbv zeta in H.
    destruct (built_frame cfg cs u la lo b' w)
      as (_ & _ & _ & _ & Hse & _ & Hl).
    apply Z.eqb_neq in Hz. rewrite Hz in Hl.
    destruct H as [(_ & _ & H)|[(_ & _ & H)|(_ & H)]]; rewrite H; world_simpl.
    + intros [= <-]%app_inv_head. exact Hl.
    + rewrite Hse. intros E. now elim Hno.
    + rewrite Hse. intros E. now elim Hno.
Qed.

Lemma X6_debug_line_witness :
  exists doc,
    log (snd (onReceive debug_config packet5 w_up)) = ["CoT: " +:+ doc] /\
    sent (snd (onReceive debug_config packet5 w_up)) =
    [mk_datagram 0 doc "239.2.3.1" 6969].
Proof.
  destruct (X6_debug_line_is_the_document debug_config (m_of p5) (d_of p5)
              p5 439041101 lat5 lon5 None w_up) as (H & _ & _);
    try reflexivity.
  eexists. split; [exact H | reflexivity].
Defined.

(* ------------------------------------------------------------------- *)
(** *** What the document says of the battery and of the coordinates *)

(** X7: the battery status follows the truth value of the level, not its
    presence.  On a packet with a position, a latitude and a longitude,
    when the transport works: a level that is false (absent, [0], [0.0],
    [False], [None], an empty string) gives a document without a status
    element; a level that is true and that ['%d'] can format gives one
    status element with the formatted level; a level that is true and that
    ['%d'] refuses (a string, [nan], an infinity) makes the call raise
    before anything is built, logged or sent. *)
Theorem X7_battery_status_follows_truth_value
    cfg (m d p : gmap string pyval) (z : Z) (x y : spec_float) (v : pyval)
    (w : world) :
  m !! "decoded" = Some (PyDict d) ->
  d !! "position" = Some (PyDict p) ->
  m !! "from" = Some (PyInt z) ->
  p !! "latitude" = Some (PyFloat x) ->
  p !! "longitude" = Some (PyFloat y) ->
  v = default (PyBool false) (p !! "batteryLevel") ->
  can_socket w = true -> can_send w = true ->
  let sends (status : list element) :=
    exists tree,
      sent (snd (onReceive cfg (PyDict m) w)) =
      sent w ++ [mk_datagram (fresh (socks w)) (XML_DECL +:+ tostring tree)
                             (ATAK_HOST cfg) (ATAK_PORT cfg)] /\
      findpath tree ["detail"; "status"] = status in
  (truthy v = false -> sends []) /\
  (forall s, truthy v = true -> fmt_d v = Ok s ->
             sends [Element "status" [("battery", s)] None []]) /\
  (forall e, truthy v = true -> fmt_d v = Raise e ->
             onReceive cfg (PyDict m) w = (Raise e, w)).
Proof.
  intros Hd Hp Hf Hx Hy Hv Hs Hn sends. subst sends. cbv beta.
  assert (Hsend : forall b,
            battery_arg v = Ok b ->
            exists tree,
              sent (snd (onReceive cfg (PyDict m) w)) =
              sent w ++ [mk_datagram (fresh (socks w))
                           (XML_DECL +:+ tostring tree)
                           (ATAK_HOST cfg) (ATAK_PORT cfg)] /\
              findpath tree ["detail"; "status"] =
              match b with
              | Some s => if String.eqb s "" then []
                          else [Element "status" [("battery", s)] None []]
              | None => []
              end).
  { intros b Hb. rewrite Hv in Hb.
    destruct (onReceive_typed_sends cfg m d p z x y b w Hd Hp Hf Hx Hy Hb Hs Hn)
      as (_ & ->).
    eexists. split; [reflexivity|].
    unfold tree_in. apply cot_status. }
  unfold battery_arg in Hsend. split; [|split].
  - intros Ht. rewrite Ht in Hsend. exact (Hsend None eq_refl).
  - intros s Ht Ef. rewrite Ht, Ef in Hsend.
    destruct (Hsend (Some s) eq_refl) as (tree & H1 & H2).
    exists tree. split; [exact H1|].
    now rewrite H2, (fmt_d_nonempty v s Ef).
  - intros e Ht Ef.
    assert (Hb : battery_of (PyDict m) = Ok v)
      by (rewrite Hv; apply (battery_of_packet m d p Hd Hp)).
    assert (Hcs : callsign_of (PyDict m) = Ok ("mesh-" +:+ fmt_08x_int z))
      by (unfold callsign_of, getitem; rewrite Hf; reflexivity).
    assert (Huu : uuid_of (PyDict m) =
                  Ok (UUID_ROOT +:+ "-00" +:+ fmt_08x_int z))
      by (unfold uuid_of, getitem; rewrite Hf; reflexivity).
    assert (Hla : (c ← getitem (PyDict p) "latitude"; fmt_f c) =
                  Ok (fmt_f_float x))
      by (unfold getitem; rewrite Hx; reflexivity).
    assert (Hlo : (c ← getitem (PyDict p) "longitude"; fmt_f c) =
                  Ok (fmt_f_float y))
      by (unfold getitem; rewrite Hy; reflexivity).
    unfold onReceive.
    run_lift (getitem_decoded m d Hd). run_lift (contains_position d p Hp).
    run_lift Hb. run_lift (position_of_packet m d p Hd Hp).
    run_lift (keys_superset_position p (ex_intro _ _ Hx) (ex_intro _ _ Hy)).
    run_lift Hcs. run_lift Huu. rewrite !result_bind_ok.
    run_lift Hla. run_lift Hlo.
    unfold battery_arg. rewrite Ht, Ef. reflexivity.
Qed.

Lemma X7_battery_status_witness :
  exists tree,
    sent (snd (onReceive default_config (PyDict (m_of (p5_batt 87))) w_up))
      = [mk_datagram 0 (XML_DECL +:+ tostring tree) "239.2.3.1" 6969] /\
    findpath tree ["detail"; "status"] =
      [Element "status" [("battery", "87")] None []].
Proof.
  apply (X7_battery_status_follows_truth_value default_config
           (m_of (p5_batt 87)) (d_of (p5_batt 87)) (p5_batt 87)
           439041101 lat5 lon5 (PyInt 87) w_up); reflexivity.
Defined.

(** X8: the coordinates are written as they come, to the millionth of a
    degree.  The [lat] and [lon] of the point are the ['%f'] renderings of
    the packet's latitude and longitude; for a finite value this is the
    sign, the whole part, a point and exactly six digits, the decimal
    numeral nearest to the value (the even one in a tie), so that it is
    off by at most half a millionth.  No range is checked: a zero keeps
    its sign, and an infinity or a [nan] is written [inf], [-inf] or
    [nan]. *)
Theorem X8_coordinates_to_the_millionth
    cfg (m d p : gmap string pyval) (z : Z) (x y : spec_float)
    (b : option string) (w : world) :
  m !! "decoded" = Some (PyDict d) ->
  d !! "position" = Some (PyDict p) ->
  m !! "from" = Some (PyInt z) ->
  p !! "latitude" = Some (PyFloat x) ->
  p !! "longitude" = Some (PyFloat y) ->
  battery_arg (default (PyBool false) (p !! "batteryLevel")) = Ok b ->
  can_socket w = true -> can_send w = true ->
  exists tree point,
    sent (snd (onReceive cfg (PyDict m) w)) =
    sent w ++ [mk_datagram (fresh (socks w)) (XML_DECL +:+ tostring tree)
                           (ATAK_HOST cfg) (ATAK_PORT cfg)] /\
    findall tree "point" = [point] /\
    get point "lat" = Some (fmt_f_float x) /\
    get point "lon" = Some (fmt_f_float y) /\
    forall c : spec_float,
      c = x \/ c = y ->
      match c with
      | S754_finite s mant e =>
          exists (q : N) (f : string) (u : Z),
            fmt_f_float c =
              (if s then "-" else "") +:+ dec_of_N q +:+ "." +:+ f /\
            String.length f = 6%nat /\
            string_forall is_dec_digit f = true /\
            u = Z.of_N q * 1000000 + Z.of_N (radix_value 10 0 f) /\
            2 * Z.abs (u * 2 ^ Z.max 0 (- e)
                       - Z.pos mant * 1000000 * 2 ^ Z.max 0 e)
              <= 2 ^ Z.max 0 (- e) /\
            (2 * Z.abs (u * 2 ^ Z.max 0 (- e)
                        - Z.pos mant * 1000000 * 2 ^ Z.max 0 e)
               = 2 ^ Z.max 0 (- e) -> Z.even u = true)
      | S754_zero s => fmt_f_float c = (if s then "-" else "") +:+ "0.000000"
      | S754_infinity s => fmt_f_float c = (if s then "-" else "") +:+ "inf"
      | S754_nan => fmt_f_float c = "nan"
      end.
Proof.
  intros Hd Hp Hf Hx Hy Hb Hs Hn.
  destruct (onReceive_typed_sends cfg m d p z x y b w Hd Hp Hf Hx Hy Hb Hs Hn)
    as (_ & ->).
  eexists. eexists. split; [reflexivity|].
  split; [reflexivity|]. split; [reflexivity|]. split; [reflexivity|].
  intros c _. destruct c as [s|s| |s mant e].
  - reflexivity.
  - destruct s; reflexivity.
  - reflexivity.
  - apply fmt_f_float_nearest.
Qed.

Lemma X8_coordinates_witness :
  exists tree point,
    sent (snd (onReceive default_config packet5 w_up)) =
    [mk_datagram 0 (XML_DECL +:+ tostring tree) "239.2.3.1" 6969] /\
    get point "lat" = Some "45.123456" /\
    get point "lon" = Some "-93.654321".
Proof.
  destruct (X8_coordinates_to_the_millionth default_config (m_of p5) (d_of p5)
              p5 439041101 lat5 lon5 None w_up)
    as (tree & point & H1 & _ & H2 & H3 & _); try reflexivity.
  exists tree, point. split; [exact H1|]. split; [exact H2 | exact H3].
Defined.

(* ------------------------------------------------------------------- *)
(** *** Identifiers of any size *)

(** X9: the identifiers never collide and are never cut.  Two packets
    whose source ids are different integers, of any size or sign, get
    different uids and different callsigns.  For a source id that is not
    negative, the uid is the fixed root and [-00], and the callsign
    [mesh-], each followed by the same lower-case hexadecimal digits, at
    least eight of them, that denote the id in full: eight exactly when
    the id is below [2^32] (a uid of 34 characters), more above. *)
Theorem X9_identifiers_never_collide
    (m1 m2 : gmap string pyval) (z1 z2 : Z) :
  m1 !! "from" = Some (PyInt z1) -> m2 !! "from" = Some (PyInt z2) ->
  (uuid_of (PyDict m1) = uuid_of (PyDict m2) -> z1 = z2) /\
  (callsign_of (PyDict m1) = callsign_of (PyDict m2) -> z1 = z2) /\
  (0 <= z1 ->
   exists h u,
     uuid_of (PyDict m1) = Ok u /\
     u = "7ea452c5-a1ec-571c-a7ac-00" +:+ h /\
     callsign_of (PyDict m1) = Ok ("mesh-" +:+ h) /\
     string_forall is_lower_hex h = true /\
     radix_value 16 0 h = Z.to_N z1 /\
     (8 <= String.length h)%nat /\
     (String.length h = 8%nat <-> z1 < 2 ^ 32) /\
     (String.length u = 34%nat <-> z1 < 2 ^ 32)).
Proof.
  intros H1 H2. unfold uuid_of, callsign_of, getitem. rewrite H1, H2. simpl.
  split; [|split].
  - intros [= E]. now apply fmt_08x_int_inj.
  - intros [= E]. now apply fmt_08x_int_inj.
  - intros Hz. destruct (fmt_08x_int_digits z1) as (h & E & C & V & L).
    destruct (Z.ltb_spec z1 0) as [?|_]; [lia|]. simpl in E.
    assert (Hlen : String.length h = 8%nat <-> z1 < 2 ^ 32).
    { rewrite L. split.
      - intros Hl. apply Z.lt_nge. intros Hge.
        pose proof (hex_of_N_long 8 (Z.abs_N z1)) as Hlong.
        change (16 ^ N.of_nat 8)%N with 4294967296%N in Hlong. lia.
      - intros Hlt.
        pose proof (radix_of_N_length 16 ltac:(lia) ltac:(lia) 7 (Z.abs_N z1))
          as Hshort.
        change (16 ^ N.of_nat 8)%N with 4294967296%N in Hshort.
        unfold hex_of_N. lia. }
    exists h, ("7ea452c5-a1ec-571c-a7ac-00" +:+ h). rewrite E.
    split; [reflexivity|]. split; [reflexivity|]. split; [reflexivity|].
    split; [exact C|]. split; [rewrite V; lia|]. split; [lia|].
    split; [exact Hlen|].
    rewrite length_append. simpl String.length at 1. rewrite <- Hlen. lia.
Qed.

Lemma X9_identifiers_witness :
  exists h u,
    uuid_of packet5 = Ok u /\ u = "7ea452c5-a1ec-571c-a7ac-00" +:+ h /\
    String.length h = 8%nat /\ String.length u = 34%nat.
Proof.
  destruct (X9_identifiers_never_collide (m_of p5) (m_of p5)
              439041101 439041101 eq_refl eq_refl)
    as (_ & _ & H).
  destruct H as (h & u & Hu & E & _ & _ & _ & _ & H8 & H34); [lia|].
  exists h, u. split; [exact Hu|]. split; [exact E|].
  split; [apply H8 | apply H34]; reflexivity.
Defined.

(* ------------------------------------------------------------------- *)
(** *** The bytes on the wire *)

(** X10: a document has only 7-bit characters, whatever the settings and
    the arguments hold: [makeCoT] always returns a string of characters
    below 128, the characters from 128 on being written as decimal
    character references, and so is the payload of every datagram that
    the handler sends. *)
Theorem X10_payload_is_seven_bit cfg :
  (forall (callsign uuid lat lon alt : string) (batt : option string)
          (w : world),
      exists doc w',
        makeCoT cfg callsign uuid lat lon alt batt w = (Ok doc, w') /\
        string_forall is_ascii doc = true) /\
  (forall (packet : pyval) (w : world) (dg : datagram),
      sent (snd (onReceive cfg packet w)) = sent w ++ [dg] ->
      string_forall is_ascii (dg_payload dg) = true).
Proof.
  assert (Hdoc : forall tree,
            string_forall is_ascii (XML_DECL +:+ tostring tree) = true).
  { intros tree. rewrite string_forall_append. unfold tostring.
    now rewrite encode_ascii_is_ascii. }
  split.
  - intros callsign uuid lat lon alt batt w. rewrite makeCoT_run.
    eexists. eexists. split; [reflexivity | apply Hdoc].
  - intros packet w dg.
    destruct (onReceive_sent cfg packet w)
      as [->|(cs & u & la & lo & b & _ & ->)].
    + intros E. apply (f_equal length) in E.
      rewrite length_app in E. simpl in E. lia.
    + intros [= <-]%app_inv_head. apply Hdoc.
Qed.

Lemma X10_payload_witness :
  exists dg,
    sent (snd (onReceive latin_config packet5 w_up)) = [dg] /\
    string_forall is_ascii (dg_payload dg) = true /\
    is_substring "name=" (dg_payload dg) = true /\
    is_substring "Gr&#252;n" (dg_payload dg) = true.
Proof.
  eexists. split; [reflexivity|]. split.
  - apply (proj2 (X10_payload_is_seven_bit latin_config) packet5 w_up).
    reflexivity.
  - split; vm_compute; reflexivity.
Defined.

(* ------------------------------------------------------------------- *)
(** *** Timestamps of a fixed width *)

(** The fields of a timestamp, in the order they are written. *)
Lemma strftime_TIME_FORMAT (tm : struct_time) :
  let two v := zfill 2 (dec_of_N (Z.to_N v)) in
  strftime TIME_FORMAT tm =
  fmt_d_int (tm_year tm) +:+ "-" +:+ two (tm_mon tm) +:+ "-" +:+
  two (tm_mday tm) +:+ "T" +:+ two (tm_hour tm) +:+ ":" +:+
  two (tm_min tm) +:+ ":" +:+ two (tm_sec tm) +:+ ".000Z".
Proof. reflexivity. Qed.

(** The timestamp of an instant from 1970 to 9999. *)
Lemma stamp_fixed_width (secs : Z) :
  0 <= secs < 253402300800 ->
  let tm := gmtime secs in
  let two v := zfill 2 (dec_of_N (Z.to_N v)) in
  String.length (stamp secs) = 24%nat /\
  (1970 <= tm_year tm <= 9999 /\ 1 <= tm_mon tm <= 12 /\
   1 <= tm_mday tm <= 31 /\ 0 <= tm_hour tm < 24 /\
   0 <= tm_min tm < 60 /\ 0 <= tm_sec tm < 60) /\
  stamp secs =
    dec_of_N (Z.to_N (tm_year tm)) +:+ "-" +:+ two (tm_mon tm) +:+ "-" +:+
    two (tm_mday tm) +:+ "T" +:+ two (tm_hour tm) +:+ ":" +:+
    two (tm_min tm) +:+ ":" +:+ two (tm_sec tm) +:+ ".000Z" /\
  String.length (dec_of_N (Z.to_N (tm_year tm))) = 4%nat /\
  Forall (fun v => String.length (two v) = 2%nat)
         [tm_mon tm; tm_mday tm; tm_hour tm; tm_min tm; tm_sec tm].
Proof.
  intros H tm two.
  pose proof (gmtime_range secs H) as R. fold tm in R.
  destruct R as (Hy & Hm & Hd & Hh & Hmi & Hs).
  destruct (four_digits (tm_year tm) ltac:(lia)) as (Ey & Ly).
  assert (L2 : forall v, 0 <= v <= 99 -> String.length (two v) = 2%nat)
    by (intros v Hv; apply two_digits, Hv).
  assert (E : stamp secs =
    dec_of_N (Z.to_N (tm_year tm)) +:+ "-" +:+ two (tm_mon tm) +:+ "-" +:+
    two (tm_mday tm) +:+ "T" +:+ two (tm_hour tm) +:+ ":" +:+
    two (tm_min tm) +:+ ":" +:+ two (tm_sec tm) +:+ ".000Z").
  { rewrite <- Ey. apply strftime_TIME_FORMAT. }
  split; [|split; [tauto | split; [exact E | split; [exact Ly|]]]].
  - rewrite E, !length_append, Ly, !L2 by lia. reflexivity.
  - repeat constructor; apply L2; lia.
Qed.

(** X12: the timestamps have a fixed width.  When the three clock
    queries of [makeCoT] fall between 1970 and the end of the year 9999
    (the validity period included), each of [time], [start] and [stale]
    is a string of 24 characters: a year of four digits, then month, day,
    hour, minute and second of two digits each, separated by [-], [-],
    [T], [:] and [:], and the constant [.000Z]; the month is from 1 to 12,
    the day from 1 to 31, the hour below 24, the minute and the second
    below 60. *)
Theorem X12_timestamps_fixed_width
    cfg (callsign uuid lat lon alt : string) (batt : option string)
    (w : world) :
  (forall n, (n < 3)%nat ->
     0 <= clock w (ticks w + n)%nat /\
     clock w (ticks w + n)%nat + POINT_EVT_TTL * NS < 253402300800 * NS) ->
  exists tree w',
    makeCoT_cot cfg callsign uuid lat lon alt batt w = (Ok tree, w') /\
    forall k, In k ["time"; "start"; "stale"] ->
      exists (t : string) (tm : struct_time),
        let two v := zfill 2 (dec_of_N (Z.to_N v)) in
        get tree k = Some t /\
        String.length t = 24%nat /\
        (1970 <= tm_year tm <= 9999 /\ 1 <= tm_mon tm <= 12 /\
         1 <= tm_mday tm <= 31 /\ 0 <= tm_hour tm < 24 /\
         0 <= tm_min tm < 60 /\ 0 <= tm_sec tm < 60) /\
        t = dec_of_N (Z.to_N (tm_year tm)) +:+ "-" +:+ two (tm_mon tm) +:+
            "-" +:+ two (tm_mday tm) +:+ "T" +:+ two (tm_hour tm) +:+ ":" +:+
            two (tm_min tm) +:+ ":" +:+ two (tm_sec tm) +:+ ".000Z" /\
        String.length (dec_of_N (Z.to_N (tm_year tm))) = 4%nat /\
        Forall (fun v => String.length (two v) = 2%nat)
               [tm_mon tm; tm_mday tm; tm_hour tm; tm_min tm; tm_sec tm].
Proof.
  intros Hc. rewrite makeCoT_cot_run. eexists. eexists.
  split; [reflexivity|].
  assert (Hns : 0 < NS) by reflexivity.
  assert (Hin : forall t, 0 <= t ->
            t + POINT_EVT_TTL * NS < 253402300800 * NS ->
            0 <= t / NS < 253402300800 /\
            0 <= (t + POINT_EVT_TTL * NS) / NS < 253402300800).
  { intros t H0 H1. unfold POINT_EVT_TTL, NS in *.
    Z.div_mod_to_equations. lia. }
  pose proof (Hc 0%nat ltac:(lia)) as (A0 & B0).
  pose proof (Hc 1%nat ltac:(lia)) as (A1 & B1).
  pose proof (Hc 2%nat ltac:(lia)) as (A2 & B2).
  replace (ticks w + 0)%nat with (ticks w) in * by lia.
  replace (ticks w + 1)%nat with (S (ticks w)) in * by lia.
  replace (ticks w + 2)%nat with (S (S (ticks w))) in * by lia.
  intros k [<-|[<-|[<-|[]]]].
  - destruct (stamp_fixed_width (clock w (ticks w) / NS))
      as (H1 & H2 & H3 & H4 & H5); [apply Hin; assumption|].
    eexists. exists (gmtime (clock w (ticks w) / NS)). cbv zeta.
    split; [reflexivity|]. auto.
  - destruct (stamp_fixed_width (clock w (S (ticks w)) / NS))
      as (H1 & H2 & H3 & H4 & H5); [apply Hin; assumption|].
    eexists. exists (gmtime (clock w (S (ticks w)) / NS)). cbv zeta.
    split; [reflexivity|]. auto.
  - destruct (stamp_fixed_width
                ((clock w (S (S (ticks w))) + POINT_EVT_TTL * NS) / NS))
      as (H1 & H2 & H3 & H4 & H5); [apply Hin; assumption|].
    eexists.
    exists (gmtime ((clock w (S (S (ticks w))) + POINT_EVT_TTL * NS) / NS)).
    cbv zeta. split; [reflexivity|]. auto.
Qed.

Lemma X12_timestamps_witness :
  exists tree w',
    makeCoT_cot default_config "" "" "" "" "" None w_up = (Ok tree, w') /\
    exists t, get tree "stale" = Some t /\ String.length t = 24%nat.
Proof.
  destruct (X12_timestamps_fixed_width default_config "" "" "" "" "" None w_up)
    as (tree & w' & H & Hk).
  - intros n Hn. unfold w_up, clock_06, POINT_EVT_TTL, NS. simpl. lia.
  - exists tree, w'. split; [exact H|].
    destruct (Hk "stale") as (t & tm & Ht & Hl & _); [simpl; tauto|].
    exists t. split; [exact Ht | exact Hl].
Defined.

(* ------------------------------------------------------------------- *)
(** *** One packet after the other *)

(** The document depends on the world through the clock and the number
    of queries made. *)
Lemma document_in_ext cfg callsign uuid lat lon b (w1 w2 : world) :
  clock w1 = clock w2 -> ticks w1 = ticks w2 ->
  document_in cfg callsign uuid lat lon b w1 =
  document_in cfg callsign uuid lat lon b w2.
Proof. unfold document_in, tree_in. now intros -> ->. Qed.

(** A call on a well-typed packet with a position, when the transport
    works, and the world it leaves. *)
Lemma onReceive_typed_run
    cfg (m d p : gmap string pyval) (z : Z) (x y : spec_float)
    (b : option string) (w : world) :
  m !! "decoded" = Some (PyDict d) ->
  d !! "position" = Some (PyDict p) ->
  m !! "from" = Some (PyInt z) ->
  p !! "latitude" = Some (PyFloat x) ->
  p !! "longitude" = Some (PyFloat y) ->
  battery_arg (default (PyBool false) (p !! "batteryLevel")) = Ok b ->
  can_socket w = true -> can_send w = true ->
  exists w',
    onReceive cfg (PyDict m) w = (Ok tt, w') /\
    clock w' = clock w /\ can_socket w' = true /\ can_send w' = true /\
    socks w' = socks w /\ ticks w' = (ticks w + 3)%nat /\
    sent w' =
    sent w ++ [mk_datagram (fresh (socks w))
                 (document_in cfg ("mesh-" +:+ fmt_08x_int z)
                    (UUID_ROOT +:+ "-00" +:+ fmt_08x_int z)
                    (fmt_f_float x) (fmt_f_float y) b w)
                 (ATAK_HOST cfg) (ATAK_PORT cfg)].
Proof.
  intros Hd Hp Hf Hx Hy Hb Hs Hn.
  rewrite (onReceive_typed cfg m d p z x y b w Hd Hp Hf Hx Hy Hb).
  rewrite transmit_sends by assumption.
  destruct (built_frame cfg ("mesh-" +:+ fmt_08x_int z)
              (UUID_ROOT +:+ "-00" +:+ fmt_08x_int z)
              (fmt_f_float x) (fmt_f_float y) b w)
    as (Hc & Hcs & Hcd & Hso & Hse & Ht & _).
  eexists. split; [reflexivity|]. world_simpl.
  rewrite Hc, Hcs, Hcd, Hso, Ht. split_and!; auto. lia.
Qed.

(** X11: two packets handled in turn, when the transport works, give two
    datagrams in the order of arrival, both to the configured host and
    port and both from the same descriptor, since the first call closed
    it; the sockets are left as they were, and the clock has been queried
    six times, the timestamps of the second document being those of the
    fourth, fifth and sixth queries. *)
Theorem X11_two_packets_in_turn
    cfg (m1 d1 p1 m2 d2 p2 : gmap string pyval) (z1 z2 : Z)
    (x1 y1 x2 y2 : spec_float) (b1 b2 : option string) (w : world) :
  m1 !! "decoded" = Some (PyDict d1) -> d1 !! "position" = Some (PyDict p1) ->
  m1 !! "from" = Some (PyInt z1) ->
  p1 !! "latitude" = Some (PyFloat x1) ->
  p1 !! "longitude" = Some (PyFloat y1) ->
  battery_arg (default (PyBool false) (p1 !! "batteryLevel")) = Ok b1 ->
  m2 !! "decoded" = Some (PyDict d2) -> d2 !! "position" = Some (PyDict p2) ->
  m2 !! "from" = Some (PyInt z2) ->
  p2 !! "latitude" = Some (PyFloat x2) ->
  p2 !! "longitude" = Some (PyFloat y2) ->
  battery_arg (default (PyBool false) (p2 !! "batteryLevel")) = Ok b2 ->
  can_socket w = true -> can_send w = true ->
  let both : M unit :=
    _ ← onReceive cfg (PyDict m1); onReceive cfg (PyDict m2) in
  let r := both w in
  let fd := fresh (socks w) in
  let doc1 :=
    document_in cfg ("mesh-" +:+ fmt_08x_int z1)
      (UUID_ROOT +:+ "-00" +:+ fmt_08x_int z1)
      (fmt_f_float x1) (fmt_f_float y1) b1 w in
  let doc2 :=
    document_in cfg ("mesh-" +:+ fmt_08x_int z2)
      (UUID_ROOT +:+ "-00" +:+ fmt_08x_int z2)
      (fmt_f_float x2) (fmt_f_float y2) b2 (with_ticks (ticks w + 3) w) in
  fst r = Ok tt /\
  sent (snd r) =
    sent w ++ [mk_datagram fd doc1 (ATAK_HOST cfg) (ATAK_PORT cfg);
               mk_datagram fd doc2 (ATAK_HOST cfg) (ATAK_PORT cfg)] /\
  socks (snd r) = socks w /\
  ticks (snd r) = (ticks w + 6)%nat.
Proof.
  intros Hd1 Hp1 Hf1 Hx1 Hy1 Hb1 Hd2 Hp2 Hf2 Hx2 Hy2 Hb2 Hs Hn.
  cbv zeta.
  destruct (onReceive_typed_run cfg m1 d1 p1 z1 x1 y1 b1 w)
    as (w1 & E1 & Wc & Wcs & Wcd & Wso & Wt & Wse); try assumption.
  destruct (onReceive_typed_run cfg m2 d2 p2 z2 x2 y2 b2 w1)
    as (w2 & E2 & _ & _ & _ & Wso2 & Wt2 & Wse2); try assumption.
  pose proof (document_in_ext cfg ("mesh-" +:+ fmt_08x_int z2)
                (UUID_ROOT +:+ "-00" +:+ fmt_08x_int z2)
                (fmt_f_float x2) (fmt_f_float y2) b2
                w1 (with_ticks (ticks w + 3) w) Wc Wt) as Edoc.
  rewrite Edoc in Wse2.
  unfold mbind, M_bind, bind. rewrite E1, E2. cbn [fst snd].
  split; [reflexivity|]. split; [|split].
  - rewrite Wse2, Wse, Wso, <- app_assoc. reflexivity.
  - rewrite Wso2. exact Wso.
  - rewrite Wt2, Wt. lia.
Qed.

Lemma X11_two_packets_witness :
  exists doc1 doc2,
    sent (snd ((_ ← onReceive default_config packet5;
                onReceive default_config (PyDict (m_of (p5_batt 87))))
               w_up)) =
    [mk_datagram 0 doc1 "239.2.3.1" 6969; mk_datagram 0 doc2 "239.2.3.1" 6969].
Proof.
  destruct (X11_two_packets_in_turn default_config
              (m_of p5) (d_of p5) p5
              (m_of (p5_batt 87)) (d_of (p5_batt 87)) (p5_batt 87)
              439041101 439041101 lat5 lon5 lat5 lon5 None (Some "87") w_up)
    as (_ & H & _); try reflexivity.
  eexists. eexists. exact H.
Defined.

(* ------------------------------------------------------------------- *)
(** *** The size of a datagram *)

(** X13: a datagram is small.  For a packet with a 32-bit source id, a
    latitude within 90 degrees, a longitude within 180, and a battery
    level that is absent or an integer from 0 to 100, handled while the
    clock is between 1970 and 9999, the payload of the datagram sent has
    at most 581 bytes besides the configured type, team and role as they
    are written, none of whose characters takes more than six bytes; with
    the default settings that is at most 606 bytes. *)
Theorem X13_datagram_size
    cfg (m d p : gmap string pyval) (z : Z) (x y : spec_float) (w : world)
    (dg : datagram) :
  m !! "decoded" = Some (PyDict d) ->
  d !! "position" = Some (PyDict p) ->
  m !! "from" = Some (PyInt z) ->
  p !! "latitude" = Some (PyFloat x) ->
  p !! "longitude" = Some (PyFloat y) ->
  0 <= z < 2 ^ 32 ->
  float_abs_le x 90 = true -> float_abs_le y 180 = true ->
  (p !! "batteryLevel" = None \/
   exists n, p !! "batteryLevel" = Some (PyInt n) /\ 0 <= n <= 100) ->
  (forall n, (n < 3)%nat ->
     0 <= clock w (ticks w + n)%nat /\
     clock w (ticks w + n)%nat + POINT_EVT_TTL * NS < 253402300800 * NS) ->
  sent (snd (onReceive cfg (PyDict m) w)) = sent w ++ [dg] ->
  let written s := String.length (encode_ascii (escape_attrib s)) in
  let settings :=
    (written (UNIT_TYPE cfg) + written (UNIT_TEAM cfg) +
     written (UNIT_ROLE cfg))%nat in
  (String.length (dg_payload dg) <= 581 + settings)%nat /\
  (settings <= 6 * (String.length (UNIT_TYPE cfg) +
                    String.length (UNIT_TEAM cfg) +
                    String.length (UNIT_ROLE cfg)))%nat /\
  (cfg = default_config -> (String.length (dg_payload dg) <= 606)%nat).
Proof.
  intros Hd Hp Hf Hx Hy Hz Hlat Hlon Hbatt Hclock Hsent written settings.
  assert (Hb : exists b,
            battery_arg (default (PyBool false) (p !! "batteryLevel")) = Ok b /\
            (match b with
             | Some s => if String.eqb s "" then 0 else 21 + written s
             | None => 0
             end <= 24)%nat).
  { destruct Hbatt as [->|(n & -> & Hn)].
    - exists None. split; [reflexivity | lia].
    - simpl. rewrite battery_arg_int. eexists. split; [reflexivity|].
      destruct (n =? 0); [lia|]. rewrite fmt_d_int_nonempty.
      subst written. cbv beta.
      rewrite (written_plain _ (fmt_d_int_plain n)).
      pose proof (fmt_d_int_length_100 n Hn). lia. }
  destruct Hb as (b & Hb & Hbl).
  assert (Hno : sent w <> sent w ++ [dg]).
  { intros E. apply (f_equal length) in E.
    rewrite length_app in E. simpl in E. lia. }
  rewrite (onReceive_typed cfg m d p z x y b w Hd Hp Hf Hx Hy Hb) in Hsent.
  assert (Hdoc : dg_payload dg =
                 document_in cfg ("mesh-" +:+ fmt_08x_int z)
                   (UUID_ROOT +:+ "-00" +:+ fmt_08x_int z)
                   (fmt_f_float x) (fmt_f_float y) b w).
  { destruct (can_socket w) eqn:Hs; [destruct (can_send w) eqn:Hn|].
    - rewrite transmit_sends in Hsent by assumption.
      revert Hsent. world_simpl. now intros [= <-]%app_inv_head.
    - rewrite transmit_send_fails in Hsent by assumption.
      elim Hno. rewrite <- Hsent. symmetry. apply built_sent.
    - rewrite transmit_no_socket in Hsent by assumption.
      elim Hno. rewrite <- Hsent. symmetry. apply built_sent. }
  assert (Hns : 0 < NS) by reflexivity.
  assert (Hin : forall t, 0 <= t ->
            t + POINT_EVT_TTL * NS < 253402300800 * NS ->
            0 <= t / NS < 253402300800 /\
            0 <= (t + POINT_EVT_TTL * NS) / NS < 253402300800).
  { intros t H0 H1. unfold POINT_EVT_TTL, NS in *.
    Z.div_mod_to_equations. lia. }
  pose proof (Hclock 0%nat ltac:(lia)) as (A0 & B0).
  pose proof (Hclock 1%nat ltac:(lia)) as (A1 & B1).
  pose proof (Hclock 2%nat ltac:(lia)) as (A2 & B2).
  replace (ticks w + 0)%nat with (ticks w) in * by lia.
  replace (ticks w + 1)%nat with (S (ticks w)) in * by lia.
  replace (ticks w + 2)%nat with (S (S (ticks w))) in * by lia.
  destruct (stamp_fixed_width (clock w (ticks w) / NS)) as (T1 & _);
    [apply Hin; assumption|].
  destruct (stamp_fixed_width (clock w (S (ticks w)) / NS)) as (T2 & _);
    [apply Hin; assumption|].
  destruct (stamp_fixed_width
              ((clock w (S (S (ticks w))) + POINT_EVT_TTL * NS) / NS))
    as (T3 & _); [apply Hin; assumption|].
  destruct (fmt_08x_int_32 z Hz) as (Lz & _ & _).
  pose proof (fmt_f_float_length x 90 1 Hlat ltac:(simpl; lia)) as Lx.
  pose proof (fmt_f_float_length y 180 2 Hlon ltac:(simpl; lia)) as Ly.
  assert (Hlen : (String.length (dg_payload dg) <= 581 + settings)%nat).
  { rewrite Hdoc. unfold document_in, tree_in. rewrite cot_length.
    fold (written (UNIT_TYPE cfg)). fold (written (UNIT_TEAM cfg)).
    fold (written (UNIT_ROLE cfg)). fold settings.
    rewrite !(written_plain _ (stamp_plain _)), T1, T2, T3.
    rewrite !(written_plain _ (fmt_f_float_plain _)).
    assert (Hcs : string_forall is_plain ("mesh-" +:+ fmt_08x_int z) = true)
      by (rewrite string_forall_append, fmt_08x_int_plain; reflexivity).
    assert (Huu : string_forall is_plain
                    (UUID_ROOT +:+ "-00" +:+ fmt_08x_int z) = true)
      by (rewrite !string_forall_append, fmt_08x_int_plain; reflexivity).
    rewrite (written_plain _ Hcs), (written_plain _ Huu).
    rewrite !length_append, Lz.
    change (String.length (encode_ascii (escape_attrib "9999999.0")))
      with 9%nat.
    change (String.length "mesh-") with 5%nat.
    change (String.length UUID_ROOT) with 23%nat.
    change (String.length "-00") with 3%nat.
    subst settings written. cbv beta in *. lia. }
  subst settings written. cbv beta in *.
  split; [exact Hlen|]. split.
  - pose proof (written_bound (UNIT_TYPE cfg)).
    pose proof (written_bound (UNIT_TEAM cfg)).
    pose proof (written_bound (UNIT_ROLE cfg)). lia.
  - intros ->. revert Hlen.
    change (String.length
              (encode_ascii (escape_attrib (UNIT_TYPE default_config))))
      with 9%nat.
    change (String.length
              (encode_ascii (escape_attrib (UNIT_TEAM default_config))))
      with 5%nat.
    change (String.length
              (encode_ascii (escape_attrib (UNIT_ROLE default_config))))
      with 11%nat.
    lia.
Qed.

Lemma X13_datagram_size_witness :
  exists dg,
    sent (snd (onReceive default_config (PyDict (m_of (p5_batt 87))) w_up))
      = [dg] /\
    (String.length (dg_payload dg) <= 606)%nat.
Proof.
  eexists. split; [reflexivity|].
  apply (X13_datagram_size default_config (m_of (p5_batt 87))
           (d_of (p5_batt 87)) (p5_batt 87) 439041101 lat5 lon5 w_up);
    try reflexivity.
  - lia.
  - right. exists 87. split; [reflexivity | lia].
  - intros n Hn. unfold w_up, clock_06, POINT_EVT_TTL, NS. simpl. lia.
Defined.

End Mesh2CotFacts.

